(** * Smart water grid: synthetic series generator and leak injector

    A shallow embedding of [data_generator.py] (with the network of
    [network_builder.py]) and the properties of [generate_sensor_data],
    [generate_consumption_data] and [inject_leak_event].

    Conventions of the embedding.
    - Python floats are IEEE binary64 numbers: Rocq's primitive [float].
      The attributes [base_demand] and [pump_rate] hold an int, a float
      or a string ([Py.scalar]): ints are added and compared exactly,
      and converted to a float, with [OverflowError] when they are too
      large, where the code adds them to or multiplies them by a float;
      a string raises [TypeError] where the code computes with it.
      The attributes [capacity] and [current_level] are read through
      their conversion to binary64, which is what lines 70-72 do with
      them (numpy converts an int operand before it adds or compares,
      pandas when it stores the value); a value that does not convert
      is outside the model, as are attributes of any other type and a
      sampling interval that is not a positive number of minutes.
      The integer literals 400000, 50000, ... that only meet floats
      denote the same binary64 values.
    - A [pandas.Timestamp] is a number of whole seconds since
      1970-01-01T00:00:00 (naive, no time zone).
    - [numpy]'s process-wide random generator and [numpy.sin] are an
      interface ([NumPy]); the generator state is threaded through every
      call that draws from it.
    - Python exceptions are values of [exn]; a computation that may raise
      and may draw random numbers lives in the monad [M].
    - [print] is not modelled. *)

From Stdlib Require Import List String ZArith Lia Bool Floats Relations FinFun.
From Stdlib Require Import Sorted.
Import ListNotations.

Set Warnings "-inexact-float".

Open Scope string_scope.
Open Scope list_scope.
Open Scope Z_scope.

(* ================================================================= *)
(** ** Python: exceptions, built-ins *)

Module Py.

Inductive exn : Type :=
| KeyError (key : string)
| UnboundLocalError (var : string)
| NetworkXError (node : string)
| OverflowError
| TypeError.

Inductive outcome (A : Type) : Type :=
| Ok (a : A)
| Raise (e : exn).

Arguments Ok {A} a.
Arguments Raise {A} e.

Definition obind {A B : Type} (o : outcome A) (k : A -> outcome B) : outcome B :=
  match o with
  | Ok a => k a
  | Raise e => Raise e
  end.

(** [d[key]] on an attribute that may be absent. *)
Definition getitem {A : Type} (key : string) (field : option A) : outcome A :=
  match field with
  | Some a => Ok a
  | None => Raise (KeyError key)
  end.

(** [d.get(key, default)]. *)
Definition get {A : Type} (field : option A) (default : A) : A :=
  match field with
  | Some a => a
  | None => default
  end.

(** [max(a, b)] and [min(a, b)] on floats: the first argument is kept
    unless the second is strictly greater (resp. smaller). *)
Definition max (a b : float) : float := if (a <? b)%float then b else a.
Definition min (a b : float) : float := if (b <? a)%float then b else a.

(** [float(n)] for a Python int. *)
Definition float_of_int (n : Z) : float :=
  if n <? 0 then PrimFloat.opp (PrimFloat.of_uint63 (Uint63.of_Z (- n)))
  else PrimFloat.of_uint63 (Uint63.of_Z n).

(** What a numeric attribute may hold: an int of any size, a float, or
    a string. *)
Inductive scalar : Type :=
| PyInt (n : Z)
| PyFloat (x : float)
| PyStr (s : string).

(** [float(n)] for an int of any size: the nearest binary64 number,
    ties to even; [OverflowError] when that would be infinite. *)
Definition int_to_float (n : Z) : outcome float :=
  let x := SF2Prim (binary_normalize prec emax n 0 false) in
  if PrimFloat.is_infinity x then Raise OverflowError else Ok x.

(** The float an arithmetic operation with a float operand makes of its
    other operand; a string has none. *)
Definition to_float (a : scalar) : outcome float :=
  match a with
  | PyInt n => int_to_float n
  | PyFloat x => Ok x
  | PyStr _ => Raise TypeError
  end.

(** [a + b]: exact on two ints, in binary64 as soon as one operand is
    a float; two strings are concatenated, a string and a number
    raise. *)
Definition add (a b : scalar) : outcome scalar :=
  match a, b with
  | PyInt m, PyInt n => Ok (PyInt (m + n))
  | PyStr s, PyStr t => Ok (PyStr (s ++ t))
  | PyStr _, _ => Raise TypeError
  | _, PyStr _ => Raise TypeError
  | _, _ =>
      obind (to_float a) (fun x =>
      obind (to_float b) (fun y => Ok (PyFloat (x + y)%float)))
  end.

(** [a * f] for a float [f]. *)
Definition times_float (a : scalar) (f : float) : outcome float :=
  obind (to_float a) (fun x => Ok (x * f)%float).

(** [a > 0]. *)
Definition gt_zero (a : scalar) : outcome bool :=
  match a with
  | PyInt n => Ok (0 <? n)
  | PyFloat x => Ok (0 <? x)%float
  | PyStr _ => Raise TypeError
  end.

(** [x in xs] for a list of strings. *)
Definition contains (x : string) (xs : list string) : bool :=
  existsb (String.eqb x) xs.

End Py.

Notation "'let?' x ':=' e 'in' k" :=
  (Py.obind e (fun x => k))
  (at level 10, x name, e at level 100, k at level 200).

(* ================================================================= *)
(** ** pandas: timestamps, [date_range], frames with an index *)

Module Pandas.

Definition Timestamp : Type := Z.

Definition seconds_per_day : Z := 86400.

(** Days since the epoch of the first day of civil year [y], month [m],
    day [d] (proleptic Gregorian calendar). *)
Definition days_from_civil (y m d : Z) : Z :=
  let y' := if m <=? 2 then y - 1 else y in
  let era := y' / 400 in
  let yoe := y' - era * 400 in
  let doy := (153 * (if 2 <? m then m - 3 else m + 9) + 2) / 5 + d - 1 in
  let doe := yoe * 365 + yoe / 4 - yoe / 100 + doy in
  era * 146097 + doe - 719468.

(** Civil year of a day number. *)
Definition year_of_days (days : Z) : Z :=
  let z := days + 719468 in
  let era := z / 146097 in
  let doe := z - era * 146097 in
  let yoe := (doe - doe / 1460 + doe / 36524 - doe / 146096) / 365 in
  let doy := doe - (365 * yoe + yoe / 4 - yoe / 100) in
  let mp := (5 * doy + 2) / 153 in
  let m := if mp <? 10 then mp + 3 else mp - 9 in
  let y := yoe + era * 400 in
  if m <=? 2 then y + 1 else y.

(** [timestamp.hour], in 0..23. *)
Definition hour (t : Timestamp) : Z := (t mod seconds_per_day) / 3600.

(** [timestamp.weekday()], Monday = 0 .. Sunday = 6. *)
Definition weekday (t : Timestamp) : Z := (t / seconds_per_day + 3) mod 7.

(** [timestamp.dayofyear], 1 January = 1. *)
Definition dayofyear (t : Timestamp) : Z :=
  let days := t / seconds_per_day in
  days - days_from_civil (year_of_days days) 1 1 + 1.

(** [pd.date_range(start=, end=, freq='<n>min')] for a positive number of
    minutes: start, start + n min, ... up to and including [end_time]. *)
Definition date_range (start_time end_time : Timestamp) (minutes : positive)
  : list Timestamp :=
  let step := 60 * Z.pos minutes in
  if end_time <? start_time then []
  else map (fun k => start_time + Z.of_nat k * step)
           (seq 0 (S (Z.to_nat ((end_time - start_time) / step)))).

(** A frame is a list of rows, each with its index label. *)
Definition DataFrame (A : Type) : Type := list (Z * A).

(** [pd.DataFrame(data)] on a list of records: the default [RangeIndex]. *)
Definition RangeIndex (n : nat) : list Z := map Z.of_nat (seq 0 n).

Definition mk_DataFrame {A : Type} (data : list A) : DataFrame A :=
  combine (RangeIndex (List.length data)) data.

(** [df.index]. *)
Definition index {A : Type} (df : DataFrame A) : list Z := map fst df.

(** [df.loc[df.index == label, col] = v], with [set v] writing the column
    into a row: every row carrying the label is written. *)
Definition loc_assign {A : Type} (df : DataFrame A) (label : Z) (set : A -> A)
  : DataFrame A :=
  map (fun r => if fst r =? label then (fst r, set (snd r)) else r) df.

End Pandas.

(* ================================================================= *)
(** ** networkx: directed graphs with node attributes *)

Module Nx.

Import Py.

(** The attributes of a node that the generator reads
    ([coords], [status] and [sensors] are never read by it). *)
Record NodeAttrs : Type := mkAttrs {
  a_type : option string;
  a_sensor_type : option string;
  a_attached_to : option string;
  a_base_demand : option scalar;
  a_demand_profile : option string;
  a_pump_rate : option scalar;
  a_current_level : option float;
  a_capacity : option float
}.

Definition no_attrs : NodeAttrs :=
  mkAttrs None None None None None None None None.

(** A [DiGraph]: nodes in insertion order with their attributes, and
    the directed edges in insertion order. *)
Record DiGraph : Type := mkDiGraph {
  node : list (string * NodeAttrs);
  adj : list (string * string)
}.

Fixpoint assoc {A : Type} (k : string) (l : list (string * A)) : option A :=
  match l with
  | [] => None
  | (k', a) :: l' => if String.eqb k k' then Some a else assoc k l'
  end.

Definition has_node (G : DiGraph) (n : string) : bool :=
  match assoc n (node G) with Some _ => true | None => false end.

(** [G.nodes[n]]. *)
Definition nodes_getitem (G : DiGraph) (n : string) : outcome NodeAttrs :=
  getitem n (assoc n (node G)).

(** [G.nodes[n][key]]. *)
Definition node_attr {A : Type} (G : DiGraph) (n key : string)
           (field : NodeAttrs -> option A) : outcome A :=
  let? attrs := nodes_getitem G n in getitem key (field attrs).

(** [[n for n, attrs in G.nodes(data=True) if attrs.get('type') == ty]]. *)
Definition nodes_of_type (G : DiGraph) (ty : string) : list string :=
  map fst
      (filter (fun na => match a_type (snd na) with
                         | Some t => String.eqb t ty
                         | None => false
                         end) (node G)).

(** [G.successors(n)]. *)
Definition successors (G : DiGraph) (n : string) : outcome (list string) :=
  if has_node G n
  then Ok (map snd (filter (fun e => String.eqb (fst e) n) (adj G)))
  else Raise (NetworkXError n).

(** One round of the reverse breadth-first search: the sources of the
    edges that enter [seen] and are not yet in [seen] are added. *)
Definition grow (G : DiGraph) (seen : list string) : list string :=
  filter (fun u => negb (contains u seen)
                   && existsb (fun e => String.eqb (fst e) u
                                        && contains (snd e) seen) (adj G))
         (map fst (adj G))
  ++ seen.

Fixpoint grow_n (G : DiGraph) (rounds : nat) (seen : list string) : list string :=
  match rounds with
  | O => seen
  | S r => grow_n G r (grow G seen)
  end.

(** [nx.ancestors(G, source)]: every node with a path to [source],
    [source] itself excluded; [NetworkXError] when [source] is not a
    node of [G]. *)
Definition ancestors (G : DiGraph) (source : string) : outcome (list string) :=
  if has_node G source
  then Ok (filter (fun u => negb (String.eqb u source))
                  (grow_n G (List.length (adj G)) [source]))
  else Raise (NetworkXError source).

(** [edge G u v]: there is a pipe from [u] to [v]. *)
Definition edge (G : DiGraph) (u v : string) : Prop := In (u, v) (adj G).

(** The nodes that a round of [grow] may still add. *)
Definition missing (G : DiGraph) (seen : list string) : list string :=
  filter (fun u => negb (contains u seen)) (map fst (adj G)).

(** [seen] is closed under predecessors. *)
Definition closed (G : DiGraph) (seen : list string) : Prop :=
  forall u v, edge G u v -> In v seen -> In u seen.

End Nx.

(* ================================================================= *)
(** ** numpy: the random generator and [sin] *)

Module Np.

(** [numpy.random] keeps one process-wide generator; [random_normal] and
    [random_uniform] take its state and return the draw with the next
    state. *)
Class NumPy : Type := {
  rng_state : Type;
  random_normal : float -> float -> rng_state -> float * rng_state;
  random_uniform : float -> float -> rng_state -> float * rng_state;
  sin : float -> float
}.

(** [np.pi], the binary64 number nearest to pi. *)
Definition pi : float := 0x1.921fb54442d18p+1%float.

(** A generator is quiet when every normal draw returns its mean: the
    noise terms are fixed to zero. *)
Definition quiet (np : NumPy) : Prop :=
  forall loc scale g, fst (random_normal loc scale g) = loc.

End Np.

(* ================================================================= *)
(** ** network_builder.py *)

Module NetworkBuilder.

Import Py Nx.

Definition reservoir (capacity current_level : float) : NodeAttrs :=
  mkAttrs (Some "Reservoir") None None None None None
          (Some current_level) (Some capacity).

Definition pump_station (pump_rate : scalar) : NodeAttrs :=
  mkAttrs (Some "PumpStation") None None None None (Some pump_rate) None None.

Definition junction : NodeAttrs :=
  mkAttrs (Some "Junction") None None None None None None None.

Definition consumption_zone (demand_profile : string) (base_demand : scalar)
  : NodeAttrs :=
  mkAttrs (Some "ConsumptionZone") None None (Some base_demand)
          (Some demand_profile) None None None.

Definition valve : NodeAttrs :=
  mkAttrs (Some "Valve") None None None None None None None.

Definition sensor (sensor_type attached_to : string) : NodeAttrs :=
  mkAttrs (Some "Sensor") (Some sensor_type) (Some attached_to)
          None None None None None.

(** The graph returned by [build_simple_water_network]: the nodes and
    the pipes in the order the builder adds them. *)
Definition build_simple_water_network : DiGraph :=
  {| node :=
       [ ("R1", reservoir 1000000 900000);
         ("P1", pump_station (PyInt 500));
         ("P2", pump_station (PyInt 400));
         ("J1", junction); ("J2", junction); ("J3", junction); ("J4", junction);
         ("Z1", consumption_zone "residential" (PyInt 100));
         ("Z2", consumption_zone "commercial" (PyInt 80));
         ("Z3", consumption_zone "industrial" (PyInt 120));
         ("V1", valve); ("V2", valve);
         ("S_F_J1", sensor "Flow" "J1");
         ("S_P_J1", sensor "Pressure" "J1");
         ("S_F_Z1", sensor "Flow" "Z1");
         ("S_P_Z1", sensor "Pressure" "Z1");
         ("S_F_Z2", sensor "Flow" "Z2");
         ("S_P_Z2", sensor "Pressure" "Z2");
         ("S_F_Z3", sensor "Flow" "Z3");
         ("S_P_Z3", sensor "Pressure" "Z3");
         ("S_L_R1", sensor "Level" "R1") ];
     adj :=
       [ ("R1", "P1"); ("R1", "P2");
         ("P1", "J1"); ("P2", "J3");
         ("J1", "V1"); ("V1", "J2");
         ("J1", "Z1");
         ("J2", "J4"); ("J3", "V2"); ("V2", "Z3");
         ("J4", "Z2"); ("J4", "Z3") ] |}.

End NetworkBuilder.

(* ================================================================= *)
(** ** data_generator.py *)

Module DataGenerator.

Import Py Pandas Nx Np.

Notation "a == b" := (String.eqb a b) (at level 70, no associativity).

(** One row of the sensor table. *)
Record SensorReading : Type := mkSensorReading {
  timestamp : Timestamp;
  sensor_id : string;
  attached_to : string;
  sensor_type : string;
  value : float
}.

(** One row of the consumption table. *)
Record ConsumptionReading : Type := mkConsumptionReading {
  c_timestamp : Timestamp;
  zone_id : string;
  consumption_liters_per_sec : float
}.

(** The defaults of the keyword arguments. *)
Definition default_sampling_interval_minutes : positive := 5%positive.
Definition default_severity_factor : float := 0.2%float.

(** The local variables of [generate_sensor_data] that live across loop
    iterations: the list under construction and [base_pressure], which
    is unbound until a Pressure sensor on a handled node type binds it. *)
Record SensorLocals : Type := mkSensorLocals {
  data : list SensorReading;
  base_pressure : option float
}.

Definition set_value (v : float) (row : SensorReading) : SensorReading :=
  mkSensorReading (timestamp row) (sensor_id row) (attached_to row)
                  (sensor_type row) v.

Section Generator.

Context {np : NumPy}.

(** Computations that may raise and that thread the generator state. *)
Definition M (A : Type) : Type := rng_state -> outcome A * rng_state.

Definition ret {A : Type} (a : A) : M A := fun g => (Ok a, g).

Definition bind {A B : Type} (m : M A) (k : A -> M B) : M B :=
  fun g => match m g with
           | (Ok a, g') => k a g'
           | (Raise e, g') => (Raise e, g')
           end.

Definition lift {A : Type} (o : outcome A) : M A := fun g => (o, g).

(** [np.random.normal(loc, scale)] and [np.random.uniform(low, high)]. *)
Definition normal (loc scale : float) : M float :=
  fun g => (Ok (fst (random_normal loc scale g)), snd (random_normal loc scale g)).

Definition uniform (low high : float) : M float :=
  fun g => (Ok (fst (random_uniform low high g)), snd (random_uniform low high g)).

Notation "x <- m ;; k" := (bind m (fun x => k))
  (at level 61, m at next level, right associativity).

(** [for x in xs: body], the loop-carried variables being [st]. *)
Fixpoint for_ {A St : Type} (xs : list A) (body : A -> St -> M St) (st : St)
  : M St :=
  match xs with
  | [] => ret st
  | x :: xs' => st' <- body x st ;; for_ xs' body st'
  end.

(** Lines 33-36: the demand of the ConsumptionZone nodes among the
    successors, added up from [acc]. *)
Fixpoint downstream (network : DiGraph) (neighbors : list string) (acc : scalar)
  : outcome scalar :=
  match neighbors with
  | [] => Ok acc
  | neighbor :: rest =>
      let? ty := node_attr network neighbor "type" a_type in
      if ty == "ConsumptionZone"
      then let? d := node_attr network neighbor "base_demand" a_base_demand in
           let? acc := add acc d in
           downstream network rest acc
      else downstream network rest acc
  end.

(** Lines 29-39: [base_flow] of a Flow sensor. *)
Definition base_flow (network : DiGraph) (attached_to_node : string)
  : outcome scalar :=
  let? ty := node_attr network attached_to_node "type" a_type in
  if ty == "ConsumptionZone"
  then node_attr network attached_to_node "base_demand" a_base_demand
  else if ty == "Junction"
  then let? neighbors := successors network attached_to_node in
       let? downstream_demand := downstream network neighbors (PyInt 0) in
       let? positive := gt_zero downstream_demand in
       Ok (if positive then downstream_demand else PyInt 150)
  else let? attrs := nodes_getitem network attached_to_node in
       Ok (get (a_pump_rate attrs) (PyInt 0)).

(** Lines 41-51: the diurnal factor of a Flow sensor, with its jitter. *)
Definition pattern_factor (hour : Z) : M float :=
  if (0 <=? hour) && (hour <? 6)
  then n <- normal 0 0.05 ;; ret (0.6 + n)%float
  else if (6 <=? hour) && (hour <? 10)
  then n <- normal 0 0.1 ;; ret (1.2 + n)%float
  else if (10 <=? hour) && (hour <? 17)
  then n <- normal 0 0.08 ;; ret (0.9 + n)%float
  else if (17 <=? hour) && (hour <? 22)
  then n <- normal 0 0.1 ;; ret (1.3 + n)%float
  else n <- normal 0 0.05 ;; ret (0.7 + n)%float.

(** Lines 56-63: the [if]/[elif] chain of a Pressure sensor, which binds
    [base_pressure] on four node types and leaves it as it was on any
    other. *)
Definition pressure_base (ty : string) (base_pressure : option float)
  : option float :=
  if ty == "ConsumptionZone" then Some 400000%float
  else if ty == "Junction" then Some 500000%float
  else if ty == "PumpStation" then Some 600000%float
  else if ty == "Reservoir" then Some 200000%float
  else base_pressure.

(** Reading the local [base_pressure]. *)
Definition load_base_pressure (base_pressure : option float) : outcome float :=
  match base_pressure with
  | Some b => Ok b
  | None => Raise (UnboundLocalError "base_pressure")
  end.

(** Lines 26-72: [value] of one sensor at one timestamp, and the local
    [base_pressure] afterwards. *)
Definition sensor_value (network : DiGraph) (ts : Timestamp)
           (sensor_type attached_to_node : string) (base_pressure : option float)
  : M (float * option float) :=
  if sensor_type == "Flow" then
    base <- lift (base_flow network attached_to_node) ;;
    factor <- pattern_factor (hour ts) ;;
    product <- lift (times_float base factor) ;;
    noise <- normal 0 5 ;;
    ret (max 0 (product + noise), base_pressure)%float
  else if sensor_type == "Pressure" then
    ty <- lift (node_attr network attached_to_node "type" a_type) ;;
    let base_pressure := pressure_base ty base_pressure in
    base <- lift (load_base_pressure base_pressure) ;;
    noise <- normal 0 10000 ;;
    ret (max 0 (base + noise), base_pressure)%float
  else if sensor_type == "Level" then
    if attached_to_node == "R1" then
      initial_level <- lift (node_attr network "R1" "current_level" a_current_level) ;;
      noise <- normal 0 10000 ;;
      let value :=
        (initial_level
         + sin (float_of_int (dayofyear ts) / 365 * 2 * pi) * 50000
         + noise)%float in
      capacity <- lift (node_attr network "R1" "capacity" a_capacity) ;;
      ret (max 0 (min capacity value), base_pressure)
    else ret (0%float, base_pressure)
  else ret (0%float, base_pressure).

(** Lines 22-80: the body of the inner loop. *)
Definition sensor_step (network : DiGraph) (ts : Timestamp) (sensor_id : string)
           (locals : SensorLocals) : M SensorLocals :=
  sensor_type <- lift (node_attr network sensor_id "sensor_type" a_sensor_type) ;;
  attached_to_node <- lift (node_attr network sensor_id "attached_to" a_attached_to) ;;
  vb <- sensor_value network ts sensor_type attached_to_node (base_pressure locals) ;;
  ret (mkSensorLocals
         (data locals
          ++ [mkSensorReading ts sensor_id attached_to_node sensor_type (fst vb)])%list
         (snd vb)).

Definition generate_sensor_data (network : DiGraph)
           (start_time end_time : Timestamp) (sampling_interval_minutes : positive)
  : M (DataFrame SensorReading) :=
  let time_index := date_range start_time end_time sampling_interval_minutes in
  let sensor_nodes := nodes_of_type network "Sensor" in
  locals <- for_ time_index
                 (fun ts => for_ sensor_nodes (sensor_step network ts))
                 (mkSensorLocals [] None) ;;
  ret (mk_DataFrame (data locals)).

(** Lines 99-112: the hour-bucket factor of a demand profile. *)
Definition bucket_factor (demand_profile : string) (hour : Z) : float :=
  if demand_profile == "residential" then
    if (0 <=? hour) && (hour <? 6) then 0.5%float
    else if (6 <=? hour) && (hour <? 9) then 1.5%float
    else if (9 <=? hour) && (hour <? 17) then 0.8%float
    else if (17 <=? hour) && (hour <? 21) then 1.8%float
    else 0.7%float
  else if demand_profile == "commercial" then
    if (0 <=? hour) && (hour <? 8) then 0.2%float
    else if (8 <=? hour) && (hour <? 18) then 1.5%float
    else 0.4%float
  else if demand_profile == "industrial" then
    if (0 <=? hour) && (hour <? 7) || (22 <=? hour) then 0.7%float
    else 1.3%float
  else 1.0%float.

(** Lines 114-118: the weekend adjustment of [daily_factor]. *)
Definition weekend_adjust (demand_profile : string) (weekday : Z)
           (daily_factor : float) : float :=
  if 5 <=? weekday then
    if (demand_profile == "commercial") || (demand_profile == "industrial")
    then (daily_factor * 0.7)%float
    else if demand_profile == "residential" then (daily_factor * 1.1)%float
    else daily_factor
  else daily_factor.

(** Line 121. *)
Definition seasonal_factor (day_of_year : Z) : float :=
  (1 + 0.2 * sin (2 * pi * float_of_int (day_of_year - 170) / 365))%float.

(** Lines 95-129: the body of the inner loop. *)
Definition consumption_step (network : DiGraph) (ts : Timestamp)
           (zone_id : string) (data : list ConsumptionReading)
  : M (list ConsumptionReading) :=
  base_demand <- lift (node_attr network zone_id "base_demand" a_base_demand) ;;
  demand_profile <- lift (node_attr network zone_id "demand_profile" a_demand_profile) ;;
  let daily_factor :=
    weekend_adjust demand_profile (weekday ts)
                   (bucket_factor demand_profile (hour ts)) in
  product <- lift (times_float base_demand daily_factor) ;;
  noise <- normal 0 2 ;;
  let value :=
    max 0 (product * seasonal_factor (dayofyear ts) + noise)%float in
  ret (data ++ [mkConsumptionReading ts zone_id value])%list.

Definition generate_consumption_data (network : DiGraph)
           (start_time end_time : Timestamp) (sampling_interval_minutes : positive)
  : M (DataFrame ConsumptionReading) :=
  let time_index := date_range start_time end_time sampling_interval_minutes in
  let consumption_zones := nodes_of_type network "ConsumptionZone" in
  data <- for_ time_index
               (fun ts => for_ consumption_zones (consumption_step network ts))
               [] ;;
  ret (mk_DataFrame data).

(** Lines 146 and 149: is the row's node the leak node or upstream of it? *)
Definition affected (upstream_nodes : list string) (leak_node_id : string)
           (row : SensorReading) : bool :=
  contains (attached_to row) upstream_nodes || (attached_to row == leak_node_id).

(** Line 145: [start_time <= row['timestamp'] <= end_time]. *)
Definition in_window_b (start_time end_time : Timestamp) (row : SensorReading)
  : bool :=
  (start_time <=? timestamp row) && (timestamp row <=? end_time).

(** Lines 145-150: the body of the loop over [sensor_df.iterrows()].
    [row] comes from the rows as they were when the iteration started;
    the writes go to the frame itself, to every row labelled [name]. *)
Definition leak_step (upstream_nodes : list string) (leak_node_id : string)
           (start_time end_time : Timestamp) (severity_factor : float)
           (labelled : Z * SensorReading) (sensor_df : DataFrame SensorReading)
  : M (DataFrame SensorReading) :=
  let name := fst labelled in
  let row := snd labelled in
  if in_window_b start_time end_time row then
    sensor_df <-
      (if (sensor_type row == "Flow") && affected upstream_nodes leak_node_id row
       then u <- uniform 0.8 1.2 ;;
            ret (loc_assign sensor_df name
                   (set_value (value row * (1 + severity_factor * u))%float))
       else ret sensor_df) ;;
    if (sensor_type row == "Pressure") && affected upstream_nodes leak_node_id row
    then u <- uniform 0.8 1.2 ;;
         ret (loc_assign sensor_df name
                (set_value (value row * (1 - severity_factor * u))%float))
    else ret sensor_df
  else ret sensor_df.

Definition inject_leak_event (sensor_df : DataFrame SensorReading)
           (network : DiGraph) (leak_node_id : string)
           (start_time end_time : Timestamp) (severity_factor : float)
  : M (DataFrame SensorReading) :=
  upstream_nodes <- lift (ancestors network leak_node_id) ;;
  for_ sensor_df
       (leak_step upstream_nodes leak_node_id start_time end_time severity_factor)
       sensor_df.

End Generator.

End DataGenerator.

(* ================================================================= *)
(** ** The properties, in the words of the specification *)

Module Spec.

Import Py Pandas Nx Np DataGenerator.

(** A run of a computation from generator state [g] returns [a]. *)
Definition returns {np : NumPy} {A : Type} (m : M A) (g : rng_state) (a : A)
  : Prop :=
  fst (m g) = Ok a.

(** Float order, as propositions. *)
Definition fle (x y : float) : Prop := (x <=? y)%float = true.
Definition flt (x y : float) : Prop := (x <? y)%float = true.

(** *** Rows and runs *)

(** [row] is what one pass of the loop body of [generate_sensor_data]
    appends: its value is the value [sensor_value] computes for the
    row's timestamp, sensor type and node, from some state of the local
    [base_pressure] and of the generator. *)
Definition sensor_row {np : NumPy} (G : DiGraph) (row : SensorReading) : Prop :=
  exists bp g bp' g',
    sensor_value G (timestamp row) (sensor_type row) (attached_to row) bp g
    = (Ok (value row, bp'), g').

(** [row] is what one pass of the loop body of
    [generate_consumption_data] appends. *)
Definition consumption_row {np : NumPy} (G : DiGraph) (row : ConsumptionReading)
  : Prop :=
  exists base_demand demand_profile g,
    node_attr G (zone_id row) "base_demand" a_base_demand = Ok base_demand
    /\ node_attr G (zone_id row) "demand_profile" a_demand_profile
       = Ok demand_profile
    /\ exists product,
        times_float base_demand
          (weekend_adjust demand_profile (weekday (c_timestamp row))
             (bucket_factor demand_profile (hour (c_timestamp row))))
        = Ok product
        /\ consumption_liters_per_sec row
           = max 0 (product * seasonal_factor (dayofyear (c_timestamp row))
                    + fst (random_normal 0 2 g))%float.

(** The outcome of a computation does not depend on the state of the
    generator it is run from. *)
Definition oblivious {np : NumPy} {A : Type} (m : M A) : Prop :=
  forall g1 g2, fst (m g1) = fst (m g2).

(** The key of a row: which timestamp, which entity. *)
Definition row_key (r : SensorReading) : Timestamp * string :=
  (timestamp r, sensor_id r).

Definition reading_key (r : ConsumptionReading) : Timestamp * string :=
  (c_timestamp r, zone_id r).

Definition sensor_key (r : Z * SensorReading) : Timestamp * string :=
  row_key (snd r).

Definition consumption_key (r : Z * ConsumptionReading) : Timestamp * string :=
  reading_key (snd r).

(** *** Leak injection *)

(** The timestamp lies in the window, both ends included. *)
Definition in_window (start_time end_time : Timestamp) (row : SensorReading)
  : Prop :=
  start_time <= timestamp row <= end_time.

(** The row's node is the leak node or has a directed path to it. *)
Definition leak_target (G : DiGraph) (leak_node_id : string)
           (row : SensorReading) : Prop :=
  attached_to row = leak_node_id
  \/ clos_trans string (edge G) (attached_to row) leak_node_id.

Section Leak.

Context {np : NumPy}.
Variables (G : DiGraph) (leak_node_id : string).
Variables (start_time end_time : Timestamp) (severity_factor : float).

(** [leak_injected before g after g']: [after] is [before] with every
    Flow row in the window and on a target node multiplied by
    [1 + severity * u], every Pressure row in the window and on a target
    node multiplied by [1 - severity * u], [u] a fresh draw of
    [uniform(0.8, 1.2)] per such row, taken in table order from state
    [g] on; every other row is the row of [before]; [g'] is the state
    after the last draw. *)
Inductive leak_injected
  : DataFrame SensorReading -> rng_state ->
    DataFrame SensorReading -> rng_state -> Prop :=
| leak_done (g : rng_state) : leak_injected [] g [] g
| leak_flow (name : Z) (row : SensorReading) (rest rest' : DataFrame SensorReading)
            (g g' : rng_state) :
    in_window start_time end_time row ->
    sensor_type row = "Flow" ->
    leak_target G leak_node_id row ->
    leak_injected rest (snd (random_uniform 0.8 1.2 g)) rest' g' ->
    leak_injected
      ((name, row) :: rest) g
      ((name,
        set_value (value row
                   * (1 + severity_factor * fst (random_uniform 0.8 1.2 g)))%float
                  row) :: rest') g'
| leak_pressure (name : Z) (row : SensorReading)
                (rest rest' : DataFrame SensorReading) (g g' : rng_state) :
    in_window start_time end_time row ->
    sensor_type row = "Pressure" ->
    leak_target G leak_node_id row ->
    leak_injected rest (snd (random_uniform 0.8 1.2 g)) rest' g' ->
    leak_injected
      ((name, row) :: rest) g
      ((name,
        set_value (value row
                   * (1 - severity_factor * fst (random_uniform 0.8 1.2 g)))%float
                  row) :: rest') g'
| leak_untouched (name : Z) (row : SensorReading)
                 (rest rest' : DataFrame SensorReading) (g g' : rng_state) :
    ~ (in_window start_time end_time row
       /\ (sensor_type row = "Flow" \/ sensor_type row = "Pressure")
       /\ leak_target G leak_node_id row) ->
    leak_injected rest g rest' g' ->
    leak_injected ((name, row) :: rest) g ((name, row) :: rest') g'.

End Leak.

(** *** Base flow of a junction *)

Definition is_consumption_zone (G : DiGraph) (n : string) : bool :=
  match assoc n (node G) with
  | Some attrs => match a_type attrs with
                  | Some ty => String.eqb ty "ConsumptionZone"
                  | None => false
                  end
  | None => false
  end.

(** The immediate successors of [n] that are ConsumptionZone nodes. *)
Definition successor_zones (G : DiGraph) (n : string) : list string :=
  filter (is_consumption_zone G)
         (map snd (filter (fun e => String.eqb (fst e) n) (adj G))).

Definition demand_of (G : DiGraph) (zone : string) : scalar :=
  match assoc zone (node G) with
  | Some attrs => get (a_base_demand attrs) (PyInt 0)
  | None => PyInt 0
  end.

(** The sum of a list of values, added to [acc] from left to right:
    exact while they are ints. *)
Fixpoint sum_from (acc : scalar) (xs : list scalar) : outcome scalar :=
  match xs with
  | [] => Ok acc
  | x :: xs' => let? acc' := add acc x in sum_from acc' xs'
  end.

(** The sum of [base_demand] over a list of zones. *)
Definition demand_sum (G : DiGraph) (zones : list string) : outcome scalar :=
  sum_from (PyInt 0) (map (demand_of G) zones).

(** *** Consumption profiles *)

(** The table of section 4.2: hour buckets [lo, hi) with their factor. *)
Definition profile_table (demand_profile : string)
  : list (Z * Z * float) :=
  if String.eqb demand_profile "residential" then
    [ (0, 6, 0.5%float); (6, 9, 1.5%float); (9, 17, 0.8%float);
      (17, 21, 1.8%float); (21, 24, 0.7%float) ]
  else if String.eqb demand_profile "commercial" then
    [ (0, 8, 0.2%float); (8, 18, 1.5%float); (18, 24, 0.4%float) ]
  else if String.eqb demand_profile "industrial" then
    [ (0, 7, 0.7%float); (22, 24, 0.7%float); (7, 22, 1.3%float) ]
  else [].

Fixpoint table_factor (table : list (Z * Z * float)) (hour : Z) : option float :=
  match table with
  | [] => None
  | (lo, hi, f) :: rest =>
      if (lo <=? hour) && (hour <? hi) then Some f else table_factor rest hour
  end.

(** Saturday and Sunday multiply the factor: 0.7 for commercial and
    industrial zones, 1.1 for residential ones. *)
Definition weekend_multiplier (demand_profile : string) : option float :=
  if String.eqb demand_profile "residential" then Some 1.1%float
  else if String.eqb demand_profile "commercial" then Some 0.7%float
  else if String.eqb demand_profile "industrial" then Some 0.7%float
  else None.

Definition is_weekend (t : Timestamp) : bool :=
  (weekday t =? 5) || (weekday t =? 6).

Definition known_profile (demand_profile : string) : Prop :=
  demand_profile = "residential" \/ demand_profile = "commercial"
  \/ demand_profile = "industrial".

(** [consumption_spec base profile t noise v]: [v] is the value of
    section 4.2 for a zone of demand [base] and profile [profile] at
    [t], the Gaussian draw being [noise]. *)
Definition consumption_spec {np : NumPy} (base : scalar) (demand_profile : string)
           (t : Timestamp) (noise v : float) : Prop :=
  exists bucket multiplier product : float,
    table_factor (profile_table demand_profile) (hour t) = Some bucket
    /\ weekend_multiplier demand_profile = Some multiplier
    /\ times_float base
         (if is_weekend t then (bucket * multiplier)%float else bucket)
       = Ok product
    /\ let seasonal :=
         (1 + 0.2 * sin (2 * pi * float_of_int (dayofyear t - 170) / 365))%float in
       v = max 0 (product * seasonal + noise)%float.

(** *** Pressure sensors *)

(** A node type for which the Pressure branch has no case. *)
Definition unhandled_for_pressure (ty : string) : Prop :=
  ty <> "ConsumptionZone" /\ ty <> "Junction" /\ ty <> "PumpStation"
  /\ ty <> "Reservoir".

(** *** Level sensors *)

(** The level formula of section 4.1: the value for a reservoir of the
    given level and capacity at [t], the Gaussian draw being [noise]. *)
Definition level_formula {np : NumPy} (current_level capacity : float)
           (t : Timestamp) (noise : float) : float :=
  max 0 (min capacity
             (current_level
              + sin (float_of_int (dayofyear t) / 365 * 2 * pi) * 50000
              + noise)%float).

End Spec.

(* ================================================================= *)
(** ** Concrete generators and networks *)

Module Fixtures.

Import Py Pandas Nx Np NetworkBuilder DataGenerator.

(** A generator with the noise switched off: every normal draw is its
    mean, every uniform draw the middle of its interval; the state
    counts the draws. *)
Definition quiet_numpy : NumPy :=
  {| rng_state := nat;
     random_normal := fun loc _ g => (loc, S g);
     random_uniform := fun low high g => ((low + high) / 2, S g)%float;
     sin := fun x => (x - x * x * x / 6 + x * x * x * x * x / 120)%float |}.

(** A linear congruential generator: draws that vary with the state. *)
Definition lcg (g : Z) : Z := (1103515245 * g + 12345) mod 2147483648.

Definition unit_draw (g : Z) : float :=
  (float_of_int (lcg g) / 2147483648)%float.

Definition lcg_numpy : NumPy :=
  {| rng_state := Z;
     random_normal := fun loc scale g =>
       ((loc + scale * (2 * unit_draw g - 1))%float, lcg g);
     random_uniform := fun low high g =>
       ((low + (high - low) * unit_draw g)%float, lcg g);
     sin := fun x => (x - x * x * x / 6 + x * x * x * x * x / 120)%float |}.

(** 2023-01-01T00:00:00 and the hours after it. *)
Definition jan1_2023 : Timestamp := 1672531200.
Definition hours (n : Z) : Z := n * 3600.

(** A Pressure sensor on a valve, alone in its network. *)
Definition valve_network : DiGraph :=
  {| node := [ ("V1", valve); ("S_P_V1", sensor "Pressure" "V1") ];
     adj := [] |}.

(** The same sensor after a Pressure sensor on a junction. *)
Definition junction_valve_network : DiGraph :=
  {| node := [ ("J1", junction); ("V1", valve);
               ("S_P_J1", sensor "Pressure" "J1");
               ("S_P_V1", sensor "Pressure" "V1") ];
     adj := [ ("J1", "V1") ] |}.

(** A junction whose only downstream zone has no demand. *)
Definition idle_zone_network : DiGraph :=
  {| node := [ ("J1", junction);
               ("Z1", consumption_zone "residential" (PyInt 0));
               ("S_F_J1", sensor "Flow" "J1") ];
     adj := [ ("J1", "Z1") ] |}.

(** A reservoir that is not called R1, with a Level sensor. *)
Definition other_reservoir_network : DiGraph :=
  {| node := [ ("R2", reservoir 1000000 900000);
               ("S_L_R2", sensor "Level" "R2") ];
     adj := [] |}.

(** Two rows that share an index label: the first is in the window
    [0, 10] and on node J1, the second is outside the window. *)
Definition relabelled_table : DataFrame SensorReading :=
  [ (0, mkSensorReading 5 "S_F_J1" "J1" "Flow" 10);
    (0, mkSensorReading 50 "S_F_Z1" "Z1" "Flow" 20) ].

(** Five rows of a generated table, default index. *)
Definition small_table : DataFrame SensorReading :=
  mk_DataFrame
    [ mkSensorReading 5 "S_F_J1" "J1" "Flow" 10;
      mkSensorReading 5 "S_P_J1" "J1" "Pressure" 500000;
      mkSensorReading 5 "S_P_Z1" "Z1" "Pressure" 400000;
      mkSensorReading 5 "S_L_R1" "R1" "Level" 900000;
      mkSensorReading 50 "S_F_J1" "J1" "Flow" 10 ].

End Fixtures.

(* ================================================================= *)
(** ** Network schema checks and value tables *)

Module Schema.

Import Py Pandas Nx Np DataGenerator Spec.

(** Node [n] exists and carries the attribute read by [field]. *)
Definition attr_present {A : Type} (G : DiGraph) (n : string)
           (field : NodeAttrs -> option A) : bool :=
  match assoc n (node G) with
  | Some attrs => match field attrs with Some _ => true | None => false end
  | None => false
  end.

(** The [type] of node [n], when the node exists and has one. *)
Definition type_of (G : DiGraph) (n : string) : option string :=
  match assoc n (node G) with
  | Some attrs => a_type attrs
  | None => None
  end.

(** A value converts to a float: it is a float, or an int that is not
    too large. *)
Definition convertible (a : scalar) : bool :=
  match to_float a with Ok _ => true | Raise _ => false end.

(** A successor of a junction can be read by the loop of lines 34-36:
    it has a type, and a base_demand when it is a ConsumptionZone. *)
Definition neighbor_ready (G : DiGraph) (n : string) : bool :=
  match type_of G n with
  | Some ty => if String.eqb ty "ConsumptionZone"
               then attr_present G n a_base_demand else true
  | None => false
  end.

Definition successor_list (G : DiGraph) (n : string) : list string :=
  map snd (filter (fun e => String.eqb (fst e) n) (adj G)).

(** What a Flow sensor needs of the node it is attached to: a type;
    on a ConsumptionZone a base_demand that converts to a float; on a
    Junction successors that can be read and whose demands add up to a
    base flow that converts to a float; on any other node a pump_rate
    that converts to a float when there is one. *)
Definition flow_ready (G : DiGraph) (attached : string) : bool :=
  match assoc attached (node G) with
  | Some attrs =>
      match a_type attrs with
      | Some ty =>
          if String.eqb ty "ConsumptionZone" then
            match a_base_demand attrs with
            | Some base => convertible base
            | None => false
            end
          else if String.eqb ty "Junction" then
            forallb (neighbor_ready G) (successor_list G attached)
            && match demand_sum G (successor_zones G attached) with
               | Ok demand =>
                   match gt_zero demand with
                   | Ok positive =>
                       convertible (if positive then demand else PyInt 150)
                   | Raise _ => false
                   end
               | Raise _ => false
               end
          else convertible (get (a_pump_rate attrs) (PyInt 0))
      | None => false
      end
  | None => false
  end.

(** The node types the Pressure branch has a case for. *)
Definition pressure_handled (ty : string) : bool :=
  String.eqb ty "ConsumptionZone" || String.eqb ty "Junction"
  || String.eqb ty "PumpStation" || String.eqb ty "Reservoir".

Definition pressure_ready (G : DiGraph) (attached : string) : bool :=
  match type_of G attached with
  | Some ty => pressure_handled ty
  | None => false
  end.

(** What a Level sensor needs: nothing off R1, both reservoir
    attributes on R1. *)
Definition level_ready (G : DiGraph) (attached : string) : bool :=
  if String.eqb attached "R1"
  then attr_present G "R1" a_current_level && attr_present G "R1" a_capacity
  else true.

Definition sensor_ready (G : DiGraph) (sensor_id : string) : bool :=
  match assoc sensor_id (node G) with
  | Some attrs =>
      match a_sensor_type attrs, a_attached_to attrs with
      | Some st, Some attached =>
          if String.eqb st "Flow" then flow_ready G attached
          else if String.eqb st "Pressure" then pressure_ready G attached
          else if String.eqb st "Level" then level_ready G attached
          else true
      | _, _ => false
      end
  | None => false
  end.

(** Every Sensor node can be read by [generate_sensor_data]. *)
Definition sensors_ready (G : DiGraph) : bool :=
  forallb (sensor_ready G) (nodes_of_type G "Sensor").

(** A zone has a demand profile and a base demand that is a float or
    an int that converts to one. *)
Definition zone_ready (G : DiGraph) (zone : string) : bool :=
  match assoc zone (node G) with
  | Some attrs =>
      match a_base_demand attrs, a_demand_profile attrs with
      | Some base, Some _ => convertible base
      | _, _ => false
      end
  | None => false
  end.

(** Every ConsumptionZone node can be read by
    [generate_consumption_data]. *)
Definition zones_ready (G : DiGraph) : bool :=
  forallb (zone_ready G) (nodes_of_type G "ConsumptionZone").

(** The hour buckets of a Flow sensor: [lo, hi), the centre of the
    diurnal factor and the standard deviation of its jitter. *)
Definition flow_pattern_table : list (Z * Z * (float * float)) :=
  [ (0, 6, (0.6, 0.05)%float); (6, 10, (1.2, 0.1)%float);
    (10, 17, (0.9, 0.08)%float); (17, 22, (1.3, 0.1)%float);
    (22, 24, (0.7, 0.05)%float) ].

Fixpoint bucket_of {A : Type} (table : list (Z * Z * A)) (hour : Z) : option A :=
  match table with
  | [] => None
  | (lo, hi, a) :: rest =>
      if (lo <=? hour) && (hour <? hi) then Some a else bucket_of rest hour
  end.

(** The base pressure of each handled node type. *)
Definition pressure_table : list (string * float) :=
  [ ("ConsumptionZone", 400000%float); ("Junction", 500000%float);
    ("PumpStation", 600000%float); ("Reservoir", 200000%float) ].

(** The exceptions of arithmetic on attribute values: an int too large
    for a float, a string among numbers. *)
Definition arithmetic_error (e : exn) : Prop :=
  e = OverflowError \/ e = TypeError.

(** The exceptions [generate_consumption_data] can raise. *)
Definition consumption_error (e : exn) : Prop :=
  e = KeyError "base_demand" \/ e = KeyError "demand_profile"
  \/ e = OverflowError \/ e = TypeError.

(** The exceptions [generate_sensor_data] can raise. *)
Definition sensor_error (e : exn) : Prop :=
  (exists key, e = KeyError key) \/ e = UnboundLocalError "base_pressure"
  \/ e = OverflowError \/ e = TypeError.

(** A row is a target of the leak and of a kind the injector scales. *)
Definition leak_hit (G : DiGraph) (leak_node_id : string)
           (start_time end_time : Timestamp) (row : SensorReading) : Prop :=
  in_window start_time end_time row
  /\ (sensor_type row = "Flow" \/ sensor_type row = "Pressure")
  /\ leak_target G leak_node_id row.

(** The test of lines 145-149 on one row, given the ancestor list. *)
Definition leak_hit_b (upstream_nodes : list string) (leak_node_id : string)
           (start_time end_time : Timestamp) (row : SensorReading) : bool :=
  in_window_b start_time end_time row
  && affected upstream_nodes leak_node_id row
  && (String.eqb (sensor_type row) "Flow"
      || String.eqb (sensor_type row) "Pressure").

(** Two rows agree on everything but [value]. *)
Definition same_but_value (r r' : Z * SensorReading) : Prop :=
  fst r' = fst r
  /\ timestamp (snd r') = timestamp (snd r)
  /\ sensor_id (snd r') = sensor_id (snd r)
  /\ attached_to (snd r') = attached_to (snd r)
  /\ sensor_type (snd r') = sensor_type (snd r).

(** What every row of the sensor table carries along: its sensor is a
    Sensor node, its sensor_type and attached_to are that node's
    attributes, and its value was computed for them. *)
Definition row_of_sensor {np : NumPy} (G : DiGraph) (row : SensorReading)
  : Prop :=
  In (sensor_id row) (nodes_of_type G "Sensor")
  /\ node_attr G (sensor_id row) "sensor_type" a_sensor_type
     = Ok (sensor_type row)
  /\ node_attr G (sensor_id row) "attached_to" a_attached_to
     = Ok (attached_to row)
  /\ sensor_row G row.

(** A timestamp lies on the sampling grid of a range. *)
Definition on_grid (start_time end_time : Timestamp) (minutes : positive)
           (t : Timestamp) : Prop :=
  start_time <= t <= end_time
  /\ exists k : Z, 0 <= k /\ t = start_time + k * (60 * Z.pos minutes).

End Schema.

(* ================================================================= *)
(** ** main.py *)

Module Main.

Import Py Pandas Nx Np NetworkBuilder DataGenerator.

(** [datetime(year, month, day, hour, minute)]. *)
Definition datetime (year month day hour minute : Z) : Timestamp :=
  days_from_civil year month day * seconds_per_day + hour * 3600 + minute * 60.

Definition start_date : Timestamp := datetime 2023 1 1 0 0.
Definition end_date : Timestamp := datetime 2023 1 8 0 0.
Definition sampling_interval_minutes : positive := 15%positive.
Definition leak_start_time : Timestamp := datetime 2023 1 3 10 0.
Definition leak_end_time : Timestamp := datetime 2023 1 4 18 0.
Definition leak_node : string := "J1".

Section Orchestration.

Context {np : NumPy}.

(** Steps 1 to 5 of the script: build the network, generate both
    tables, inject the leak. The result is the raw sensor table, the
    sensor table after the leak, and the consumption table; the plots
    of steps 6 and 7 only read them. *)
Definition simulation
  : M (DataFrame SensorReading * DataFrame SensorReading
       * DataFrame ConsumptionReading) :=
  let G := build_simple_water_network in
  bind (generate_sensor_data G start_date end_date sampling_interval_minutes)
       (fun raw_df =>
  bind (generate_consumption_data G start_date end_date sampling_interval_minutes)
       (fun consumption_df =>
  bind (inject_leak_event raw_df G leak_node leak_start_time leak_end_time 0.3)
       (fun sensor_df =>
  ret (raw_df, sensor_df, consumption_df)))).

End Orchestration.

End Main.

(* ================================================================= *)
(** ** More concrete networks *)

Module MoreFixtures.

Import Py Nx NetworkBuilder.

(** Reservoir R1 and a second reservoir, each with a Level sensor. *)
Definition two_reservoir_network : DiGraph :=
  {| node := [ ("R1", reservoir 1000000 900000);
               ("R2", reservoir 500000 400000);
               ("S_L_R1", sensor "Level" "R1");
               ("S_L_R2", sensor "Level" "R2") ];
     adj := [] |}.

(** A junction above three zones whose demands are ints that binary64
    cannot add exactly: 2^53, 1 and 1. *)
Definition large_demand_network : DiGraph :=
  {| node := [ ("J1", junction);
               ("Z1", consumption_zone "residential" (PyInt 9007199254740992));
               ("Z2", consumption_zone "commercial" (PyInt 1));
               ("Z3", consumption_zone "industrial" (PyInt 1));
               ("S_F_J1", sensor "Flow" "J1") ];
     adj := [ ("J1", "Z1"); ("J1", "Z2"); ("J1", "Z3") ] |}.

(** A zone whose demand is an int too large for a float. *)
Definition huge_demand_network : DiGraph :=
  {| node := [ ("Z1", consumption_zone "residential" (PyInt (10 ^ 400)));
               ("S_F_Z1", sensor "Flow" "Z1") ];
     adj := [] |}.

(** A zone whose demand was entered as text. *)
Definition text_demand_network : DiGraph :=
  {| node := [ ("Z1", consumption_zone "residential" (PyStr "100"));
               ("S_F_Z1", sensor "Flow" "Z1") ];
     adj := [] |}.

(** A ConsumptionZone that was given a profile but no base_demand. *)
Definition bare_zone_network : DiGraph :=
  {| node := [ ("Z1", mkAttrs (Some "ConsumptionZone") None None None
                              (Some "residential") None None None) ];
     adj := [] |}.

End MoreFixtures.

(* ================================================================= *)
(** ** Facts about the graph search *)

Module NxFacts.

Import Py Nx.

Lemma contains_In (x : string) (xs : list string) :
  contains x xs = true <-> In x xs.
Proof.
  unfold contains. rewrite existsb_exists. split.
  - intros (y & Hy & E). apply String.eqb_eq in E. now subst.
  - intros H. exists x. split; [assumption | apply String.eqb_refl].
Qed.

Lemma contains_not_In (x : string) (xs : list string) :
  contains x xs = false <-> ~ In x xs.
Proof.
  rewrite <- contains_In. destruct (contains x xs); split; congruence.
Qed.

Lemma grow_incl (G : DiGraph) (seen : list string) (x : string) :
  In x seen -> In x (grow G seen).
Proof. intros H. unfold grow. apply in_or_app. now right. Qed.

Lemma grow_n_incl (G : DiGraph) (n : nat) :
  forall seen x, In x seen -> In x (grow_n G n seen).
Proof.
  induction n as [|n IH]; intros seen x H; simpl; [assumption|].
  apply IH. now apply grow_incl.
Qed.

Lemma grow_In (G : DiGraph) (seen : list string) (x : string) :
  In x (grow G seen) ->
  In x seen \/ exists v, edge G x v /\ In v seen.
Proof.
  unfold grow. intros H. apply in_app_or in H. destruct H as [H|H]; [|now left].
  right. apply filter_In in H. destruct H as [_ H].
  apply andb_true_iff in H. destruct H as [_ H].
  apply existsb_exists in H. destruct H as ([a b] & Hin & H).
  apply andb_true_iff in H. destruct H as [E C]. simpl in *.
  apply String.eqb_eq in E. subst a. apply contains_In in C.
  exists b. split; assumption.
Qed.

Lemma grow_adds (G : DiGraph) (seen : list string) (u v : string) :
  edge G u v -> In v seen -> In u (grow G seen).
Proof.
  intros He Hv. unfold grow. apply in_or_app.
  destruct (contains u seen) eqn:C.
  - right. now apply contains_In.
  - left. apply filter_In. split.
    + apply (in_map fst) in He. exact He.
    + rewrite C. simpl. apply existsb_exists. exists (u, v). split; [exact He|].
      simpl. rewrite String.eqb_refl. simpl. now apply contains_In.
Qed.

(** Every node the search reaches has a path to the source. *)
Lemma grow_n_sound (G : DiGraph) (s : string) (n : nat) :
  forall seen,
    (forall x, In x seen -> clos_refl_trans string (edge G) x s) ->
    forall x, In x (grow_n G n seen) -> clos_refl_trans string (edge G) x s.
Proof.
  induction n as [|n IH]; intros seen Hseen x Hx; simpl in Hx.
  - now apply Hseen.
  - apply (IH (grow G seen)); [|assumption].
    intros y Hy. apply grow_In in Hy. destruct Hy as [Hy | (v & He & Hv)].
    + now apply Hseen.
    + apply rt_trans with v; [now apply rt_step | now apply Hseen].
Qed.

Lemma filter_length_mono {A : Type} (p q : A -> bool) (l : list A) :
  (forall x, In x l -> q x = true -> p x = true) ->
  (List.length (filter q l) <= List.length (filter p l))%nat.
Proof.
  induction l as [|a l IH]; intros H; simpl; [lia|].
  assert (IH' := IH (fun x Hx => H x (or_intror Hx))).
  destruct (q a) eqn:Q.
  - rewrite (H a (or_introl eq_refl) Q). simpl. lia.
  - destruct (p a); simpl; lia.
Qed.

Lemma filter_length_lt {A : Type} (p q : A -> bool) (l : list A) (a : A) :
  (forall x, In x l -> q x = true -> p x = true) ->
  In a l -> p a = true -> q a = false ->
  (List.length (filter q l) < List.length (filter p l))%nat.
Proof.
  induction l as [|b l IH]; intros H Hin Pa Qa; simpl; [contradiction|].
  assert (Hl : forall x, In x l -> q x = true -> p x = true)
    by (intros x Hx; apply H; now right).
  destruct Hin as [-> | Hin].
  - rewrite Pa, Qa. simpl. pose proof (filter_length_mono p q l Hl). lia.
  - specialize (IH Hl Hin Pa Qa).
    destruct (q b) eqn:Q.
    + rewrite (H b (or_introl eq_refl) Q). simpl. lia.
    + destruct (p b); simpl; lia.
Qed.

(** A round either adds nothing, and then [seen] is already closed, or
    leaves strictly fewer nodes to add. *)
Lemma grow_progress (G : DiGraph) (seen : list string) :
  (grow G seen = seen /\ closed G seen)
  \/ (List.length (missing G (grow G seen)) < List.length (missing G seen))%nat.
Proof.
  unfold grow at 1 2.
  destruct (filter _ (map fst (adj G))) as [|a new] eqn:F.
  - left. split; [reflexivity|]. intros u v He Hv.
    destruct (contains u seen) eqn:C; [now apply contains_In|].
    exfalso.
    assert (Hin : In u (filter
      (fun u => negb (contains u seen)
                && existsb (fun e => String.eqb (fst e) u
                                     && contains (snd e) seen) (adj G))
      (map fst (adj G)))).
    { apply filter_In. split.
      - apply (in_map fst) in He. exact He.
      - rewrite C. simpl. apply existsb_exists. exists (u, v). split; [exact He|].
        simpl. rewrite String.eqb_refl. simpl. now apply contains_In. }
    rewrite F in Hin. contradiction.
  - right.
    assert (Ha : In a (filter
      (fun u => negb (contains u seen)
                && existsb (fun e => String.eqb (fst e) u
                                     && contains (snd e) seen) (adj G))
      (map fst (adj G)))) by (rewrite F; now left).
    apply filter_In in Ha. destruct Ha as [Hin Ha].
    apply andb_true_iff in Ha. destruct Ha as [Ha _].
    unfold missing. apply filter_length_lt with a.
    + intros x _ Hx. apply negb_true_iff in Hx. apply negb_true_iff.
      apply contains_not_In. apply contains_not_In in Hx.
      intros Hs. apply Hx. apply in_or_app. now right.
    + exact Hin.
    + exact Ha.
    + apply negb_false_iff. apply contains_In. now left.
Qed.

Lemma grow_n_fixed (G : DiGraph) (seen : list string) (n : nat) :
  grow G seen = seen -> grow_n G n seen = seen.
Proof.
  intros H. induction n as [|n IH]; simpl; [reflexivity|]. now rewrite H.
Qed.

(** Enough rounds close the set. *)
Lemma grow_n_closed (G : DiGraph) (n : nat) :
  forall seen,
    (List.length (missing G seen) <= n)%nat -> closed G (grow_n G n seen).
Proof.
  induction n as [|n IH]; intros seen Hn.
  - simpl. intros u v He Hv.
    destruct (contains u seen) eqn:C; [now apply contains_In|].
    exfalso. unfold missing in Hn.
    assert (Hin : In u (filter (fun u => negb (contains u seen)) (map fst (adj G)))).
    { apply filter_In. split; [apply (in_map fst) in He; exact He | now rewrite C]. }
    destruct (filter _ (map fst (adj G))); [contradiction | simpl in Hn; lia].
  - simpl. destruct (grow_progress G seen) as [[Hfix Hcl] | Hlt].
    + rewrite Hfix. now rewrite grow_n_fixed.
    + apply IH. lia.
Qed.

Lemma closed_complete (G : DiGraph) (seen : list string) (s : string) :
  closed G seen -> In s seen ->
  forall x, clos_refl_trans string (edge G) x s -> In x seen.
Proof.
  intros Hcl Hs x Hx. apply clos_rt_rt1n in Hx.
  induction Hx as [|x y z Hxy _ IH]; [assumption|].
  apply (Hcl x y); [assumption | now apply IH].
Qed.

Lemma missing_bound (G : DiGraph) (seen : list string) :
  (List.length (missing G seen) <= List.length (adj G))%nat.
Proof.
  unfold missing. etransitivity; [apply List.filter_length_le|].
  now rewrite length_map.
Qed.

(** [nx.ancestors] returns exactly the nodes, other than the source,
    with a directed path to the source. *)
Lemma ancestors_spec (G : DiGraph) (s : string) (anc : list string) :
  ancestors G s = Ok anc ->
  forall x, In x anc <-> x <> s /\ clos_trans string (edge G) x s.
Proof.
  unfold ancestors. destruct (has_node G s); [|discriminate].
  intros H x. injection H as <-. rewrite filter_In, negb_true_iff, String.eqb_neq.
  split.
  - intros [Hin Hne]. split; [assumption|].
    assert (Hrt : clos_refl_trans string (edge G) x s).
    { apply (grow_n_sound G s (List.length (adj G)) [s]); [|assumption].
      intros y [<-|[]]. apply rt_refl. }
    apply clos_rt_rtn1 in Hrt. destruct Hrt as [|y z Hyz Hxy]; [congruence|].
    apply clos_rtn1_rt in Hxy. apply clos_rt_t with y; [assumption|].
    now apply t_step.
  - intros [Hne Ht]. split; [|assumption].
    apply (closed_complete G _ s).
    + apply grow_n_closed. apply missing_bound.
    + apply grow_n_incl. now left.
    + now apply clos_t_clos_rt.
Qed.

End NxFacts.

(* ================================================================= *)
(** ** Facts about frames *)

Module PandasFacts.

Import Pandas.

Lemma loc_assign_absent {A : Type} (df : DataFrame A) (label : Z) (set : A -> A) :
  ~ In label (index df) -> loc_assign df label set = df.
Proof.
  unfold loc_assign, index. induction df as [|[n a] df IH]; intros H; simpl in *.
  - reflexivity.
  - destruct (Z.eqb_spec n label) as [->|Hne].
    + exfalso. apply H. now left.
    + f_equal. apply IH. intros Hin. apply H. now right.
Qed.

Lemma loc_assign_app {A : Type} (df1 df2 : DataFrame A) (label : Z) (set : A -> A) :
  loc_assign (df1 ++ df2) label set
  = loc_assign df1 label set ++ loc_assign df2 label set.
Proof. unfold loc_assign. apply map_app. Qed.

(** With pairwise distinct labels a write reaches one row only. *)
Lemma loc_assign_one {A : Type} (before after : DataFrame A) (label : Z) (a : A)
      (set : A -> A) :
  ~ In label (index before) -> ~ In label (index after) ->
  loc_assign (before ++ (label, a) :: after) label set
  = before ++ (label, set a) :: after.
Proof.
  intros Hb Ha. rewrite loc_assign_app. rewrite (loc_assign_absent before) by assumption.
  f_equal. change ((label, a) :: after) with ([(label, a)] ++ after).
  rewrite loc_assign_app, (loc_assign_absent after) by assumption.
  unfold loc_assign. simpl. now rewrite Z.eqb_refl.
Qed.

Lemma RangeIndex_NoDup (n : nat) : NoDup (RangeIndex n).
Proof.
  unfold RangeIndex. apply Injective_map_NoDup; [|apply seq_NoDup].
  intros x y H. now apply Nat2Z.inj.
Qed.

Lemma RangeIndex_length (n : nat) : List.length (RangeIndex n) = n.
Proof. unfold RangeIndex. now rewrite length_map, length_seq. Qed.

Lemma mk_DataFrame_rows {A : Type} (data : list A) :
  map snd (mk_DataFrame data) = data.
Proof.
  unfold mk_DataFrame.
  assert (H : forall (l : list Z), List.length l = List.length data ->
                                   map snd (combine l data) = data).
  { induction data as [|a data IH]; intros [|z l] Hl; simpl in *;
      try reflexivity; try discriminate.
    f_equal. apply IH. lia. }
  apply H. apply RangeIndex_length.
Qed.

Lemma mk_DataFrame_index {A : Type} (data : list A) :
  index (mk_DataFrame data) = RangeIndex (List.length data).
Proof.
  unfold mk_DataFrame, index.
  assert (H : forall (l : list Z), List.length l = List.length data ->
                                   map fst (combine l data) = l).
  { induction data as [|a data IH]; intros [|z l] Hl; simpl in *;
      try reflexivity; try discriminate.
    f_equal. apply IH. lia. }
  apply H. apply RangeIndex_length.
Qed.

Lemma mk_DataFrame_length {A : Type} (data : list A) :
  List.length (mk_DataFrame data) = List.length data.
Proof.
  rewrite <- (length_map snd). now rewrite mk_DataFrame_rows.
Qed.

(** The tables the generators build have pairwise distinct labels. *)
Lemma mk_DataFrame_NoDup {A : Type} (data : list A) :
  NoDup (index (mk_DataFrame data)).
Proof. rewrite mk_DataFrame_index. apply RangeIndex_NoDup. Qed.

End PandasFacts.

(* ================================================================= *)
(** ** Facts about the generator and the injector *)

Module GeneratorFacts.

Import Py Pandas Nx Np DataGenerator Spec NxFacts PandasFacts.

Section Monad.

Context {np : NumPy}.

Lemma bind_Ok {A B : Type} (m : M A) (k : A -> M B) (g g' : rng_state) (b : B) :
  bind m k g = (Ok b, g') ->
  exists a g1, m g = (Ok a, g1) /\ k a g1 = (Ok b, g').
Proof.
  unfold bind. destruct (m g) as [[a|e] g1]; intros H; [|discriminate].
  now exists a, g1.
Qed.

Lemma lift_Ok {A : Type} (o : outcome A) (g g' : rng_state) (a : A) :
  lift o g = (Ok a, g') -> o = Ok a /\ g' = g.
Proof. unfold lift. intros H. injection H as -> ->. now split. Qed.

Lemma ret_Ok {A : Type} (a b : A) (g g' : rng_state) :
  ret a g = (Ok b, g') -> b = a /\ g' = g.
Proof. unfold ret. intros H. injection H as -> ->. now split. Qed.

Lemma normal_Ok (loc scale x : float) (g g' : rng_state) :
  normal loc scale g = (Ok x, g') ->
  x = fst (random_normal loc scale g) /\ g' = snd (random_normal loc scale g).
Proof. unfold normal. intros H. injection H as <- <-. now split. Qed.

Lemma obind_Ok {A B : Type} (o : outcome A) (k : A -> outcome B) (b : B) :
  obind o k = Ok b -> exists a, o = Ok a /\ k a = Ok b.
Proof. destruct o as [a|e]; simpl; intros H; [now exists a | discriminate]. Qed.

(** A loop keeps what every iteration keeps. *)
Lemma for_invariant {A St : Type} (body : A -> St -> M St) (I : St -> Prop) :
  (forall x st g st' g', I st -> body x st g = (Ok st', g') -> I st') ->
  forall xs st g st' g',
    I st -> for_ xs body st g = (Ok st', g') -> I st'.
Proof.
  intros Hbody xs. induction xs as [|x xs IH]; intros st g st' g' Hst H; simpl in H.
  - apply ret_Ok in H. destruct H as [-> _]. assumption.
  - apply bind_Ok in H. destruct H as (st1 & g1 & H1 & H2).
    apply (IH st1 g1 st' g'); [|assumption].
    now apply (Hbody x st g st1 g1).
Qed.

End Monad.

(** *** The leak injector *)

(** Runs the induction hypothesis of the loop on the rows still to be
    visited, the row just visited having joined the rows done. *)
Ltac use_IH :=
  match goal with
  | IH : forall _ _, NoDup _ -> _, Hnd' : forall _, NoDup _
    |- context [for_ ?rest _ ((?done ++ [(?name, ?r)]) ++ ?rest) ?g1] =>
      let rest' := fresh "rest'" in
      let g' := fresh "g'" in
      let Hrun := fresh "Hrun" in
      let Hrel := fresh "Hrel" in
      destruct (IH (done ++ [(name, r)]) g1 (Hnd' r))
        as (rest' & g' & Hrun & Hrel)
  end.

Section Injector.

Context {np : NumPy}.
Variables (G : DiGraph) (leak_node_id : string).
Variables (start_time end_time : Timestamp) (severity_factor : float).

Lemma in_window_b_spec (row : SensorReading) :
  in_window_b start_time end_time row = true
  <-> in_window start_time end_time row.
Proof.
  unfold in_window_b, in_window. rewrite andb_true_iff, !Z.leb_le. tauto.
Qed.

Lemma affected_spec (upstream_nodes : list string) (row : SensorReading) :
  ancestors G leak_node_id = Ok upstream_nodes ->
  affected upstream_nodes leak_node_id row = true
  <-> leak_target G leak_node_id row.
Proof.
  intros Hanc. unfold affected, leak_target.
  rewrite orb_true_iff, contains_In, String.eqb_eq.
  rewrite (ancestors_spec G leak_node_id upstream_nodes Hanc).
  destruct (string_dec (attached_to row) leak_node_id) as [E|NE]; tauto.
Qed.

(** What one iteration of the injector's loop does. *)
Lemma leak_step_eval (upstream_nodes : list string) (name : Z)
      (row : SensorReading) (df : DataFrame SensorReading) (g : rng_state) :
  leak_step upstream_nodes leak_node_id start_time end_time severity_factor
            (name, row) df g
  = if in_window_b start_time end_time row
       && affected upstream_nodes leak_node_id row
       && (sensor_type row == "Flow")
    then (Ok (loc_assign df name
                (set_value (value row
                            * (1 + severity_factor
                                   * fst (random_uniform 0.8 1.2 g)))%float)),
          snd (random_uniform 0.8 1.2 g))
    else if in_window_b start_time end_time row
            && affected upstream_nodes leak_node_id row
            && (sensor_type row == "Pressure")
    then (Ok (loc_assign df name
                (set_value (value row
                            * (1 - severity_factor
                                   * fst (random_uniform 0.8 1.2 g)))%float)),
          snd (random_uniform 0.8 1.2 g))
    else (Ok df, g).
Proof.
  unfold leak_step. cbn [fst snd].
  destruct (in_window_b start_time end_time row); [|reflexivity].
  destruct (affected upstream_nodes leak_node_id row);
    [|simpl; rewrite !andb_false_r; reflexivity].
  rewrite !andb_true_r. simpl andb.
  destruct (sensor_type row == "Flow") eqn:F.
  - apply String.eqb_eq in F. rewrite F. reflexivity.
  - destruct (sensor_type row == "Pressure"); reflexivity.
Qed.

Lemma leak_loop (upstream_nodes : list string) :
  ancestors G leak_node_id = Ok upstream_nodes ->
  forall (rest done : DataFrame SensorReading) (g : rng_state),
    NoDup (index (done ++ rest)) ->
    exists rest' g',
      for_ rest
           (leak_step upstream_nodes leak_node_id start_time end_time
                      severity_factor)
           (done ++ rest) g
      = (Ok (done ++ rest'), g')
      /\ leak_injected G leak_node_id start_time end_time severity_factor
                       rest g rest' g'.
Proof.
  intros Hanc rest. induction rest as [|[name row] rest IH]; intros done g Hnd.
  - exists [], g. split; [reflexivity | constructor].
  - assert (Hname : ~ In name (index done) /\ ~ In name (index rest)).
    { unfold index in *. rewrite map_app in Hnd. simpl in Hnd.
      apply NoDup_remove_2 in Hnd. split; intros Hin; apply Hnd;
        apply in_or_app; [now left | now right]. }
    destruct Hname as [Hd Hr].
    assert (Hnd' : forall r, NoDup (index ((done ++ [(name, r)]) ++ rest))).
    { intros r. unfold index in *. rewrite <- app_assoc. simpl.
      rewrite map_app in *. simpl in *. exact Hnd. }
    assert (Hshift : forall (r : SensorReading) (l : DataFrame SensorReading),
               done ++ (name, r) :: l = (done ++ [(name, r)]) ++ l).
    { intros r l. now rewrite <- app_assoc. }
    simpl for_. unfold bind. rewrite leak_step_eval.
    destruct (in_window_b start_time end_time row) eqn:W; simpl andb.
    + destruct (affected upstream_nodes leak_node_id row) eqn:Af; simpl andb.
      * destruct (sensor_type row == "Flow") eqn:F.
        { rewrite loc_assign_one by assumption. rewrite Hshift.
          use_IH.
          rewrite Hrun. eexists _, g'. split; [now rewrite <- Hshift|].
          apply leak_flow; try assumption.
          - now apply in_window_b_spec.
          - now apply String.eqb_eq.
          - now apply (affected_spec upstream_nodes). }
        destruct (sensor_type row == "Pressure") eqn:P.
        { rewrite loc_assign_one by assumption. rewrite Hshift.
          use_IH.
          rewrite Hrun. eexists _, g'. split; [now rewrite <- Hshift|].
          apply leak_pressure; try assumption.
          - now apply in_window_b_spec.
          - now apply String.eqb_eq.
          - now apply (affected_spec upstream_nodes). }
        rewrite Hshift.
        use_IH.
        rewrite Hrun. eexists _, g'. split; [now rewrite <- Hshift|].
        apply leak_untouched; [|assumption].
        intros (_ & [E|E] & _); apply String.eqb_eq in E; congruence.
      * rewrite Hshift.
        use_IH.
        rewrite Hrun. eexists _, g'. split; [now rewrite <- Hshift|].
        apply leak_untouched; [|assumption].
        intros (_ & _ & T). apply (affected_spec upstream_nodes) in T; congruence.
    + rewrite Hshift.
      use_IH.
      rewrite Hrun. eexists _, g'. split; [now rewrite <- Hshift|].
      apply leak_untouched; [|assumption].
      intros (T & _). apply in_window_b_spec in T. congruence.
Qed.

(** Rows outside the window are the rows of the input, label by label. *)
Lemma leak_injected_outside_window (before after : DataFrame SensorReading)
      (g g' : rng_state) :
  leak_injected G leak_node_id start_time end_time severity_factor
                before g after g' ->
  Forall2 (fun r r' => fst r' = fst r
                       /\ (~ in_window start_time end_time (snd r) -> r' = r))
          before after.
Proof.
  induction 1; constructor; try assumption; simpl; split; try reflexivity;
    intros Hout; try reflexivity; contradiction.
Qed.

(** C1 (amended). For every sensor table whose index labels are pairwise
    distinct, every network, every leak node id that is a node of the
    network, every window and severity factor, [inject_leak_event]
    returns the table in which exactly the records with timestamp in
    [start, end] (inclusive), sensor_type Flow or Pressure, and
    attached_to the leak node or a node with a directed path to it are
    changed: each such Flow value is multiplied by
    1 + severity * U(0.8, 1.2), each such Pressure value by
    1 - severity * U(0.8, 1.2), one fresh draw per record in table
    order; every other record is the record of the input table. *)
Theorem inject_leak_event_scales_targets
        (sensor_df : DataFrame SensorReading) (g : rng_state) :
  NoDup (index sensor_df) ->
  has_node G leak_node_id = true ->
  exists df' g',
    inject_leak_event sensor_df G leak_node_id start_time end_time
                      severity_factor g
    = (Ok df', g')
    /\ leak_injected G leak_node_id start_time end_time severity_factor
                     sensor_df g df' g'.
Proof.
  intros Hnd Hnode. unfold inject_leak_event, bind, lift.
  destruct (ancestors G leak_node_id) as [upstream_nodes|e] eqn:Hanc.
  - exact (leak_loop upstream_nodes Hanc sensor_df [] g Hnd).
  - unfold ancestors in Hanc. rewrite Hnode in Hanc. discriminate.
Qed.

(** C2 (amended). For every sensor table and every leak node id that is
    not a node of the network, [inject_leak_event] does no validation
    of its own, but [nx.ancestors] raises [NetworkXError]: the error
    propagates before any record is visited or any random number is
    drawn, and no table is returned. *)
Theorem inject_leak_event_absent_node_raises
        (sensor_df : DataFrame SensorReading) (g : rng_state) :
  has_node G leak_node_id = false ->
  inject_leak_event sensor_df G leak_node_id start_time end_time
                    severity_factor g
  = (Raise (NetworkXError leak_node_id), g).
Proof.
  intros Hnode. unfold inject_leak_event, bind, lift, ancestors.
  now rewrite Hnode.
Qed.

End Injector.

End GeneratorFacts.

(* ================================================================= *)
(** ** Facts about binary64 comparisons and Python's [max] and [min] *)

Module FloatFacts.

Import Py Spec.

Lemma flt_fle (x y : float) : flt x y -> fle x y.
Proof.
  unfold flt, fle. rewrite ltb_spec, leb_spec. unfold SFltb, SFleb.
  destruct (SFcompare (Prim2SF x) (Prim2SF y)) as [[]|]; congruence.
Qed.

Lemma SFcompare_refl (f : spec_float) :
  f <> S754_nan -> SFcompare f f = Some Eq.
Proof.
  destruct f as [s| s | | s m e]; intros H; simpl.
  - reflexivity.
  - now destruct s.
  - congruence.
  - rewrite Z.compare_refl, Pos.compare_cont_refl. now destruct s.
Qed.

(** A number that compares with another one is not a NaN, and is
    below itself. *)
Lemma fle_refl_r (x y : float) : fle x y -> fle y y.
Proof.
  unfold fle. rewrite !leb_spec. unfold SFleb. intros H.
  rewrite SFcompare_refl; [reflexivity|].
  intros E. rewrite E in H. now destruct (Prim2SF x).
Qed.

Lemma fle_zero_zero : fle 0 0.
Proof. reflexivity. Qed.

(** [max(0, x)] is never negative. *)
Lemma max_zero_nonneg (x : float) : fle 0 (max 0 x).
Proof.
  unfold max. destruct (0 <? x)%float eqn:E.
  - now apply flt_fle.
  - apply fle_zero_zero.
Qed.

(** [max(0, min(capacity, x))] stays in [0, capacity] when the capacity
    is not negative. *)
Lemma clip_in_range (capacity x : float) :
  fle 0 capacity ->
  fle 0 (max 0 (min capacity x)) /\ fle (max 0 (min capacity x)) capacity.
Proof.
  intros Hcap. split; [apply max_zero_nonneg|].
  unfold max, min. destruct (x <? capacity)%float eqn:Hx.
  - destruct (0 <? x)%float; [now apply flt_fle | assumption].
  - destruct (0 <? capacity)%float; [now apply fle_refl_r with 0%float | assumption].
Qed.

(** Two binary64 numbers that compare different are different. *)
Lemma float_neq (x y : float) :
  PrimFloat.eqb x y = false -> PrimFloat.eqb y y = true -> x <> y.
Proof. intros Hxy Hyy E. rewrite E in Hxy. congruence. Qed.

Lemma Ok_inj {A : Type} (a b : A) : Ok a = Ok b -> a = b.
Proof. intros E. now injection E. Qed.

End FloatFacts.

(* ================================================================= *)
(** ** The injector on concrete tables *)

Module InjectorExamples.

Import Py Pandas Nx Np NetworkBuilder DataGenerator Spec Fixtures.
Import PandasFacts GeneratorFacts FloatFacts.

Lemma inject_leak_event_scales_targets_witness :
  exists df' g',
    inject_leak_event (np := lcg_numpy) small_table build_simple_water_network
                      "J1" 0 10 0.3 42
    = (Ok df', g')
    /\ leak_injected (np := lcg_numpy) build_simple_water_network "J1" 0 10 0.3
                     small_table 42 df' g'.
Proof.
  apply (inject_leak_event_scales_targets (np := lcg_numpy)).
  - apply mk_DataFrame_NoDup.
  - reflexivity.
Defined.

(** C1 as stated fails. (1) Two rows share the label 0; the first is in
    the window and on the leak node, the second is outside the window:
    the write to label 0 reaches both, so the second row is changed.
    (2) The leak node X9 is not in the network and a Flow row in the
    window is attached to it: no table is returned at all. *)
Lemma inject_leak_event_scales_targets_counterexample :
  ~ (exists df' g',
        inject_leak_event (np := quiet_numpy) relabelled_table
                          build_simple_water_network "J1" 0 10 0.5 0%nat
        = (Ok df', g')
        /\ leak_injected (np := quiet_numpy) build_simple_water_network "J1"
                         0 10 0.5 relabelled_table 0%nat df' g')
  /\ ~ (exists df' g',
           inject_leak_event (np := quiet_numpy)
                             [(0, mkSensorReading 5 "S_F_X9" "X9" "Flow" 10)]
                             build_simple_water_network "X9" 0 10 0.5 0%nat
           = (Ok df', g')).
Proof.
  split.
  - intros (df' & g' & Hrun & Hrel).
    vm_compute in Hrun. injection Hrun as <- <-.
    apply (leak_injected_outside_window (np := quiet_numpy)) in Hrel.
    inversion Hrel as [|r1 r1' l1 l1' _ Hrest]; subst; clear Hrel.
    inversion Hrest as [|r2 r2' l2 l2' [_ Hsame] _]; subst; clear Hrest.
    assert (Hout : ~ in_window 0 10 (mkSensorReading 50 "S_F_Z1" "Z1" "Flow" 20))
      by (unfold in_window; simpl; lia).
    specialize (Hsame Hout). apply (f_equal (fun r => value (snd r))) in Hsame.
    simpl in Hsame. revert Hsame. apply float_neq; reflexivity.
  - intros (df' & g' & Hrun). vm_compute in Hrun. discriminate.
Qed.

Lemma inject_leak_event_absent_node_raises_witness :
  has_node build_simple_water_network "X9" = false
  /\ inject_leak_event (np := lcg_numpy) small_table build_simple_water_network
                       "X9" 0 10 0.3 42
     = (Raise (NetworkXError "X9"), 42).
Proof.
  split; [reflexivity|].
  apply (inject_leak_event_absent_node_raises (np := lcg_numpy)). reflexivity.
Defined.

(** C2 as stated fails: for the leak node X9, which is not in the
    network, no ancestor set is computed and the call does not return
    the table; it raises. *)
Lemma inject_leak_event_absent_node_counterexample :
  has_node build_simple_water_network "X9" = false
  /\ ancestors build_simple_water_network "X9" <> Ok []
  /\ fst (inject_leak_event (np := quiet_numpy) small_table
                            build_simple_water_network "X9" 0 10 0.3 0%nat)
     <> Ok small_table
  /\ fst (inject_leak_event (np := quiet_numpy) small_table
                            build_simple_water_network "X9" 0 10 0.3 0%nat)
     = Raise (NetworkXError "X9").
Proof.
  repeat split; vm_compute; try reflexivity; discriminate.
Qed.

End InjectorExamples.

(* ================================================================= *)
(** ** Facts about the two generators *)

Module SeriesFacts.

Import Py Pandas Nx Np DataGenerator Spec PandasFacts GeneratorFacts FloatFacts.

Section Series.

Context {np : NumPy}.
Variable G : DiGraph.

Lemma returns_run {A : Type} (m : M A) (g : rng_state) (a : A) :
  returns m g a -> exists g', m g = (Ok a, g').
Proof.
  unfold returns. destruct (m g) as [o g']. simpl. intros ->. now exists g'.
Qed.

(** The cases of [sensor_value] that return. *)
Lemma sensor_value_Ok (ts : Timestamp) (st attached : string)
      (bp bp' : option float) (g g' : rng_state) (v : float) :
  sensor_value G ts st attached bp g = (Ok (v, bp'), g') ->
  (st = "Flow" /\ bp' = bp
   /\ exists base factor product noise,
       base_flow G attached = Ok base
       /\ times_float base factor = Ok product
       /\ v = max 0 (product + noise)%float)
  \/ (st = "Pressure"
      /\ exists ty base noise,
          node_attr G attached "type" a_type = Ok ty
          /\ pressure_base ty bp = Some base
          /\ bp' = Some base
          /\ v = max 0 (base + noise)%float)
  \/ (st = "Level" /\ attached = "R1" /\ bp' = bp
      /\ exists current_level capacity noise,
          node_attr G "R1" "current_level" a_current_level = Ok current_level
          /\ node_attr G "R1" "capacity" a_capacity = Ok capacity
          /\ v = level_formula current_level capacity ts noise)
  \/ (st = "Level" /\ attached <> "R1" /\ bp' = bp /\ v = 0%float)
  \/ (st <> "Flow" /\ st <> "Pressure" /\ st <> "Level"
      /\ bp' = bp /\ v = 0%float).
Proof.
  unfold sensor_value. intros H.
  destruct (String.eqb_spec st "Flow") as [EF|NF].
  { left. apply bind_Ok in H as (base & g1 & H1 & H).
    apply lift_Ok in H1 as [H1 ->].
    apply bind_Ok in H as (factor & g2 & _ & H).
    apply bind_Ok in H as (product & g3 & H3 & H).
    apply lift_Ok in H3 as [H3 ->].
    apply bind_Ok in H as (noise & g4 & _ & H).
    apply ret_Ok in H as [H _]. injection H as -> ->.
    repeat split; try assumption. now exists base, factor, product, noise. }
  destruct (String.eqb_spec st "Pressure") as [EP|NP].
  { right; left. apply bind_Ok in H as (ty & g1 & H1 & H).
    apply lift_Ok in H1 as [H1 ->].
    apply bind_Ok in H as (base & g2 & H2 & H).
    apply lift_Ok in H2 as [H2 ->].
    apply bind_Ok in H as (noise & g3 & _ & H).
    apply ret_Ok in H as [H _]. injection H as -> ->.
    split; [assumption|]. exists ty, base, noise.
    unfold load_base_pressure in H2.
    destruct (pressure_base ty bp) as [b|]; [|discriminate].
    injection H2 as ->. repeat split; assumption. }
  destruct (String.eqb_spec st "Level") as [EL|NL].
  { right; right. destruct (String.eqb_spec attached "R1") as [ER|NR].
    - left. apply bind_Ok in H as (lvl & g1 & H1 & H).
      apply lift_Ok in H1 as [H1 ->].
      apply bind_Ok in H as (noise & g2 & _ & H).
      apply bind_Ok in H as (cap & g3 & H3 & H).
      apply lift_Ok in H3 as [H3 ->].
      apply ret_Ok in H as [H _]. injection H as -> ->.
      repeat split; try assumption. now exists lvl, cap, noise.
    - right; left. apply ret_Ok in H as [H _]. injection H as -> ->.
      now repeat split. }
  right; right; right; right.
  apply ret_Ok in H as [H _]. injection H as -> ->. now repeat split.
Qed.

(** What one pass of the inner loop of [generate_sensor_data] appends. *)
Lemma sensor_step_Ok (ts : Timestamp) (sid : string)
      (locals locals' : SensorLocals) (g g' : rng_state) :
  sensor_step G ts sid locals g = (Ok locals', g') ->
  exists row,
    data locals' = data locals ++ [row]
    /\ timestamp row = ts /\ sensor_id row = sid
    /\ node_attr G sid "sensor_type" a_sensor_type = Ok (sensor_type row)
    /\ node_attr G sid "attached_to" a_attached_to = Ok (attached_to row)
    /\ sensor_value G ts (sensor_type row) (attached_to row)
                    (base_pressure locals) g
       = (Ok (value row, base_pressure locals'), g').
Proof.
  unfold sensor_step. intros H.
  apply bind_Ok in H as (st & g1 & H1 & H). apply lift_Ok in H1 as [H1 ->].
  apply bind_Ok in H as (attached & g2 & H2 & H). apply lift_Ok in H2 as [H2 ->].
  apply bind_Ok in H as ([v bp'] & g3 & H3 & H).
  apply ret_Ok in H as [-> ->]. simpl.
  exists (mkSensorReading ts sid attached st v). simpl. now repeat split.
Qed.

(** Every row of a table [generate_sensor_data] returns was appended by
    a pass of its loop body. *)
Lemma generate_sensor_data_rows (start_time end_time : Timestamp)
      (minutes : positive) (g : rng_state) (df : DataFrame SensorReading) :
  returns (generate_sensor_data G start_time end_time minutes) g df ->
  Forall (sensor_row G) (map snd df).
Proof.
  intros H. apply returns_run in H as (g' & H). unfold generate_sensor_data in H.
  apply bind_Ok in H as (locals & g1 & H1 & H).
  apply ret_Ok in H as [-> _]. rewrite mk_DataFrame_rows.
  revert H1.
  apply (for_invariant _ (fun st => Forall (sensor_row G) (data st))).
  - intros ts st0 g0 st0' g0' Hst0.
    apply (for_invariant _ (fun st => Forall (sensor_row G) (data st))); [|assumption].
    intros sid st2 g2 st2' g2' Hst2 Hstep.
    apply sensor_step_Ok in Hstep as (row & Hd & Hts & _ & _ & _ & Hv).
    rewrite Hd. apply Forall_app. split; [assumption|].
    constructor; [|constructor].
    exists (base_pressure st2), g2, (base_pressure st2'), g2'. now rewrite Hts.
  - constructor.
Qed.

(** The tables [generate_sensor_data] returns carry the default index:
    their labels are pairwise distinct. *)
Lemma generate_sensor_data_index_NoDup (start_time end_time : Timestamp)
      (minutes : positive) (g : rng_state) (df : DataFrame SensorReading) :
  returns (generate_sensor_data G start_time end_time minutes) g df ->
  NoDup (index df).
Proof.
  intros H. apply returns_run in H as (g' & H). unfold generate_sensor_data in H.
  apply bind_Ok in H as (locals & g1 & _ & H).
  apply ret_Ok in H as [-> _]. apply mk_DataFrame_NoDup.
Qed.

(** What one pass of the inner loop of [generate_consumption_data]
    appends. *)
Lemma consumption_step_Ok (ts : Timestamp) (zone : string)
      (data data' : list ConsumptionReading) (g g' : rng_state) :
  consumption_step G ts zone data g = (Ok data', g') ->
  exists row,
    data' = data ++ [row]
    /\ c_timestamp row = ts /\ zone_id row = zone
    /\ consumption_row G row.
Proof.
  unfold consumption_step. intros H.
  apply bind_Ok in H as (base & g1 & H1 & H). apply lift_Ok in H1 as [H1 ->].
  apply bind_Ok in H as (profile & g2 & H2 & H). apply lift_Ok in H2 as [H2 ->].
  apply bind_Ok in H as (product & g3 & H3 & H). apply lift_Ok in H3 as [H3 ->].
  apply bind_Ok in H as (noise & g4 & H4 & H). apply normal_Ok in H4 as [-> ->].
  apply ret_Ok in H as [-> ->].
  eexists. split; [reflexivity|]. simpl. repeat split.
  exists base, profile, g. simpl. repeat split; try assumption.
  now exists product.
Qed.

Lemma generate_consumption_data_rows (start_time end_time : Timestamp)
      (minutes : positive) (g : rng_state) (df : DataFrame ConsumptionReading) :
  returns (generate_consumption_data G start_time end_time minutes) g df ->
  Forall (consumption_row G) (map snd df).
Proof.
  intros H. apply returns_run in H as (g' & H).
  unfold generate_consumption_data in H.
  apply bind_Ok in H as (data & g1 & H1 & H).
  apply ret_Ok in H as [-> _]. rewrite mk_DataFrame_rows.
  revert H1.
  apply (for_invariant _ (fun st => Forall (consumption_row G) st)).
  - intros ts st0 g0 st0' g0' Hst0.
    apply (for_invariant _ (fun st => Forall (consumption_row G) st)); [|assumption].
    intros zone st2 g2 st2' g2' Hst2 Hstep.
    apply consumption_step_Ok in Hstep as (row & -> & _ & _ & Hrow).
    apply Forall_app. split; [assumption|]. now constructor.
  - constructor.
Qed.

(** *** One row per (timestamp, entity) pair *)

Lemma sensor_inner_keys (ts : Timestamp) (sensors : list string) :
  forall locals g locals' g',
    for_ sensors (sensor_step G ts) locals g = (Ok locals', g') ->
    map row_key (data locals')
    = map row_key (data locals) ++ map (pair ts) sensors.
Proof.
  induction sensors as [|sid sensors IH]; intros locals g locals' g' H; simpl in H.
  - apply ret_Ok in H as [-> _]. simpl. now rewrite app_nil_r.
  - apply bind_Ok in H as (st1 & g1 & H1 & H).
    apply sensor_step_Ok in H1 as (row & Hd & Hts & Hid & _).
    rewrite (IH _ _ _ _ H), Hd, map_app. simpl.
    replace (row_key row) with (ts, sid) by (unfold row_key; now rewrite Hts, Hid).
    now rewrite <- app_assoc.
Qed.

Lemma sensor_outer_keys (sensors : list string) (grid : list Timestamp) :
  forall locals g locals' g',
    for_ grid (fun ts => for_ sensors (sensor_step G ts)) locals g
    = (Ok locals', g') ->
    map row_key (data locals')
    = map row_key (data locals) ++ list_prod grid sensors.
Proof.
  induction grid as [|ts grid IH]; intros locals g locals' g' H; simpl in H.
  - apply ret_Ok in H as [-> _]. simpl. now rewrite app_nil_r.
  - apply bind_Ok in H as (st1 & g1 & H1 & H).
    rewrite (IH _ _ _ _ H), (sensor_inner_keys _ _ _ _ _ _ H1). simpl.
    now rewrite <- app_assoc.
Qed.

Lemma consumption_inner_keys (ts : Timestamp) (zones : list string) :
  forall data g data' g',
    for_ zones (consumption_step G ts) data g = (Ok data', g') ->
    map reading_key data' = map reading_key data ++ map (pair ts) zones.
Proof.
  induction zones as [|zone zones IH]; intros data g data' g' H; simpl in H.
  - apply ret_Ok in H as [-> _]. now rewrite app_nil_r.
  - apply bind_Ok in H as (st1 & g1 & H1 & H).
    apply consumption_step_Ok in H1 as (row & -> & Hts & Hid & _).
    rewrite (IH _ _ _ _ H), map_app. simpl.
    replace (reading_key row) with (ts, zone)
      by (unfold reading_key; now rewrite Hts, Hid).
    now rewrite <- app_assoc.
Qed.

Lemma consumption_outer_keys (zones : list string) (grid : list Timestamp) :
  forall data g data' g',
    for_ grid (fun ts => for_ zones (consumption_step G ts)) data g
    = (Ok data', g') ->
    map reading_key data' = map reading_key data ++ list_prod grid zones.
Proof.
  induction grid as [|ts grid IH]; intros data g data' g' H; simpl in H.
  - apply ret_Ok in H as [-> _]. now rewrite app_nil_r.
  - apply bind_Ok in H as (st1 & g1 & H1 & H).
    rewrite (IH _ _ _ _ H), (consumption_inner_keys _ _ _ _ _ _ H1). simpl.
    now rewrite <- app_assoc.
Qed.

(** C5. For every network and time grid, the table returned by
    [generate_sensor_data] has exactly (number of grid timestamps) x
    (number of Sensor nodes) rows, one per (timestamp, sensor) pair, and
    the table returned by [generate_consumption_data] has exactly
    (number of grid timestamps) x (number of ConsumptionZone nodes)
    rows, one per (timestamp, zone) pair. *)
Theorem generated_tables_one_row_per_pair
        (start_time end_time : Timestamp) (minutes : positive) (g : rng_state) :
  (forall df,
      returns (generate_sensor_data G start_time end_time minutes) g df ->
      List.length df
      = (List.length (date_range start_time end_time minutes)
         * List.length (nodes_of_type G "Sensor"))%nat
      /\ map sensor_key df
         = list_prod (date_range start_time end_time minutes)
                     (nodes_of_type G "Sensor"))
  /\ (forall cf,
         returns (generate_consumption_data G start_time end_time minutes) g cf ->
         List.length cf
         = (List.length (date_range start_time end_time minutes)
            * List.length (nodes_of_type G "ConsumptionZone"))%nat
         /\ map consumption_key cf
            = list_prod (date_range start_time end_time minutes)
                        (nodes_of_type G "ConsumptionZone")).
Proof.
  split.
  - intros df H. apply returns_run in H as (g' & H).
    unfold generate_sensor_data in H.
    apply bind_Ok in H as (locals & g1 & H1 & H). apply ret_Ok in H as [-> _].
    apply sensor_outer_keys in H1. simpl in H1.
    assert (K : map sensor_key (mk_DataFrame (data locals))
                = list_prod (date_range start_time end_time minutes)
                            (nodes_of_type G "Sensor")).
    { transitivity (map row_key (map snd (mk_DataFrame (data locals)))).
      - rewrite map_map. reflexivity.
      - now rewrite mk_DataFrame_rows. }
    split; [|exact K].
    rewrite <- (length_map sensor_key), K. apply length_prod.
  - intros cf H. apply returns_run in H as (g' & H).
    unfold generate_consumption_data in H.
    apply bind_Ok in H as (data & g1 & H1 & H). apply ret_Ok in H as [-> _].
    apply consumption_outer_keys in H1. simpl in H1.
    assert (K : map consumption_key (mk_DataFrame data)
                = list_prod (date_range start_time end_time minutes)
                            (nodes_of_type G "ConsumptionZone")).
    { transitivity (map reading_key (map snd (mk_DataFrame data))).
      - rewrite map_map. reflexivity.
      - now rewrite mk_DataFrame_rows. }
    split; [|exact K].
    rewrite <- (length_map consumption_key), K. apply length_prod.
Qed.

(** *** Ranges of the generated values *)

(** C6. Every value in a table produced by [generate_sensor_data] is
    non-negative, every Level value lies within [0, capacity] for the
    (non-negative) capacity of the reservoir the sensor is attached to,
    and every consumption_liters_per_sec value produced by
    [generate_consumption_data] is non-negative. *)
Theorem generated_values_in_range
        (start_time end_time : Timestamp) (minutes : positive) (g : rng_state) :
  (forall df,
      returns (generate_sensor_data G start_time end_time minutes) g df ->
      Forall (fun r =>
                fle 0 (value (snd r))
                /\ (sensor_type (snd r) = "Level" ->
                    forall capacity,
                      node_attr G (attached_to (snd r)) "capacity" a_capacity
                      = Ok capacity ->
                      fle 0 capacity ->
                      fle (value (snd r)) capacity)) df)
  /\ (forall cf,
         returns (generate_consumption_data G start_time end_time minutes) g cf ->
         Forall (fun r => fle 0 (consumption_liters_per_sec (snd r))) cf).
Proof.
  split.
  - intros df H. apply generate_sensor_data_rows in H.
    rewrite Forall_map in H. revert H. apply Forall_impl.
    intros [name row] (bp & g0 & bp' & g0' & Hv). simpl in *.
    apply sensor_value_Ok in Hv
      as [(Hst & _ & base & factor & product & noise & _ & _ & ->)
         |[(Hst & ty & base & noise & _ & _ & _ & ->)
          |[(Hst & Hr & _ & lvl & cap & noise & _ & Hcap & ->)
           |[(Hst & _ & _ & ->)
            |(_ & _ & Hst & _ & ->)]]]].
    + split; [apply max_zero_nonneg|]. rewrite Hst. discriminate.
    + split; [apply max_zero_nonneg|]. rewrite Hst. discriminate.
    + split; [apply max_zero_nonneg|].
      intros _ capacity Hc Hpos. rewrite Hr, Hcap in Hc. injection Hc as ->.
      now apply clip_in_range.
    + split; [apply fle_zero_zero|]. now intros _ capacity _ Hpos.
    + split; [apply fle_zero_zero|]. intros E. contradiction.
  - intros cf H. apply generate_consumption_data_rows in H.
    rewrite Forall_map in H. revert H. apply Forall_impl.
    intros [name row] (base & profile & g0 & _ & _ & product & _ & Hv).
    simpl in *. rewrite Hv. apply max_zero_nonneg.
Qed.

(** *** Degenerate time ranges *)

Lemma date_range_single (start_time : Timestamp) (minutes : positive) :
  date_range start_time start_time minutes = [start_time].
Proof.
  unfold date_range. rewrite Z.ltb_irrefl, Z.sub_diag, Z.div_0_l by lia.
  change (Z.to_nat 0) with 0%nat. cbn [seq map Z.of_nat].
  now rewrite Z.mul_0_l, Z.add_0_r.
Qed.

Lemma date_range_empty (start_time end_time : Timestamp) (minutes : positive) :
  end_time < start_time -> date_range start_time end_time minutes = [].
Proof.
  intros H. unfold date_range. apply Z.ltb_lt in H. now rewrite H.
Qed.

(** *** Consumption values *)

Lemma hour_range (t : Timestamp) : 0 <= hour t < 24.
Proof.
  unfold hour, seconds_per_day.
  pose proof (Z.mod_pos_bound t 86400 ltac:(lia)) as B.
  split.
  - apply Z.div_pos; lia.
  - apply Z.div_lt_upper_bound; lia.
Qed.

Lemma weekday_range (t : Timestamp) : 0 <= weekday t < 7.
Proof. unfold weekday. apply Z.mod_pos_bound. lia. Qed.

(** The bucket chain of the code reads the table of section 4.2. *)
Lemma bucket_factor_table (demand_profile : string) (h : Z) :
  known_profile demand_profile -> 0 <= h < 24 ->
  table_factor (profile_table demand_profile) h
  = Some (bucket_factor demand_profile h).
Proof.
  intros Hp Hh.
  assert (Hcases : h = 0 \/ h = 1 \/ h = 2 \/ h = 3 \/ h = 4 \/ h = 5 \/ h = 6
                   \/ h = 7 \/ h = 8 \/ h = 9 \/ h = 10 \/ h = 11 \/ h = 12
                   \/ h = 13 \/ h = 14 \/ h = 15 \/ h = 16 \/ h = 17 \/ h = 18
                   \/ h = 19 \/ h = 20 \/ h = 21 \/ h = 22 \/ h = 23) by lia.
  destruct Hp as [-> | [-> | ->]];
    repeat (destruct Hcases as [-> | Hcases]; [reflexivity|]);
    subst; reflexivity.
Qed.

Lemma weekend_adjust_multiplier (demand_profile : string) (t : Timestamp)
      (bucket : float) :
  known_profile demand_profile ->
  exists multiplier,
    weekend_multiplier demand_profile = Some multiplier
    /\ weekend_adjust demand_profile (weekday t) bucket
       = if is_weekend t then (bucket * multiplier)%float else bucket.
Proof.
  intros Hp. pose proof (weekday_range t) as Hw.
  unfold weekend_adjust, is_weekend.
  assert (E : (5 <=? weekday t) = ((weekday t =? 5) || (weekday t =? 6))).
  { destruct (Z.leb_spec 5 (weekday t)), (Z.eqb_spec (weekday t) 5),
      (Z.eqb_spec (weekday t) 6); simpl; try reflexivity; lia. }
  rewrite E.
  destruct Hp as [-> | [-> | ->]]; eexists; (split; [reflexivity|]);
    now destruct ((weekday t =? 5) || (weekday t =? 6)).
Qed.

(** *** Base flow *)

Lemma node_attr_Ok {A : Type} (n key : string) (field : NodeAttrs -> option A)
      (a : A) :
  node_attr G n key field = Ok a ->
  exists attrs, assoc n (node G) = Some attrs /\ field attrs = Some a.
Proof.
  unfold node_attr, nodes_getitem, getitem.
  destruct (assoc n (node G)) as [attrs|]; simpl; [|discriminate].
  destruct (field attrs) as [a'|] eqn:E; [|discriminate].
  intros H. injection H as ->. now exists attrs.
Qed.

(** The loop of lines 34-36 adds up the demand of the successors that
    are ConsumptionZone nodes. *)
Lemma downstream_Ok (neighbors : list string) :
  forall acc d,
    downstream G neighbors acc = Ok d ->
    sum_from acc (map (demand_of G) (filter (is_consumption_zone G) neighbors))
    = Ok d.
Proof.
  induction neighbors as [|n neighbors IH]; intros acc d H; simpl in H.
  - exact H.
  - apply obind_Ok in H as (ty & Hty & H).
    apply node_attr_Ok in Hty as (attrs & Hn & Hty).
    simpl. unfold is_consumption_zone at 1. rewrite Hn, Hty.
    destruct (ty == "ConsumptionZone").
    + apply obind_Ok in H as (d' & Hd & H).
      apply node_attr_Ok in Hd as (attrs' & Hn' & Hd).
      rewrite Hn in Hn'. injection Hn' as <-.
      apply obind_Ok in H as (acc' & Hacc & H).
      simpl. unfold demand_of at 1. rewrite Hn, Hd. simpl. rewrite Hacc. simpl.
      now apply IH.
    + now apply IH.
Qed.

(** The cases of [base_flow] that return. *)
Lemma base_flow_Ok (attached : string) (base : scalar) :
  base_flow G attached = Ok base ->
  exists ty,
    node_attr G attached "type" a_type = Ok ty
    /\ (ty = "ConsumptionZone" ->
        node_attr G attached "base_demand" a_base_demand = Ok base)
    /\ (ty = "Junction" ->
        exists demand positive,
          demand_sum G (successor_zones G attached) = Ok demand
          /\ gt_zero demand = Ok positive
          /\ base = if positive then demand else PyInt 150)
    /\ (ty <> "ConsumptionZone" -> ty <> "Junction" ->
        exists attrs,
          assoc attached (node G) = Some attrs
          /\ base = get (a_pump_rate attrs) (PyInt 0)).
Proof.
  unfold base_flow. intros H.
  apply obind_Ok in H as (ty & Hty & H). exists ty. split; [assumption|].
  destruct (String.eqb_spec ty "ConsumptionZone") as [EZ|NZ].
  { split; [now intros _|]. split; [|congruence].
    subst ty. intros E. discriminate. }
  split; [congruence|].
  destruct (String.eqb_spec ty "Junction") as [EJ|NJ].
  - split; [|congruence]. intros _.
    apply obind_Ok in H as (neighbors & Hs & H).
    apply obind_Ok in H as (d & Hd & H).
    apply obind_Ok in H as (positive & Hpos & H). injection H as <-.
    unfold successors in Hs. destruct (has_node G attached); [|discriminate].
    injection Hs as <-. apply downstream_Ok in Hd.
    exists d, positive. now repeat split.
  - split; [congruence|]. intros _ _.
    unfold nodes_getitem, getitem in H.
    destruct (assoc attached (node G)) as [attrs|]; simpl in H; [|discriminate].
    injection H as <-. now exists attrs.
Qed.

(** *** Sensor types and node types outside the handled cases *)

(** A sensor type other than Flow, Pressure and Level yields 0.0. *)
Lemma unknown_sensor_type_zero (ts : Timestamp) (st attached : string)
      (bp : option float) (g : rng_state) :
  st <> "Flow" -> st <> "Pressure" -> st <> "Level" ->
  sensor_value G ts st attached bp g = (Ok (0%float, bp), g).
Proof.
  intros HF HP HL. unfold sensor_value.
  apply String.eqb_neq in HF, HP, HL. now rewrite HF, HP, HL.
Qed.

(** A Level sensor on a node other than R1 yields 0.0. *)
Lemma level_off_R1_zero (ts : Timestamp) (attached : string)
      (bp : option float) (g : rng_state) :
  attached <> "R1" ->
  sensor_value G ts "Level" attached bp g = (Ok (0%float, bp), g).
Proof.
  intros HR. unfold sensor_value. apply String.eqb_neq in HR.
  simpl. now rewrite HR.
Qed.

Lemma pressure_base_unhandled (ty : string) (bp : option float) :
  unhandled_for_pressure ty -> pressure_base ty bp = bp.
Proof.
  intros (HZ & HJ & HP & HR). unfold pressure_base.
  apply String.eqb_neq in HZ, HJ, HP, HR. now rewrite HZ, HJ, HP, HR.
Qed.

(** A Pressure sensor on any other node type reads [base_pressure]
    before anything has bound it: [UnboundLocalError]. *)
Lemma pressure_unhandled_unbound (ts : Timestamp) (attached ty : string)
      (g : rng_state) :
  node_attr G attached "type" a_type = Ok ty ->
  unhandled_for_pressure ty ->
  sensor_value G ts "Pressure" attached None g
  = (Raise (UnboundLocalError "base_pressure"), g).
Proof.
  intros Hty Hun. unfold sensor_value. simpl. unfold bind, lift.
  now rewrite Hty, pressure_base_unhandled.
Qed.

(** Once an earlier Pressure sensor has bound [base_pressure], the
    same sensor silently reuses that value. *)
Lemma pressure_unhandled_stale (ts : Timestamp) (attached ty : string)
      (b : float) (g : rng_state) :
  node_attr G attached "type" a_type = Ok ty ->
  unhandled_for_pressure ty ->
  sensor_value G ts "Pressure" attached (Some b) g
  = (Ok (max 0 (b + fst (random_normal 0 10000 g))%float, Some b),
     snd (random_normal 0 10000 g)).
Proof.
  intros Hty Hun. unfold sensor_value. simpl. unfold bind, lift.
  rewrite Hty, pressure_base_unhandled by assumption. reflexivity.
Qed.

(** *** Reproducibility *)

Lemma oblivious_ret {A : Type} (a : A) : oblivious (ret a).
Proof. intros g1 g2. reflexivity. Qed.

Lemma oblivious_lift {A : Type} (o : outcome A) : oblivious (lift o).
Proof. intros g1 g2. reflexivity. Qed.

Lemma oblivious_bind {A B : Type} (m : M A) (k : A -> M B) :
  oblivious m -> (forall a, oblivious (k a)) -> oblivious (bind m k).
Proof.
  intros Hm Hk g1 g2. unfold bind. specialize (Hm g1 g2).
  destruct (m g1) as [[a1|e1] g1'], (m g2) as [[a2|e2] g2'];
    simpl in Hm; try discriminate.
  - injection Hm as ->. apply Hk.
  - simpl. congruence.
Qed.

Lemma oblivious_normal (loc scale : float) :
  quiet np -> oblivious (normal loc scale).
Proof. intros Hq g1 g2. unfold normal. simpl. now rewrite !Hq. Qed.

Lemma oblivious_for {A St : Type} (body : A -> St -> M St) (xs : list A) :
  (forall x st, oblivious (body x st)) ->
  forall st, oblivious (for_ xs body st).
Proof.
  intros Hbody. induction xs as [|x xs IH]; intros st; simpl.
  - apply oblivious_ret.
  - apply oblivious_bind; [apply Hbody | exact IH].
Qed.

End Series.

Create HintDb oblivious.

#[export] Hint Resolve oblivious_ret oblivious_lift oblivious_normal : oblivious.

Ltac oblivious_steps :=
  repeat first
    [ apply oblivious_bind; [|intros ?]
    | solve [auto with oblivious]
    | match goal with
      | |- oblivious (if ?b then _ else _) => destruct b
      | |- oblivious (match ?b with _ => _ end) => destruct b
      end ].

Section Reproducible.

Context {np : NumPy}.
Variable G : DiGraph.
Hypothesis noise_off : quiet np.

Lemma oblivious_pattern_factor (h : Z) : oblivious (pattern_factor h).
Proof. unfold pattern_factor. oblivious_steps. Qed.

Lemma oblivious_sensor_value (ts : Timestamp) (st attached : string)
      (bp : option float) :
  oblivious (sensor_value G ts st attached bp).
Proof.
  unfold sensor_value.
  pose proof (oblivious_pattern_factor (hour ts)).
  oblivious_steps.
Qed.

Lemma oblivious_sensor_step (ts : Timestamp) (sid : string) (st : SensorLocals) :
  oblivious (sensor_step G ts sid st).
Proof.
  unfold sensor_step.
  pose proof oblivious_sensor_value. oblivious_steps.
Qed.

Lemma oblivious_consumption_step (ts : Timestamp) (zone : string)
      (data : list ConsumptionReading) :
  oblivious (consumption_step G ts zone data).
Proof. unfold consumption_step. oblivious_steps. Qed.

Lemma oblivious_generate_sensor_data (start_time end_time : Timestamp)
      (minutes : positive) :
  oblivious (generate_sensor_data G start_time end_time minutes).
Proof.
  unfold generate_sensor_data. apply oblivious_bind.
  - apply oblivious_for. intros ts st. apply oblivious_for.
    intros sid st'. apply oblivious_sensor_step.
  - intros locals. apply oblivious_ret.
Qed.

Lemma oblivious_generate_consumption_data (start_time end_time : Timestamp)
      (minutes : positive) :
  oblivious (generate_consumption_data G start_time end_time minutes).
Proof.
  unfold generate_consumption_data. apply oblivious_bind.
  - apply oblivious_for. intros ts st. apply oblivious_for.
    intros zone st'. apply oblivious_consumption_step.
  - intros data. apply oblivious_ret.
Qed.

End Reproducible.

(** C9. With the random noise terms fixed (every draw replaced by zero,
    or the pseudo-random source in an identical state), two calls of
    [generate_sensor_data] (respectively [generate_consumption_data])
    with identical network, start, end and interval produce identical
    tables. *)
Theorem generation_is_reproducible {np : NumPy} (G : DiGraph)
        (start_time end_time : Timestamp) (minutes : positive)
        (g1 g2 : rng_state) :
  g1 = g2 \/ quiet np ->
  fst (generate_sensor_data G start_time end_time minutes g1)
  = fst (generate_sensor_data G start_time end_time minutes g2)
  /\ fst (generate_consumption_data G start_time end_time minutes g1)
     = fst (generate_consumption_data G start_time end_time minutes g2).
Proof.
  intros [-> | Hq]; [now split|]. split.
  - now apply oblivious_generate_sensor_data.
  - now apply oblivious_generate_consumption_data.
Qed.

End SeriesFacts.

(* ================================================================= *)
(** ** The generators on concrete networks *)

Module SeriesExamples.

Import Py Pandas Nx Np NetworkBuilder DataGenerator Spec Fixtures.
Import FloatFacts SeriesFacts.

(** C3, at a failing input. A Pressure sensor on a Valve is none of the
    handled cases. Alone in its network it makes [generate_sensor_data]
    raise [UnboundLocalError] instead of recording 0.0; after a
    Pressure sensor on a Junction it records the junction's base
    pressure 500000 instead of 0.0. *)
Theorem pressure_sensor_on_valve_not_zero :
  generate_sensor_data (np := quiet_numpy) valve_network
                       jan1_2023 jan1_2023 60 0%nat
  = (Raise (UnboundLocalError "base_pressure"), 0%nat)
  /\ fst (generate_sensor_data (np := quiet_numpy) junction_valve_network
                               jan1_2023 jan1_2023 60 0%nat)
     = Ok [ (0, mkSensorReading jan1_2023 "S_P_J1" "J1" "Pressure" 500000);
            (1, mkSensorReading jan1_2023 "S_P_V1" "V1" "Pressure" 500000) ].
Proof. split; vm_compute; reflexivity. Qed.

Lemma generated_tables_one_row_per_pair_witness :
  (exists df,
      returns (generate_sensor_data (np := lcg_numpy) build_simple_water_network
                                    jan1_2023 (jan1_2023 + hours 24) 60) 42 df
      /\ List.length df = (25 * 9)%nat
      /\ map sensor_key df
         = list_prod (date_range jan1_2023 (jan1_2023 + hours 24) 60)
                     (nodes_of_type build_simple_water_network "Sensor"))
  /\ (exists cf,
         returns (generate_consumption_data (np := lcg_numpy)
                    build_simple_water_network
                    jan1_2023 (jan1_2023 + hours 24) 60) 42 cf
         /\ List.length cf = (25 * 3)%nat
         /\ map consumption_key cf
            = list_prod (date_range jan1_2023 (jan1_2023 + hours 24) 60)
                        (nodes_of_type build_simple_water_network
                                       "ConsumptionZone")).
Proof.
  pose proof (generated_tables_one_row_per_pair (np := lcg_numpy)
                build_simple_water_network
                jan1_2023 (jan1_2023 + hours 24) 60 42) as [Hs Hc].
  split; eexists; (split; [vm_compute; reflexivity|]).
  - apply Hs. vm_compute. reflexivity.
  - apply Hc. vm_compute. reflexivity.
Defined.

Lemma generated_values_in_range_witness :
  (exists df,
      returns (generate_sensor_data (np := lcg_numpy) build_simple_water_network
                                    jan1_2023 (jan1_2023 + hours 2) 60) 42 df
      /\ Forall (fun r =>
                   fle 0 (value (snd r))
                   /\ (sensor_type (snd r) = "Level" ->
                       attached_to (snd r) = "R1" ->
                       fle (value (snd r)) 1000000)) df)
  /\ (exists cf,
         returns (generate_consumption_data (np := lcg_numpy)
                    build_simple_water_network
                    jan1_2023 (jan1_2023 + hours 2) 60) 42 cf
         /\ Forall (fun r => fle 0 (consumption_liters_per_sec (snd r))) cf).
Proof.
  pose proof (generated_values_in_range (np := lcg_numpy)
                build_simple_water_network
                jan1_2023 (jan1_2023 + hours 2) 60 42) as [Hs Hc].
  split; eexists; (split; [vm_compute; reflexivity|]).
  - eapply Forall_impl; [|apply Hs; vm_compute; reflexivity].
    intros r [Hpos Hlevel]. split; [assumption|]. intros Hl Hr.
    apply (Hlevel Hl 1000000%float); [now rewrite Hr | reflexivity].
  - apply Hc. vm_compute. reflexivity.
Defined.

Lemma quiet_numpy_is_quiet : quiet quiet_numpy.
Proof. intros loc scale g. reflexivity. Defined.

Lemma generation_is_reproducible_witness :
  fst (generate_sensor_data (np := quiet_numpy) build_simple_water_network
                            jan1_2023 (jan1_2023 + hours 2) 60 0%nat)
  = fst (generate_sensor_data (np := quiet_numpy) build_simple_water_network
                              jan1_2023 (jan1_2023 + hours 2) 60 7%nat)
  /\ fst (generate_consumption_data (np := quiet_numpy)
            build_simple_water_network
            jan1_2023 (jan1_2023 + hours 2) 60 0%nat)
     = fst (generate_consumption_data (np := quiet_numpy)
              build_simple_water_network
              jan1_2023 (jan1_2023 + hours 2) 60 7%nat).
Proof.
  apply (generation_is_reproducible (np := quiet_numpy)).
  right. exact quiet_numpy_is_quiet.
Defined.

(** A Level sensor on a Reservoir that is not called R1 records 0.0 at
    every timestamp. *)
Example level_sensor_on_other_reservoir :
  fst (generate_sensor_data (np := lcg_numpy) other_reservoir_network
                            jan1_2023 (jan1_2023 + hours 1) 60 42)
  = Ok [ (0, mkSensorReading jan1_2023 "S_L_R2" "R2" "Level" 0);
         (1, mkSensorReading (jan1_2023 + hours 1) "S_L_R2" "R2" "Level" 0) ].
Proof. vm_compute. reflexivity. Qed.

End SeriesExamples.

(* ================================================================= *)
(** ** More facts about runs and loops *)

Module RunFacts.

Import Py Np DataGenerator GeneratorFacts.

Section Runs.

Context {np : NumPy}.

Lemma bind_Raise {A B : Type} (m : M A) (k : A -> M B) (g g' : rng_state)
      (e : exn) :
  bind m k g = (Raise e, g') ->
  m g = (Raise e, g')
  \/ exists a g1, m g = (Ok a, g1) /\ k a g1 = (Raise e, g').
Proof.
  unfold bind. destruct (m g) as [[a|e0] g1]; intros H.
  - right. now exists a, g1.
  - left. injection H as -> ->. reflexivity.
Qed.

Lemma lift_Raise {A : Type} (o : outcome A) (g g' : rng_state) (e : exn) :
  lift o g = (Raise e, g') -> o = Raise e /\ g' = g.
Proof. unfold lift. intros H. injection H as -> ->. now split. Qed.

Lemma obind_Raise {A B : Type} (o : outcome A) (k : A -> outcome B) (e : exn) :
  obind o k = Raise e -> o = Raise e \/ exists a, o = Ok a /\ k a = Raise e.
Proof.
  destruct o as [a|e0]; simpl; intros H.
  - right. now exists a.
  - left. injection H as ->. reflexivity.
Qed.

(** A loop keeps what its iterations keep, the iterations being those
    of the elements of the list. *)
Lemma for_invariant_In {A St : Type} (body : A -> St -> M St) (I : St -> Prop)
      (xs : list A) :
  (forall x st g st' g',
      In x xs -> I st -> body x st g = (Ok st', g') -> I st') ->
  forall st g st' g',
    I st -> for_ xs body st g = (Ok st', g') -> I st'.
Proof.
  induction xs as [|x xs IH]; intros Hbody st g st' g' Hst H; simpl in H.
  - apply ret_Ok in H as [-> _]. assumption.
  - apply bind_Ok in H as (st1 & g1 & H1 & H).
    apply (IH (fun y s0 g0 s1 g2 Hy => Hbody y s0 g0 s1 g2 (or_intror Hy))
              st1 g1 st' g'); [|assumption].
    apply (Hbody x st g st1 g1); [now left | assumption | assumption].
Qed.

(** A loop whose iterations all return, returns. *)
Lemma for_total {A St : Type} (body : A -> St -> M St) (xs : list A) :
  (forall x, In x xs -> forall st g, exists st' g', body x st g = (Ok st', g')) ->
  forall st g, exists st' g', for_ xs body st g = (Ok st', g').
Proof.
  induction xs as [|x xs IH]; intros Hbody st g; simpl.
  - now exists st, g.
  - destruct (Hbody x (or_introl eq_refl) st g) as (st1 & g1 & H1).
    unfold bind. rewrite H1. apply IH. intros y Hy. apply Hbody. now right.
Qed.

(** A loop that raises, raises in one of its iterations. *)
Lemma for_Raise {A St : Type} (body : A -> St -> M St) (xs : list A) :
  forall st g e g',
    for_ xs body st g = (Raise e, g') ->
    exists x st0 g0, In x xs /\ body x st0 g0 = (Raise e, g').
Proof.
  induction xs as [|x xs IH]; intros st g e g' H; simpl in H.
  - discriminate.
  - apply bind_Raise in H as [H | (st1 & g1 & H1 & H)].
    + exists x, st, g. split; [now left | assumption].
    + apply IH in H as (y & st0 & g0 & Hy & H).
      exists y, st0, g0. split; [now right | assumption].
Qed.

End Runs.

End RunFacts.

(* ================================================================= *)
(** ** What the injector keeps *)

Module InjectorInvariants.

Import Py Pandas Nx Np DataGenerator Spec Schema.
Import NxFacts PandasFacts GeneratorFacts RunFacts SeriesFacts.

Section Invariants.

Context {np : NumPy}.
Variables (G : DiGraph) (leak_node_id : string).
Variables (start_time end_time : Timestamp) (severity_factor : float).

Lemma same_but_value_refl (r : Z * SensorReading) : same_but_value r r.
Proof. unfold same_but_value. now repeat split. Qed.

Lemma same_but_value_trans (r1 r2 r3 : Z * SensorReading) :
  same_but_value r1 r2 -> same_but_value r2 r3 -> same_but_value r1 r3.
Proof.
  unfold same_but_value. intros (A1 & A2 & A3 & A4 & A5) (B1 & B2 & B3 & B4 & B5).
  repeat split; congruence.
Qed.

Lemma Forall2_same_refl (df : DataFrame SensorReading) :
  Forall2 same_but_value df df.
Proof. induction df; constructor; [apply same_but_value_refl | assumption]. Qed.

Lemma Forall2_same_trans (df1 df2 df3 : DataFrame SensorReading) :
  Forall2 same_but_value df1 df2 -> Forall2 same_but_value df2 df3 ->
  Forall2 same_but_value df1 df3.
Proof.
  intros H. revert df3. induction H as [|r1 r2 l1 l2 Hr _ IH]; intros df3 H'.
  - inversion H'. constructor.
  - inversion H' as [|? r3 ? l3 Hr' Hl']; subst. constructor.
    + now apply same_but_value_trans with r2.
    + now apply IH.
Qed.

(** A write through [loc] changes nothing but values. *)
Lemma loc_assign_same (df : DataFrame SensorReading) (label : Z) (v : float) :
  Forall2 same_but_value df (loc_assign df label (set_value v)).
Proof.
  unfold loc_assign. induction df as [|[n r] df IH]; simpl; constructor;
    try assumption.
  destruct (n =? label); [|apply same_but_value_refl].
  unfold same_but_value. simpl. now repeat split.
Qed.

(** One pass of the injector's loop returns, and changes nothing but
    values. *)
Lemma leak_step_same (upstream_nodes : list string) (name : Z)
      (row : SensorReading) (df : DataFrame SensorReading) (g : rng_state) :
  exists df' g',
    leak_step upstream_nodes leak_node_id start_time end_time severity_factor
              (name, row) df g
    = (Ok df', g')
    /\ Forall2 same_but_value df df'.
Proof.
  rewrite leak_step_eval.
  destruct (_ && _ && (sensor_type row == "Flow")).
  - eexists _, _. split; [reflexivity | apply loc_assign_same].
  - destruct (_ && _ && (sensor_type row == "Pressure")).
    + eexists _, _. split; [reflexivity | apply loc_assign_same].
    + eexists _, _. split; [reflexivity | apply Forall2_same_refl].
Qed.

Lemma leak_loop_same (upstream_nodes : list string)
      (rows : DataFrame SensorReading) :
  forall (df : DataFrame SensorReading) (g : rng_state),
  exists df' g',
    for_ rows
         (leak_step upstream_nodes leak_node_id start_time end_time
                    severity_factor) df g
    = (Ok df', g')
    /\ Forall2 same_but_value df df'.
Proof.
  induction rows as [|[name row] rows IH]; intros df g; simpl.
  - exists df, g. split; [reflexivity | apply Forall2_same_refl].
  - destruct (leak_step_same upstream_nodes name row df g) as (df1 & g1 & H1 & S1).
    unfold bind. rewrite H1.
    destruct (IH df1 g1) as (df' & g' & H' & S').
    exists df', g'. split; [assumption|].
    now apply Forall2_same_trans with df1.
Qed.

(** X1. Whenever the leak node is in the network, [inject_leak_event]
    returns, whatever the table (repeated index labels included), and
    the returned table has the rows of the input in the same order with
    the same label, timestamp, sensor_id, attached_to and sensor_type:
    only the value column can differ. *)
Theorem inject_leak_event_keeps_shape
        (sensor_df : DataFrame SensorReading) (g : rng_state) :
  has_node G leak_node_id = true ->
  exists df' g',
    inject_leak_event sensor_df G leak_node_id start_time end_time
                      severity_factor g
    = (Ok df', g')
    /\ List.length df' = List.length sensor_df
    /\ Forall2 same_but_value sensor_df df'.
Proof.
  intros Hnode. unfold inject_leak_event, bind, lift, ancestors.
  rewrite Hnode.
  destruct (leak_loop_same
              (filter (fun u => negb (u == leak_node_id))
                      (grow_n G (List.length (adj G)) [leak_node_id]))
              sensor_df sensor_df g) as (df' & g' & Hrun & Hsame).
  exists df', g'. split; [exact Hrun|]. split; [|exact Hsame].
  symmetry. now apply Forall2_length with (R := same_but_value).
Qed.

Lemma leak_hit_b_spec (upstream_nodes : list string) (row : SensorReading) :
  ancestors G leak_node_id = Ok upstream_nodes ->
  leak_hit_b upstream_nodes leak_node_id start_time end_time row = true
  <-> leak_hit G leak_node_id start_time end_time row.
Proof.
  intros Hanc. unfold leak_hit_b, leak_hit.
  rewrite !andb_true_iff, orb_true_iff, !String.eqb_eq.
  rewrite in_window_b_spec, (affected_spec G leak_node_id upstream_nodes row Hanc).
  tauto.
Qed.

(** A pass over a row that is not hit leaves frame and generator as
    they are. *)
Lemma leak_step_miss (upstream_nodes : list string) (name : Z)
      (row : SensorReading) (df : DataFrame SensorReading) (g : rng_state) :
  leak_hit_b upstream_nodes leak_node_id start_time end_time row = false ->
  leak_step upstream_nodes leak_node_id start_time end_time severity_factor
            (name, row) df g
  = (Ok df, g).
Proof.
  intros H. rewrite leak_step_eval. unfold leak_hit_b in H.
  destruct (in_window_b start_time end_time row
            && affected upstream_nodes leak_node_id row); simpl in *;
    [|reflexivity].
  apply orb_false_iff in H as [-> ->]. reflexivity.
Qed.

(** A pass over a row that is hit takes exactly one uniform draw. *)
Lemma leak_step_hit (upstream_nodes : list string) (name : Z)
      (row : SensorReading) (df : DataFrame SensorReading) (g : rng_state) :
  leak_hit_b upstream_nodes leak_node_id start_time end_time row = true ->
  snd (leak_step upstream_nodes leak_node_id start_time end_time
                 severity_factor (name, row) df g)
  = snd (random_uniform 0.8 1.2 g).
Proof.
  intros H. rewrite leak_step_eval. unfold leak_hit_b in H.
  destruct (in_window_b start_time end_time row
            && affected upstream_nodes leak_node_id row); simpl in *;
    [|discriminate].
  destruct (sensor_type row == "Flow"); [reflexivity|].
  simpl in H. now rewrite H.
Qed.

(** X2. When the leak node is in the network and no row of the table
    is at once in the window, a Flow or Pressure row, and attached to
    the leak node or to a node with a directed path to it,
    [inject_leak_event] returns the table unchanged and draws no random
    number. *)
Theorem inject_leak_event_no_target_is_identity
        (sensor_df : DataFrame SensorReading) (g : rng_state) :
  has_node G leak_node_id = true ->
  Forall (fun r => ~ leak_hit G leak_node_id start_time end_time (snd r))
         sensor_df ->
  inject_leak_event sensor_df G leak_node_id start_time end_time
                    severity_factor g
  = (Ok sensor_df, g).
Proof.
  intros Hnode Hmiss. unfold inject_leak_event, bind, lift.
  destruct (ancestors G leak_node_id) as [upstream_nodes|e] eqn:Hanc.
  - assert (Hloop : forall rows df,
               Forall (fun r => ~ leak_hit G leak_node_id start_time end_time
                                           (snd r)) rows ->
               for_ rows
                    (leak_step upstream_nodes leak_node_id start_time end_time
                               severity_factor) df g
               = (Ok df, g)).
    { induction rows as [|[name row] rows IH]; intros df Hrows; [reflexivity|].
      inversion Hrows as [|? ? Hrow Hrest]; subst. simpl in Hrow.
      simpl. unfold bind. rewrite leak_step_miss; [now apply IH|].
      destruct (leak_hit_b upstream_nodes leak_node_id start_time end_time row)
               eqn:Hb; [|reflexivity].
      apply (leak_hit_b_spec upstream_nodes row Hanc) in Hb. contradiction. }
    now apply Hloop.
  - unfold ancestors in Hanc. rewrite Hnode in Hanc. discriminate.
Qed.

(** X3. [inject_leak_event] takes exactly one draw of
    [uniform(0.8, 1.2)] for each row that passes the test of lines
    145-149, and none for any other row: the generator ends in the
    state reached after as many uniform draws as there are such rows. *)
Theorem inject_leak_event_one_draw_per_hit
        (sensor_df : DataFrame SensorReading) (upstream_nodes : list string)
        (g : rng_state) :
  ancestors G leak_node_id = Ok upstream_nodes ->
  snd (inject_leak_event sensor_df G leak_node_id start_time end_time
                         severity_factor g)
  = Nat.iter
      (List.length
         (filter (fun r => leak_hit_b upstream_nodes leak_node_id
                                      start_time end_time (snd r)) sensor_df))
      (fun g0 => snd (random_uniform 0.8 1.2 g0)) g.
Proof.
  intros Hanc. unfold inject_leak_event, bind, lift. rewrite Hanc.
  assert (Hiter : forall (n : nat) (g0 : rng_state),
             Nat.iter n (fun g1 => snd (random_uniform 0.8 1.2 g1))
                      (snd (random_uniform 0.8 1.2 g0))
             = Nat.iter (S n) (fun g1 => snd (random_uniform 0.8 1.2 g1)) g0).
  { induction n as [|n IHn]; intros g0; [reflexivity|].
    simpl. simpl in IHn. now rewrite IHn. }
  generalize sensor_df at 2 as df. revert g.
  induction sensor_df as [|[name row] rows IH]; intros g df; [reflexivity|].
  simpl for_. unfold bind.
  destruct (leak_step_same upstream_nodes name row df g) as (df1 & g1 & H1 & _).
  rewrite H1. rewrite IH. simpl filter.
  destruct (leak_hit_b upstream_nodes leak_node_id start_time end_time row)
           eqn:Hb.
  - pose proof (leak_step_hit upstream_nodes name row df g Hb) as Hs.
    rewrite H1 in Hs. simpl in Hs. subst g1. cbn [List.length]. apply Hiter.
  - rewrite (leak_step_miss upstream_nodes name row df g Hb) in H1.
    injection H1 as _ <-. reflexivity.
Qed.

(** X4. The injector composes with the generator: on every table
    [generate_sensor_data] returns, for every leak node of the network,
    [inject_leak_event] returns the table in which exactly the Flow and
    Pressure rows in the window and on the leak node or upstream of it
    are scaled, with one fresh draw each, and every other row is as
    generated. *)
Theorem inject_after_generate
        (gen_start gen_end : Timestamp) (minutes : positive)
        (g0 : rng_state) (sensor_df : DataFrame SensorReading) (g : rng_state) :
  returns (generate_sensor_data G gen_start gen_end minutes) g0 sensor_df ->
  has_node G leak_node_id = true ->
  exists df' g',
    inject_leak_event sensor_df G leak_node_id start_time end_time
                      severity_factor g
    = (Ok df', g')
    /\ leak_injected G leak_node_id start_time end_time severity_factor
                     sensor_df g df' g'.
Proof.
  intros Hgen Hnode.
  pose proof (generate_sensor_data_index_NoDup G gen_start gen_end minutes
                                               g0 sensor_df Hgen) as Hnd.
  unfold inject_leak_event, bind, lift.
  destruct (ancestors G leak_node_id) as [upstream_nodes|e] eqn:Hanc.
  - exact (leak_loop G leak_node_id start_time end_time severity_factor
                     upstream_nodes Hanc sensor_df [] g Hnd).
  - unfold ancestors in Hanc. rewrite Hnode in Hanc. discriminate.
Qed.

End Invariants.

End InjectorInvariants.

(* ================================================================= *)
(** ** What the generated tables keep *)

Module SeriesInvariants.

Import Py Pandas Nx Np DataGenerator Spec Schema.
Import PandasFacts GeneratorFacts RunFacts SeriesFacts.

(** *** The sampling grid *)

Lemma date_range_on_grid (start_time end_time : Timestamp) (minutes : positive)
      (t : Timestamp) :
  In t (date_range start_time end_time minutes) ->
  on_grid start_time end_time minutes t.
Proof.
  unfold date_range, on_grid.
  destruct (Z.ltb_spec end_time start_time) as [Hlt|Hle]; [contradiction|].
  intros H. apply in_map_iff in H as (k & <- & Hk). apply in_seq in Hk.
  set (step := 60 * Z.pos minutes) in *.
  assert (Hstep : 0 < step) by (unfold step; lia).
  assert (Hq : 0 <= (end_time - start_time) / step)
    by (apply Z.div_pos; lia).
  assert (Hkq : Z.of_nat k <= (end_time - start_time) / step) by lia.
  assert (Hmul : Z.of_nat k * step <= end_time - start_time).
  { etransitivity; [apply Z.mul_le_mono_nonneg_r; [lia | exact Hkq]|].
    rewrite Z.mul_comm. apply Z.mul_div_le. assumption. }
  split; [nia|]. exists (Z.of_nat k). split; [lia | reflexivity].
Qed.

Lemma date_range_start (start_time end_time : Timestamp) (minutes : positive) :
  start_time <= end_time ->
  In start_time (date_range start_time end_time minutes).
Proof.
  intros H. unfold date_range.
  destruct (Z.ltb_spec end_time start_time) as [Hlt|Hle]; [lia|].
  apply in_map_iff. exists 0%nat. split; [simpl; lia|].
  apply in_seq. lia.
Qed.

Lemma grid_points_sorted (start_time step : Z) (n : nat) :
  0 < step ->
  forall a,
    StronglySorted Z.lt
      (map (fun k => start_time + Z.of_nat k * step) (seq a n)).
Proof.
  intros Hstep. induction n as [|n IH]; intros a; simpl; constructor.
  - apply IH.
  - apply Forall_forall. intros t Ht.
    apply in_map_iff in Ht as (k & <- & Hk). apply in_seq in Hk. nia.
Qed.

Lemma date_range_sorted (start_time end_time : Timestamp) (minutes : positive) :
  StronglySorted Z.lt (date_range start_time end_time minutes).
Proof.
  unfold date_range. destruct (end_time <? start_time); [constructor|].
  apply grid_points_sorted. lia.
Qed.

(** A table with one block of rows per grid timestamp, in grid order,
    is ordered by timestamp. *)
Lemma list_prod_fst_sorted {B : Type} (grid : list Z) (l : list B) :
  StronglySorted Z.lt grid ->
  StronglySorted Z.le (map fst (list_prod grid l)).
Proof.
  induction 1 as [|t grid Hsorted IH Hall]; simpl; [constructor|].
  rewrite map_app, map_map. simpl.
  assert (Hrest : Forall (Z.le t) (map fst (list_prod grid l))).
  { apply Forall_forall. intros u Hu. apply in_map_iff in Hu as ([u' b] & <- & Hu).
    apply in_prod_iff in Hu as [Hu _]. simpl.
    rewrite Forall_forall in Hall. specialize (Hall u' Hu). lia. }
  generalize l at 1 as block.
  induction block as [|b block IHb]; simpl; [exact IH|].
  constructor; [exact IHb|].
  apply Forall_app. split; [|exact Hrest].
  apply Forall_forall. intros u Hu. apply in_map_iff in Hu as (b' & <- & _). lia.
Qed.

Section Tables.

Context {np : NumPy}.
Variable G : DiGraph.

(** *** Rows and the nodes they come from *)

Lemma generate_sensor_data_rows_of_sensors
      (start_time end_time : Timestamp) (minutes : positive) (g : rng_state)
      (df : DataFrame SensorReading) :
  returns (generate_sensor_data G start_time end_time minutes) g df ->
  Forall (row_of_sensor G) (map snd df).
Proof.
  intros H. apply returns_run in H as (g' & H). unfold generate_sensor_data in H.
  apply bind_Ok in H as (locals & g1 & H1 & H).
  apply ret_Ok in H as [-> _]. rewrite mk_DataFrame_rows.
  revert H1.
  apply (for_invariant _ (fun st => Forall (row_of_sensor G) (data st))); [|constructor].
  intros ts st0 g0 st0' g0' Hst0.
  apply (for_invariant_In _ (fun st => Forall (row_of_sensor G) (data st)));
    [|assumption].
  intros sid st2 g2 st2' g2' Hsid Hst2 Hstep.
  apply sensor_step_Ok in Hstep as (row & Hd & Hts & Hid & Hty & Hat & Hv).
  rewrite Hd. apply Forall_app. split; [assumption|].
  constructor; [|constructor].
  unfold row_of_sensor. rewrite Hid. repeat split; try assumption.
  exists (base_pressure st2), g2, (base_pressure st2'), g2'. now rewrite Hts.
Qed.

(** X5. Every row of a table [generate_sensor_data] returns refers to
    the network: its sensor_id is a Sensor node, and its sensor_type
    and attached_to columns are that node's sensor_type and attached_to
    attributes. *)
Theorem sensor_rows_refer_to_sensor_nodes
        (start_time end_time : Timestamp) (minutes : positive) (g : rng_state)
        (df : DataFrame SensorReading) :
  returns (generate_sensor_data G start_time end_time minutes) g df ->
  Forall (fun r =>
            In (sensor_id (snd r)) (nodes_of_type G "Sensor")
            /\ node_attr G (sensor_id (snd r)) "sensor_type" a_sensor_type
               = Ok (sensor_type (snd r))
            /\ node_attr G (sensor_id (snd r)) "attached_to" a_attached_to
               = Ok (attached_to (snd r))) df.
Proof.
  intros H. apply generate_sensor_data_rows_of_sensors in H.
  rewrite Forall_map in H. revert H. apply Forall_impl.
  intros [name row] (Hin & Hty & Hat & _). simpl. now repeat split.
Qed.

(** *** Timestamps *)

Lemma sensor_timestamps (start_time end_time : Timestamp) (minutes : positive)
      (g : rng_state) (df : DataFrame SensorReading) :
  returns (generate_sensor_data G start_time end_time minutes) g df ->
  map (fun r => timestamp (snd r)) df
  = map fst (list_prod (date_range start_time end_time minutes)
                       (nodes_of_type G "Sensor")).
Proof.
  intros H. apply returns_run in H as (g' & H). unfold generate_sensor_data in H.
  apply bind_Ok in H as (locals & g1 & H1 & H). apply ret_Ok in H as [-> _].
  apply sensor_outer_keys in H1. simpl in H1. rewrite <- H1, map_map.
  rewrite <- (mk_DataFrame_rows (data locals)) at 2. now rewrite map_map.
Qed.

Lemma consumption_timestamps (start_time end_time : Timestamp)
      (minutes : positive) (g : rng_state) (cf : DataFrame ConsumptionReading) :
  returns (generate_consumption_data G start_time end_time minutes) g cf ->
  map (fun r => c_timestamp (snd r)) cf
  = map fst (list_prod (date_range start_time end_time minutes)
                       (nodes_of_type G "ConsumptionZone")).
Proof.
  intros H. apply returns_run in H as (g' & H).
  unfold generate_consumption_data in H.
  apply bind_Ok in H as (data & g1 & H1 & H). apply ret_Ok in H as [-> _].
  apply consumption_outer_keys in H1. simpl in H1. rewrite <- H1, map_map.
  rewrite <- (mk_DataFrame_rows data) at 2. now rewrite map_map.
Qed.

Lemma prod_timestamps_on_grid {B : Type} (start_time end_time : Timestamp)
      (minutes : positive) (l : list B) :
  Forall (on_grid start_time end_time minutes)
         (map fst (list_prod (date_range start_time end_time minutes) l)).
Proof.
  apply Forall_forall. intros t Ht. apply in_map_iff in Ht as ([t' b] & <- & Ht).
  apply in_prod_iff in Ht as [Ht _]. now apply date_range_on_grid.
Qed.

(** X6. In the tables both generators return, every timestamp lies in
    [start, end] at a whole number of sampling intervals after start,
    and the rows are ordered by timestamp. *)
Theorem generated_timestamps_on_grid_and_ordered
        (start_time end_time : Timestamp) (minutes : positive) (g : rng_state) :
  (forall df,
      returns (generate_sensor_data G start_time end_time minutes) g df ->
      Forall (on_grid start_time end_time minutes)
             (map (fun r => timestamp (snd r)) df)
      /\ StronglySorted Z.le (map (fun r => timestamp (snd r)) df))
  /\ (forall cf,
         returns (generate_consumption_data G start_time end_time minutes) g cf ->
         Forall (on_grid start_time end_time minutes)
                (map (fun r => c_timestamp (snd r)) cf)
         /\ StronglySorted Z.le (map (fun r => c_timestamp (snd r)) cf)).
Proof.
  split.
  - intros df H. rewrite (sensor_timestamps _ _ _ _ _ H). split.
    + apply prod_timestamps_on_grid.
    + apply list_prod_fst_sorted, date_range_sorted.
  - intros cf H. rewrite (consumption_timestamps _ _ _ _ _ H). split.
    + apply prod_timestamps_on_grid.
    + apply list_prod_fst_sorted, date_range_sorted.
Qed.

End Tables.

End SeriesInvariants.

(* ================================================================= *)
(** ** When the generators return and what they raise *)

Module SeriesErrors.

Import Py Pandas Nx Np DataGenerator Spec Schema.
Import PandasFacts GeneratorFacts RunFacts SeriesFacts SeriesInvariants.

Lemma assoc_In {A : Type} (k : string) (l : list (string * A)) :
  In k (map fst l) -> exists a, assoc k l = Some a.
Proof.
  induction l as [|[k' a] l IH]; simpl; [contradiction|].
  intros [E|H].
  - subst k'. rewrite String.eqb_refl. now exists a.
  - destruct (String.eqb k k'); [now exists a | now apply IH].
Qed.

Lemma nodes_of_type_In (G : DiGraph) (ty n : string) :
  In n (nodes_of_type G ty) -> In n (map fst (node G)).
Proof.
  unfold nodes_of_type. intros H. apply in_map_iff in H as (na & <- & H).
  apply filter_In in H as [H _]. now apply in_map.
Qed.

Lemma attr_present_Ok {A : Type} (G : DiGraph) (n key : string)
      (field : NodeAttrs -> option A) :
  attr_present G n field = true <-> exists a, node_attr G n key field = Ok a.
Proof.
  unfold attr_present, node_attr, nodes_getitem, getitem.
  destruct (assoc n (node G)) as [attrs|]; simpl.
  - destruct (field attrs) as [a|]; split; intros H; try discriminate.
    + now exists a.
    + reflexivity.
    + destruct H as (a & H). discriminate.
  - split; [discriminate | intros (a & H); discriminate].
Qed.

Lemma type_of_Ok (G : DiGraph) (n ty : string) :
  type_of G n = Some ty <-> node_attr G n "type" a_type = Ok ty.
Proof.
  unfold type_of, node_attr, nodes_getitem, getitem.
  destruct (assoc n (node G)) as [attrs|]; simpl.
  - destruct (a_type attrs) as [t|]; split; intros H; try discriminate;
      injection H as ->; reflexivity.
  - split; discriminate.
Qed.

Lemma node_attr_of_assoc {A : Type} (G : DiGraph) (n key : string)
      (field : NodeAttrs -> option A) (attrs : NodeAttrs) (a : A) :
  assoc n (node G) = Some attrs -> field attrs = Some a ->
  node_attr G n key field = Ok a.
Proof.
  intros Hn Ha. unfold node_attr, nodes_getitem, getitem.
  rewrite Hn. simpl. now rewrite Ha.
Qed.

(** Converting a value raises nothing but [OverflowError], for an int
    too large, and [TypeError], for a string. *)
Lemma to_float_Raise (a : scalar) (e : exn) :
  to_float a = Raise e -> arithmetic_error e.
Proof.
  destruct a as [n|x|t]; simpl; [|discriminate|].
  - unfold int_to_float.
    destruct (PrimFloat.is_infinity _); [|discriminate].
    intros H. injection H as <-. now left.
  - intros H. injection H as <-. now right.
Qed.

Lemma convertible_Ok (a : scalar) :
  convertible a = true <-> exists x, to_float a = Ok x.
Proof.
  unfold convertible. destruct (to_float a) as [x|e]; split.
  - intros _. now exists x.
  - reflexivity.
  - discriminate.
  - intros (x & H). discriminate.
Qed.

Lemma times_float_Ok (a : scalar) (f product : float) :
  times_float a f = Ok product ->
  exists x, to_float a = Ok x /\ product = (x * f)%float.
Proof.
  unfold times_float. intros H. apply obind_Ok in H as (x & Hx & H).
  injection H as <-. now exists x.
Qed.

Lemma times_float_Raise (a : scalar) (f : float) (e : exn) :
  times_float a f = Raise e -> arithmetic_error e.
Proof.
  unfold times_float. intros H.
  apply obind_Raise in H as [H | (x & _ & H)]; [|discriminate].
  now apply to_float_Raise in H.
Qed.

Lemma add_Raise (a b : scalar) (e : exn) :
  add a b = Raise e -> arithmetic_error e.
Proof.
  assert (F : forall a b : scalar,
             obind (to_float a)
                   (fun x => obind (to_float b)
                                   (fun y => Ok (PyFloat (x + y)%float)))
             = Raise e -> arithmetic_error e).
  { intros a' b' H.
    apply obind_Raise in H as [H | (x & _ & H)];
      [now apply to_float_Raise in H|].
    apply obind_Raise in H as [H | (y & _ & H)];
      [now apply to_float_Raise in H | discriminate]. }
  destruct a as [m|x|s], b as [n|y|t]; intros H; try discriminate H;
    try (injection H as <-; now right).
  - exact (F (PyInt m) (PyFloat y) H).
  - exact (F (PyFloat x) (PyInt n) H).
Qed.

Lemma gt_zero_Raise (a : scalar) (e : exn) :
  gt_zero a = Raise e -> arithmetic_error e.
Proof.
  destruct a as [n|x|t]; simpl; intros H; try discriminate H.
  injection H as <-. now right.
Qed.

Lemma arithmetic_consumption_error (e : exn) :
  arithmetic_error e -> consumption_error e.
Proof. unfold consumption_error. intros [-> | ->]; tauto. Qed.

Lemma arithmetic_sensor_error (e : exn) :
  arithmetic_error e -> sensor_error e.
Proof. unfold sensor_error. intros [-> | ->]; tauto. Qed.

Lemma node_attr_Raise {A : Type} (G : DiGraph) (n key : string)
      (field : NodeAttrs -> option A) (e : exn) :
  node_attr G n key field = Raise e ->
  (assoc n (node G) = None /\ e = KeyError n) \/ e = KeyError key.
Proof.
  unfold node_attr, nodes_getitem, getitem.
  destruct (assoc n (node G)) as [attrs|]; simpl.
  - destruct (field attrs); intros H; [discriminate|]. injection H as <-. now right.
  - intros H. injection H as <-. now left.
Qed.

Section Errors.

Context {np : NumPy}.
Variable G : DiGraph.

(** *** The consumption generator *)

Lemma consumption_step_total (ts : Timestamp) (zone : string)
      (data : list ConsumptionReading) (g : rng_state) :
  zone_ready G zone = true ->
  exists data' g', consumption_step G ts zone data g = (Ok data', g').
Proof.
  unfold zone_ready. intros H.
  destruct (assoc zone (node G)) as [attrs|] eqn:Hz; [|discriminate].
  destruct (a_base_demand attrs) as [b|] eqn:Hb; [|discriminate].
  destruct (a_demand_profile attrs) as [p|] eqn:Hp; [|discriminate].
  apply convertible_Ok in H as (x & Hx).
  unfold consumption_step, bind, lift.
  rewrite (node_attr_of_assoc G zone "base_demand" a_base_demand attrs b Hz Hb).
  rewrite (node_attr_of_assoc G zone "demand_profile" a_demand_profile
                              attrs p Hz Hp).
  unfold times_float. rewrite Hx. simpl. unfold normal, ret.
  now eexists _, _.
Qed.

Lemma consumption_step_Raise (ts : Timestamp) (zone : string)
      (data : list ConsumptionReading) (g g' : rng_state) (e : exn) :
  In zone (map fst (node G)) ->
  consumption_step G ts zone data g = (Raise e, g') ->
  consumption_error e.
Proof.
  intros Hin H. apply assoc_In in Hin as (attrs & Hin).
  unfold consumption_step in H.
  apply bind_Raise in H as [H | (b & g1 & _ & H)].
  { apply lift_Raise in H as [H _].
    apply node_attr_Raise in H as [[Hnone _] | ->]; [congruence | now left]. }
  apply bind_Raise in H as [H | (p & g2 & _ & H)].
  { apply lift_Raise in H as [H _].
    apply node_attr_Raise in H as [[Hnone _] | ->];
      [congruence | right; now left]. }
  apply bind_Raise in H as [H | (product & g3 & _ & H)].
  { apply lift_Raise in H as [H _]. apply times_float_Raise in H.
    now apply arithmetic_consumption_error. }
  apply bind_Raise in H as [H | (n & g4 & _ & H)]; discriminate.
Qed.

Lemma consumption_keys (start_time end_time : Timestamp) (minutes : positive)
      (g : rng_state) (cf : DataFrame ConsumptionReading) :
  returns (generate_consumption_data G start_time end_time minutes) g cf ->
  map reading_key (map snd cf)
  = list_prod (date_range start_time end_time minutes)
              (nodes_of_type G "ConsumptionZone").
Proof.
  intros H. apply returns_run in H as (g' & H).
  unfold generate_consumption_data in H.
  apply bind_Ok in H as (data & g1 & H1 & H). apply ret_Ok in H as [-> _].
  apply consumption_outer_keys in H1. simpl in H1.
  now rewrite mk_DataFrame_rows.
Qed.

Lemma generate_consumption_data_total (start_time end_time : Timestamp)
      (minutes : positive) (g : rng_state) :
  zones_ready G = true ->
  exists data g',
    for_ (date_range start_time end_time minutes)
         (fun ts => for_ (nodes_of_type G "ConsumptionZone")
                         (consumption_step G ts))
         [] g
    = (Ok data, g').
Proof.
  intros Hready. unfold zones_ready in Hready.
  rewrite forallb_forall in Hready.
  apply for_total. intros ts _. apply for_total. intros zone Hz data0 g0.
  apply consumption_step_total. now apply Hready.
Qed.

(** X7. For base_demand attributes that hold an int, a float or a
    string, a positive sampling interval and a non-empty range
    (start <= end), [generate_consumption_data] returns a table exactly
    when every ConsumptionZone node of the network has a demand_profile
    and a base_demand that is a float or an int that converts to a
    float (an int too large raises OverflowError, a string
    TypeError). *)
Theorem consumption_returns_iff_zones_ready
        (start_time end_time : Timestamp) (minutes : positive) (g : rng_state) :
  start_time <= end_time ->
  (exists cf,
      returns (generate_consumption_data G start_time end_time minutes) g cf)
  <-> zones_ready G = true.
Proof.
  intros Hrange. split.
  - intros (cf & H). unfold zones_ready. apply forallb_forall. intros zone Hz.
    pose proof (consumption_keys _ _ _ _ _ H) as Hkeys.
    apply generate_consumption_data_rows in H. rewrite Forall_forall in H.
    assert (Hkey : In (start_time, zone) (map reading_key (map snd cf))).
    { rewrite Hkeys. apply in_prod; [now apply date_range_start | assumption]. }
    apply in_map_iff in Hkey as (row & Hk & Hrow).
    specialize (H row Hrow) as (b & p & g0 & Hb & Hp & product & Hprod & _).
    unfold reading_key in Hk. injection Hk as _ Hzone. rewrite Hzone in Hb, Hp.
    apply node_attr_Ok in Hb as (attrs & Hn & Hb).
    apply node_attr_Ok in Hp as (attrs' & Hn' & Hp).
    rewrite Hn in Hn'. injection Hn' as <-.
    unfold zone_ready. rewrite Hn, Hb, Hp.
    apply times_float_Ok in Hprod as (x & Hx & _).
    apply convertible_Ok. now exists x.
  - intros Hready.
    destruct (generate_consumption_data_total start_time end_time minutes g
                                              Hready) as (data & g' & Hrun).
    exists (mk_DataFrame data). unfold returns, generate_consumption_data, bind.
    now rewrite Hrun.
Qed.

(** X8. For base_demand attributes that hold an int, a float or a
    string, and a positive sampling interval, the only exceptions
    [generate_consumption_data] raises are KeyError('base_demand'),
    KeyError('demand_profile'), the OverflowError of an int base_demand
    too large for a float and the TypeError of a string base_demand. *)
Theorem consumption_raises_only_attribute_errors
        (start_time end_time : Timestamp) (minutes : positive) (g : rng_state)
        (e : exn) :
  fst (generate_consumption_data G start_time end_time minutes g) = Raise e ->
  consumption_error e.
Proof.
  destruct (generate_consumption_data G start_time end_time minutes g)
    as [o g'] eqn:H. simpl. intros ->.
  unfold generate_consumption_data in H.
  apply bind_Raise in H as [H | (data & g1 & _ & H)]; [|discriminate].
  apply for_Raise in H as (ts & data0 & g0 & _ & H).
  apply for_Raise in H as (zone & data1 & g2 & Hz & H).
  apply consumption_step_Raise in H; [assumption|].
  now apply nodes_of_type_In with "ConsumptionZone".
Qed.

(** *** The sensor generator *)

(** On successors that can be read, the loop of lines 34-36 is the sum
    of the demands of the ConsumptionZone nodes among them, whether it
    returns or overflows. *)
Lemma downstream_sum (neighbors : list string) :
  forallb (neighbor_ready G) neighbors = true ->
  forall acc,
    downstream G neighbors acc
    = sum_from acc (map (demand_of G)
                        (filter (is_consumption_zone G) neighbors)).
Proof.
  induction neighbors as [|n neighbors IH]; simpl; intros H acc; [reflexivity|].
  apply andb_true_iff in H as [Hn Hrest]. unfold neighbor_ready in Hn.
  destruct (type_of G n) as [ty|] eqn:Hty; [|discriminate].
  pose proof Hty as Hty'. apply type_of_Ok in Hty'. rewrite Hty'. simpl.
  unfold is_consumption_zone at 1. unfold type_of in Hty.
  destruct (assoc n (node G)) as [attrs|] eqn:Hassoc; [|discriminate].
  rewrite Hty.
  destruct (ty == "ConsumptionZone").
  - apply (attr_present_Ok G n "base_demand") in Hn as (d & Hd).
    rewrite Hd. simpl. unfold demand_of at 1. rewrite Hassoc.
    apply node_attr_Ok in Hd as (attrs' & Hassoc' & Hd).
    rewrite Hassoc in Hassoc'. injection Hassoc' as <-. rewrite Hd. simpl.
    destruct (add acc d) as [acc'|e]; simpl; [now apply IH | reflexivity].
  - now apply IH.
Qed.

Lemma type_of_has_node (n ty : string) :
  type_of G n = Some ty -> has_node G n = true.
Proof.
  unfold type_of, has_node. now destruct (assoc n (node G)).
Qed.

Lemma base_flow_total (attached : string) :
  flow_ready G attached = true ->
  exists base x, base_flow G attached = Ok base /\ to_float base = Ok x.
Proof.
  unfold flow_ready, base_flow. intros H.
  destruct (assoc attached (node G)) as [attrs|] eqn:Hn; [|discriminate].
  destruct (a_type attrs) as [ty|] eqn:Hty; [|discriminate].
  rewrite (node_attr_of_assoc G attached "type" a_type attrs ty Hn Hty). simpl.
  destruct (ty == "ConsumptionZone").
  - destruct (a_base_demand attrs) as [b|] eqn:Hb; [|discriminate].
    apply convertible_Ok in H as (x & Hx). exists b, x. split; [|assumption].
    now apply node_attr_of_assoc with attrs.
  - destruct (ty == "Junction").
    + apply andb_true_iff in H as [Hready H].
      unfold successors, has_node. rewrite Hn. simpl.
      fold (successor_list G attached).
      rewrite (downstream_sum _ Hready).
      change (sum_from (PyInt 0)
                (map (demand_of G)
                     (filter (is_consumption_zone G)
                             (successor_list G attached))))
        with (demand_sum G (successor_zones G attached)).
      destruct (demand_sum G (successor_zones G attached)) as [d|e];
        [|discriminate].
      destruct (gt_zero d) as [positive|e] eqn:Hpos; [|discriminate].
      apply convertible_Ok in H as (x & Hx). simpl. rewrite Hpos. simpl.
      eexists _, x. split; [reflexivity | exact Hx].
    + apply convertible_Ok in H as (x & Hx).
      unfold nodes_getitem, getitem. rewrite Hn. simpl.
      eexists _, x. split; [reflexivity | exact Hx].
Qed.

Lemma pattern_factor_total (h : Z) (g : rng_state) :
  exists f g', pattern_factor h g = (Ok f, g').
Proof.
  unfold pattern_factor, bind, normal, ret.
  repeat match goal with
         | |- context [if ?b then _ else _] => destruct b
         end; now eexists _, _.
Qed.

Lemma pressure_base_handled (ty : string) (bp : option float) :
  pressure_handled ty = true -> exists b, pressure_base ty bp = Some b.
Proof.
  unfold pressure_handled, pressure_base. intros H.
  destruct (ty == "ConsumptionZone"); [now eexists|].
  destruct (ty == "Junction"); [now eexists|].
  destruct (ty == "PumpStation"); [now eexists|].
  destruct (ty == "Reservoir"); [now eexists | discriminate].
Qed.

Lemma sensor_value_total (ts : Timestamp) (st attached : string)
      (bp : option float) (g : rng_state) :
  (if st == "Flow" then flow_ready G attached
   else if st == "Pressure" then pressure_ready G attached
   else if st == "Level" then level_ready G attached
   else true) = true ->
  exists vb g', sensor_value G ts st attached bp g = (Ok vb, g').
Proof.
  unfold sensor_value. intros H.
  destruct (st == "Flow").
  { destruct (base_flow_total attached H) as (base & x & Hbase & Hx).
    destruct (pattern_factor_total (hour ts) g) as (f & g1 & Hf).
    unfold bind, lift. rewrite Hbase, Hf. unfold times_float. rewrite Hx.
    simpl. unfold normal, ret. now eexists _, _. }
  destruct (st == "Pressure").
  { unfold pressure_ready in H.
    destruct (type_of G attached) as [ty|] eqn:Hty; [|discriminate].
    apply type_of_Ok in Hty.
    destruct (pressure_base_handled ty bp H) as (b & Hb).
    unfold bind, lift. rewrite Hty, Hb. unfold load_base_pressure, normal, ret.
    now eexists _, _. }
  destruct (st == "Level"); [|unfold ret; now eexists _, _].
  unfold level_ready in H.
  destruct (attached == "R1"); [|unfold ret; now eexists _, _].
  apply andb_true_iff in H as [Hl Hc].
  apply (attr_present_Ok G "R1" "current_level") in Hl as (lvl & Hl).
  apply (attr_present_Ok G "R1" "capacity") in Hc as (cap & Hc).
  unfold bind, lift. rewrite Hl. unfold normal. rewrite Hc. unfold ret.
  now eexists _, _.
Qed.

Lemma sensor_step_total (ts : Timestamp) (sid : string) (locals : SensorLocals)
      (g : rng_state) :
  sensor_ready G sid = true ->
  exists locals' g', sensor_step G ts sid locals g = (Ok locals', g').
Proof.
  unfold sensor_ready. intros H.
  destruct (assoc sid (node G)) as [attrs|] eqn:Hsid; [|discriminate].
  destruct (a_sensor_type attrs) as [st|] eqn:Hst; [|discriminate].
  destruct (a_attached_to attrs) as [attached|] eqn:Hat; [|discriminate].
  assert (Est : node_attr G sid "sensor_type" a_sensor_type = Ok st).
  { unfold node_attr, nodes_getitem, getitem. rewrite Hsid. simpl. now rewrite Hst. }
  assert (Eat : node_attr G sid "attached_to" a_attached_to = Ok attached).
  { unfold node_attr, nodes_getitem, getitem. rewrite Hsid. simpl. now rewrite Hat. }
  destruct (sensor_value_total ts st attached (base_pressure locals) g H)
    as (vb & g' & Hv).
  unfold sensor_step, bind, lift. rewrite Est, Eat, Hv. unfold ret.
  now eexists _, _.
Qed.

Lemma generate_sensor_data_total (start_time end_time : Timestamp)
      (minutes : positive) (g : rng_state) :
  sensors_ready G = true ->
  exists locals g',
    for_ (date_range start_time end_time minutes)
         (fun ts => for_ (nodes_of_type G "Sensor") (sensor_step G ts))
         (mkSensorLocals [] None) g
    = (Ok locals, g').
Proof.
  intros Hready. unfold sensors_ready in Hready.
  rewrite forallb_forall in Hready.
  apply for_total. intros ts _. apply for_total. intros sid Hsid locals g0.
  apply sensor_step_total. now apply Hready.
Qed.

(** X9. On a network whose Sensor nodes are all readable (sensor_type
    and attached_to present; a Flow sensor's node typed, with the
    demands the branch reads, no string among them, and a base flow
    that converts to a float; a Pressure sensor on a ConsumptionZone,
    Junction, PumpStation or Reservoir; a Level sensor on R1 only with
    a current_level and a capacity, both binary64 values),
    [generate_sensor_data] returns, for every range, positive interval
    and random draws, the full table of (grid timestamps) x (Sensor
    nodes) rows. *)
Theorem sensors_ready_generation_returns
        (start_time end_time : Timestamp) (minutes : positive) (g : rng_state) :
  sensors_ready G = true ->
  exists df g',
    generate_sensor_data G start_time end_time minutes g = (Ok df, g')
    /\ List.length df
       = (List.length (date_range start_time end_time minutes)
          * List.length (nodes_of_type G "Sensor"))%nat.
Proof.
  intros Hready.
  destruct (generate_sensor_data_total start_time end_time minutes g Hready)
    as (locals & g' & Hrun).
  exists (mk_DataFrame (data locals)), g'. split.
  - unfold generate_sensor_data, bind. now rewrite Hrun.
  - apply sensor_outer_keys in Hrun. simpl in Hrun.
    rewrite mk_DataFrame_length, <- (length_map row_key), Hrun.
    apply length_prod.
Qed.

(** *** What the sensor generator raises *)

Lemma key_error_of_node_attr {A : Type} (n key : string)
      (field : NodeAttrs -> option A) (e : exn) :
  node_attr G n key field = Raise e -> exists k, e = KeyError k.
Proof.
  intros H. apply node_attr_Raise in H as [[_ ->] | ->]; now eexists.
Qed.

Lemma downstream_Raise (neighbors : list string) :
  forall acc e, downstream G neighbors acc = Raise e -> sensor_error e.
Proof.
  induction neighbors as [|n neighbors IH]; simpl; intros acc e H; [discriminate|].
  apply obind_Raise in H as [H | (ty & _ & H)];
    [left; now apply key_error_of_node_attr in H|].
  destruct (ty == "ConsumptionZone"); [|now apply IH in H].
  apply obind_Raise in H as [H | (d & _ & H)];
    [left; now apply key_error_of_node_attr in H|].
  apply obind_Raise in H as [H | (acc' & _ & H)];
    [apply add_Raise in H; now apply arithmetic_sensor_error | now apply IH in H].
Qed.

Lemma base_flow_Raise (attached : string) (e : exn) :
  base_flow G attached = Raise e -> sensor_error e.
Proof.
  unfold base_flow. intros H.
  apply obind_Raise in H as [H | (ty & Hty & H)];
    [left; now apply key_error_of_node_attr in H|].
  destruct (ty == "ConsumptionZone");
    [left; now apply key_error_of_node_attr in H|].
  apply type_of_Ok in Hty. apply type_of_has_node in Hty.
  destruct (ty == "Junction").
  - unfold successors in H. rewrite Hty in H. simpl in H.
    apply obind_Raise in H as [H | (d & _ & H)];
      [now apply downstream_Raise in H|].
    apply obind_Raise in H as [H | (positive & _ & H)]; [|discriminate].
    apply gt_zero_Raise in H. now apply arithmetic_sensor_error.
  - unfold nodes_getitem, getitem, has_node in *.
    destruct (assoc attached (node G)); simpl in H; discriminate.
Qed.

Lemma sensor_value_Raise (ts : Timestamp) (st attached : string)
      (bp : option float) (g g' : rng_state) (e : exn) :
  sensor_value G ts st attached bp g = (Raise e, g') -> sensor_error e.
Proof.
  unfold sensor_value. intros H.
  destruct (st == "Flow").
  { apply bind_Raise in H as [H | (base & g1 & _ & H)].
    - apply lift_Raise in H as [H _]. now apply base_flow_Raise in H.
    - apply bind_Raise in H as [H | (f & g2 & _ & H)].
      + destruct (pattern_factor_total (hour ts) g1) as (f & g2 & Hf).
        rewrite Hf in H. discriminate.
      + apply bind_Raise in H as [H | (product & g3 & _ & H)].
        * apply lift_Raise in H as [H _]. apply times_float_Raise in H.
          now apply arithmetic_sensor_error.
        * apply bind_Raise in H as [H | (n & g4 & _ & H)]; discriminate. }
  destruct (st == "Pressure").
  { apply bind_Raise in H as [H | (ty & g1 & _ & H)].
    - apply lift_Raise in H as [H _]. left. now apply key_error_of_node_attr in H.
    - apply bind_Raise in H as [H | (b & g2 & _ & H)].
      + apply lift_Raise in H as [H _]. right; left.
        unfold load_base_pressure in H.
        destruct (pressure_base ty bp); [discriminate|]. now injection H as <-.
      + apply bind_Raise in H as [H | (n & g3 & _ & H)]; discriminate. }
  destruct (st == "Level"); [|discriminate].
  destruct (attached == "R1"); [|discriminate].
  apply bind_Raise in H as [H | (lvl & g1 & _ & H)].
  - apply lift_Raise in H as [H _]. left. now apply key_error_of_node_attr in H.
  - apply bind_Raise in H as [H | (n & g2 & _ & H)]; [discriminate|].
    apply bind_Raise in H as [H | (cap & g3 & _ & H)]; [|discriminate].
    apply lift_Raise in H as [H _]. left. now apply key_error_of_node_attr in H.
Qed.

Lemma sensor_step_Raise (ts : Timestamp) (sid : string) (locals : SensorLocals)
      (g g' : rng_state) (e : exn) :
  sensor_step G ts sid locals g = (Raise e, g') -> sensor_error e.
Proof.
  unfold sensor_step. intros H.
  apply bind_Raise in H as [H | (st & g1 & _ & H)].
  { apply lift_Raise in H as [H _]. left. now apply key_error_of_node_attr in H. }
  apply bind_Raise in H as [H | (attached & g2 & _ & H)].
  { apply lift_Raise in H as [H _]. left. now apply key_error_of_node_attr in H. }
  apply bind_Raise in H as [H | (vb & g3 & _ & H)]; [|discriminate].
  now apply sensor_value_Raise in H.
Qed.

(** X10. For base_demand and pump_rate attributes that hold an int, a
    float or a string, capacity and current_level attributes that are
    binary64 values, and a positive sampling interval, the only
    exceptions [generate_sensor_data] raises are KeyError,
    UnboundLocalError('base_pressure'), the OverflowError of an int too
    large for a float and the TypeError of a string among the demands
    or as pump rate; it never raises the NetworkXError of [successors],
    which it calls only on a node whose type it has just read. *)
Theorem sensor_generation_raises_only_listed_errors
        (start_time end_time : Timestamp) (minutes : positive) (g : rng_state)
        (e : exn) :
  fst (generate_sensor_data G start_time end_time minutes g) = Raise e ->
  sensor_error e.
Proof.
  destruct (generate_sensor_data G start_time end_time minutes g)
    as [o g'] eqn:H. simpl. intros ->.
  unfold generate_sensor_data in H.
  apply bind_Raise in H as [H | (locals & g1 & _ & H)]; [|discriminate].
  apply for_Raise in H as (ts & st0 & g0 & _ & H).
  apply for_Raise in H as (sid & st1 & g2 & _ & H).
  now apply sensor_step_Raise in H.
Qed.

(** *** What a returned sensor table tells about the network *)

Lemma sensor_keys (start_time end_time : Timestamp) (minutes : positive)
      (g : rng_state) (df : DataFrame SensorReading) :
  returns (generate_sensor_data G start_time end_time minutes) g df ->
  map row_key (map snd df)
  = list_prod (date_range start_time end_time minutes)
              (nodes_of_type G "Sensor").
Proof.
  intros H. apply returns_run in H as (g' & H). unfold generate_sensor_data in H.
  apply bind_Ok in H as (locals & g1 & H1 & H). apply ret_Ok in H as [-> _].
  apply sensor_outer_keys in H1. simpl in H1.
  now rewrite mk_DataFrame_rows.
Qed.

(** X11. If [generate_sensor_data] returns a table over a non-empty
    range (start <= end), then every Sensor node has a sensor_type and
    an attached_to attribute, the node a Flow or Pressure sensor is
    attached to exists and has a type, and a Level sensor attached to
    R1 finds current_level and capacity on R1: a network that breaks
    one of these makes the call raise instead. *)
Theorem returned_sensor_table_needs_schema
        (start_time end_time : Timestamp) (minutes : positive) (g : rng_state)
        (df : DataFrame SensorReading) :
  start_time <= end_time ->
  returns (generate_sensor_data G start_time end_time minutes) g df ->
  Forall (fun sid =>
            exists st attached,
              node_attr G sid "sensor_type" a_sensor_type = Ok st
              /\ node_attr G sid "attached_to" a_attached_to = Ok attached
              /\ (st = "Flow" \/ st = "Pressure" ->
                  exists ty, type_of G attached = Some ty)
              /\ (st = "Level" -> level_ready G attached = true))
         (nodes_of_type G "Sensor").
Proof.
  intros Hrange H. apply Forall_forall. intros sid Hsid.
  pose proof (sensor_keys _ _ _ _ _ H) as Hkeys.
  apply generate_sensor_data_rows_of_sensors in H. rewrite Forall_forall in H.
  assert (Hkey : In (start_time, sid) (map row_key (map snd df))).
  { rewrite Hkeys. apply in_prod; [now apply date_range_start | assumption]. }
  apply in_map_iff in Hkey as (row & Hk & Hrow).
  specialize (H row Hrow) as (_ & Hst & Hat & bp & g0 & bp' & g0' & Hv).
  unfold row_key in Hk. injection Hk as _ Hid. rewrite Hid in Hst, Hat.
  exists (sensor_type row), (attached_to row).
  split; [assumption|]. split; [assumption|].
  apply sensor_value_Ok in Hv
    as [(Es & _ & base & factor & product & noise & Hbase & _)
       |[(Es & ty & base & noise & Hty & _)
        |[(Es & Er & _ & lvl & cap & noise & Hl & Hc & _)
         |[(Es & Er & _)
          |(NF & NP & NL & _)]]]].
  - split; [|rewrite Es; discriminate]. intros _.
    apply base_flow_Ok in Hbase as (ty & Hty & _). exists ty.
    now apply type_of_Ok.
  - split; [|rewrite Es; discriminate]. intros _. exists ty.
    now apply type_of_Ok.
  - split; [rewrite Es; intros [E|E]; discriminate|]. intros _.
    unfold level_ready. rewrite Er. simpl. apply andb_true_iff. split.
    + apply (attr_present_Ok G "R1" "current_level"). now exists lvl.
    + apply (attr_present_Ok G "R1" "capacity"). now exists cap.
  - split; [rewrite Es; intros [E|E]; discriminate|]. intros _.
    unfold level_ready. apply String.eqb_neq in Er. now rewrite Er.
  - split; [intros [E|E]; contradiction | intros E; contradiction].
Qed.

(** *** Flow and Pressure values *)

Lemma pattern_factor_eval (h : Z) :
  0 <= h < 24 ->
  exists centre sigma,
    bucket_of flow_pattern_table h = Some (centre, sigma)
    /\ forall g,
        pattern_factor h g
        = (Ok (centre + fst (random_normal 0 sigma g))%float,
           snd (random_normal 0 sigma g)).
Proof.
  intros Hh.
  assert (Hcases : h = 0 \/ h = 1 \/ h = 2 \/ h = 3 \/ h = 4 \/ h = 5 \/ h = 6
                   \/ h = 7 \/ h = 8 \/ h = 9 \/ h = 10 \/ h = 11 \/ h = 12
                   \/ h = 13 \/ h = 14 \/ h = 15 \/ h = 16 \/ h = 17 \/ h = 18
                   \/ h = 19 \/ h = 20 \/ h = 21 \/ h = 22 \/ h = 23) by lia.
  repeat (destruct Hcases as [-> | Hcases];
          [eexists _, _; split; [reflexivity | intros g; reflexivity]|]).
  subst. eexists _, _. split; [reflexivity | intros g; reflexivity].
Qed.

Lemma pressure_base_table (ty : string) (bp : option float) :
  pressure_handled ty = true -> pressure_base ty bp = assoc ty pressure_table.
Proof.
  unfold pressure_handled, pressure_base, pressure_table. simpl.
  destruct (ty == "ConsumptionZone"); [reflexivity|].
  destruct (ty == "Junction"); [reflexivity|].
  destruct (ty == "PumpStation"); [reflexivity|].
  destruct (ty == "Reservoir"); [reflexivity | discriminate].
Qed.

(** X12. In every table [generate_sensor_data] returns, a Flow row has
    the value max(0, base_flow x (centre + n1) + n2), the base flow
    being converted to a float for the product, where centre and
    the standard deviation of n1 are those of the row's hour bucket
    (0.6/0.05 for 0-6h, 1.2/0.1 for 6-10h, 0.9/0.08 for 10-17h,
    1.3/0.1 for 17-22h, 0.7/0.05 for 22-24h), n2 is a normal draw of
    standard deviation 5 taken right after n1, and the base flow of a
    sensor on a ConsumptionZone is that zone's base_demand. *)
Theorem flow_rows_follow_diurnal_pattern
        (start_time end_time : Timestamp) (minutes : positive) (g : rng_state)
        (df : DataFrame SensorReading) :
  returns (generate_sensor_data G start_time end_time minutes) g df ->
  Forall (fun r =>
            sensor_type (snd r) = "Flow" ->
            exists base centre sigma g0 product,
              base_flow G (attached_to (snd r)) = Ok base
              /\ (node_attr G (attached_to (snd r)) "type" a_type
                  = Ok "ConsumptionZone" ->
                  node_attr G (attached_to (snd r)) "base_demand" a_base_demand
                  = Ok base)
              /\ bucket_of flow_pattern_table (hour (timestamp (snd r)))
                 = Some (centre, sigma)
              /\ times_float base (centre + fst (random_normal 0 sigma g0))
                 = Ok product
              /\ value (snd r)
                 = max 0 (product
                          + fst (random_normal 0 5
                                   (snd (random_normal 0 sigma g0))))%float) df.
Proof.
  intros H. apply generate_sensor_data_rows in H.
  rewrite Forall_map in H. revert H. apply Forall_impl.
  intros [name row] (bp & g0 & bp' & g0' & Hv) Hflow. simpl in *.
  rewrite Hflow in Hv. unfold sensor_value in Hv. simpl in Hv.
  apply bind_Ok in Hv as (base & g1 & H1 & Hv).
  apply lift_Ok in H1 as [Hbase ->].
  destruct (pattern_factor_eval (hour (timestamp row)) (hour_range _))
    as (centre & sigma & Hbucket & Heval).
  apply bind_Ok in Hv as (factor & g2 & H2 & Hv).
  rewrite Heval in H2. injection H2 as <- <-.
  apply bind_Ok in Hv as (product & g3 & H3 & Hv).
  apply lift_Ok in H3 as [Hproduct ->].
  apply bind_Ok in Hv as (noise & g4 & H4 & Hv).
  apply normal_Ok in H4 as [-> ->].
  apply ret_Ok in Hv as [Hv _]. injection Hv as Hv _.
  exists base, centre, sigma, g0, product. repeat split; try assumption.
  intros Hzone. pose proof (base_flow_Ok G _ _ Hbase) as (ty & Hty & Hz & _).
  rewrite Hzone in Hty. injection Hty as <-. now apply Hz.
Qed.

(** X13. In every table [generate_sensor_data] returns, a Pressure row
    whose node is a ConsumptionZone, Junction, PumpStation or Reservoir
    has the value max(0, base + n) with base 400000, 500000, 600000 or
    200000 according to that type alone, and n a normal draw of
    standard deviation 10000. *)
Theorem pressure_rows_depend_on_node_type
        (start_time end_time : Timestamp) (minutes : positive) (g : rng_state)
        (df : DataFrame SensorReading) :
  returns (generate_sensor_data G start_time end_time minutes) g df ->
  Forall (fun r =>
            sensor_type (snd r) = "Pressure" ->
            forall ty,
              node_attr G (attached_to (snd r)) "type" a_type = Ok ty ->
              pressure_handled ty = true ->
              exists base g0,
                assoc ty pressure_table = Some base
                /\ value (snd r)
                   = max 0 (base + fst (random_normal 0 10000 g0))%float) df.
Proof.
  intros H. apply generate_sensor_data_rows in H.
  rewrite Forall_map in H. revert H. apply Forall_impl.
  intros [name row] (bp & g0 & bp' & g0' & Hv) Hpressure ty Hty Hhandled.
  simpl in *.
  rewrite Hpressure in Hv. unfold sensor_value in Hv. simpl in Hv.
  apply bind_Ok in Hv as (ty' & g1 & H1 & Hv).
  apply lift_Ok in H1 as [Hty' ->]. rewrite Hty in Hty'. injection Hty' as <-.
  rewrite (pressure_base_table ty bp Hhandled) in Hv.
  apply bind_Ok in Hv as (base & g2 & H2 & Hv).
  apply lift_Ok in H2 as [Hbase ->].
  apply bind_Ok in Hv as (noise & g3 & H3 & Hv).
  apply normal_Ok in H3 as [-> ->].
  apply ret_Ok in Hv as [Hv _]. injection Hv as Hv _.
  exists base, g0. split; [|assumption].
  unfold load_base_pressure in Hbase.
  change (assoc ty pressure_table = Some base).
  destruct (assoc ty pressure_table) as [b|]; [|discriminate].
  apply FloatFacts.Ok_inj in Hbase. now subst b.
Qed.

End Errors.

End SeriesErrors.

(* ================================================================= *)
(** ** The rows of the generated tables, pair by pair *)

Module RowFacts.

Import Py Pandas Nx Np DataGenerator Spec Schema.
Import PandasFacts GeneratorFacts RunFacts SeriesFacts SeriesInvariants.
Import SeriesErrors.

(** Rows whose keys are [keys], in order, and that each satisfy [P]
    for their key, are matched one to one with [keys]. *)
Lemma Forall2_of_keys {K R : Type} (f : R -> K) (P : K -> R -> Prop)
      (rows : list R) (keys : list K) :
  map f rows = keys ->
  Forall (fun r => P (f r) r) rows ->
  Forall2 (fun k r => f r = k /\ P k r) keys rows.
Proof.
  intros <- H. induction H; simpl; constructor; auto.
Qed.

Lemma weekend_adjust_unknown (demand_profile : string) (w h : Z) :
  ~ known_profile demand_profile ->
  weekend_adjust demand_profile w (bucket_factor demand_profile h) = 1%float.
Proof.
  intros Hn. unfold known_profile in Hn.
  assert (R : (demand_profile == "residential") = false)
    by (apply String.eqb_neq; tauto).
  assert (C : (demand_profile == "commercial") = false)
    by (apply String.eqb_neq; tauto).
  assert (I : (demand_profile == "industrial") = false)
    by (apply String.eqb_neq; tauto).
  unfold weekend_adjust, bucket_factor. rewrite R, C, I. simpl.
  now destruct (5 <=? w).
Qed.

Section Rows.

Context {np : NumPy}.
Variable G : DiGraph.

(** The value of a Flow sensor, draw by draw. *)
Lemma flow_value_run (ts : Timestamp) (attached : string)
      (bp bp' : option float) (g g' : rng_state) (v : float) :
  sensor_value G ts "Flow" attached bp g = (Ok (v, bp'), g') ->
  exists base centre sigma product,
    base_flow G attached = Ok base
    /\ bucket_of flow_pattern_table (hour ts) = Some (centre, sigma)
    /\ times_float base (centre + fst (random_normal 0 sigma g))%float
       = Ok product
    /\ v = max 0 (product
                  + fst (random_normal 0 5 (snd (random_normal 0 sigma g))))%float.
Proof.
  unfold sensor_value. simpl. intros Hv.
  apply bind_Ok in Hv as (base & g1 & H1 & Hv).
  apply lift_Ok in H1 as [Hbase ->].
  destruct (pattern_factor_eval (hour ts) (hour_range _))
    as (centre & sigma & Hbucket & Heval).
  apply bind_Ok in Hv as (factor & g2 & H2 & Hv).
  rewrite Heval in H2. injection H2 as <- <-.
  apply bind_Ok in Hv as (product & g3 & H3 & Hv).
  apply lift_Ok in H3 as [Hproduct ->].
  apply bind_Ok in Hv as (noise & g4 & H4 & Hv).
  apply normal_Ok in H4 as [-> ->].
  apply ret_Ok in Hv as [Hv _]. injection Hv as Hv _.
  exists base, centre, sigma, product. now repeat split.
Qed.

(** The value of a Level sensor on R1. *)
Lemma level_value_run (ts : Timestamp) (bp bp' : option float)
      (g g' : rng_state) (v : float) :
  sensor_value G ts "Level" "R1" bp g = (Ok (v, bp'), g') ->
  exists current_level capacity,
    node_attr G "R1" "current_level" a_current_level = Ok current_level
    /\ node_attr G "R1" "capacity" a_capacity = Ok capacity
    /\ v = level_formula current_level capacity ts
                         (fst (random_normal 0 10000 g)).
Proof.
  unfold sensor_value. simpl. intros Hv.
  apply bind_Ok in Hv as (lvl & g1 & H1 & Hv).
  apply lift_Ok in H1 as [Hlvl ->].
  apply bind_Ok in Hv as (noise & g2 & H2 & Hv).
  apply normal_Ok in H2 as [-> ->].
  apply bind_Ok in Hv as (cap & g3 & H3 & Hv).
  apply lift_Ok in H3 as [Hcap ->].
  apply ret_Ok in Hv as [Hv _]. injection Hv as Hv _.
  exists lvl, cap. repeat split; assumption.
Qed.

(** The rows of a returned sensor table, matched with the pairs
    (timestamp, sensor) in loop order. *)
Lemma sensor_rows_by_key (start_time end_time : Timestamp) (minutes : positive)
      (g : rng_state) (df : DataFrame SensorReading) :
  returns (generate_sensor_data G start_time end_time minutes) g df ->
  Forall2 (fun key r => sensor_key r = key /\ row_of_sensor G (snd r))
          (list_prod (date_range start_time end_time minutes)
                     (nodes_of_type G "Sensor"))
          df.
Proof.
  intros H.
  apply (Forall2_of_keys sensor_key (fun _ r => row_of_sensor G (snd r))).
  - rewrite <- (sensor_keys G _ _ _ _ _ H), map_map. reflexivity.
  - apply generate_sensor_data_rows_of_sensors in H.
    now rewrite Forall_map in H.
Qed.

(** The rows of a returned consumption table, matched with the pairs
    (timestamp, zone) in loop order. *)
Lemma consumption_rows_by_key (start_time end_time : Timestamp)
      (minutes : positive) (g : rng_state) (cf : DataFrame ConsumptionReading) :
  returns (generate_consumption_data G start_time end_time minutes) g cf ->
  Forall2 (fun key r => consumption_key r = key /\ consumption_row G (snd r))
          (list_prod (date_range start_time end_time minutes)
                     (nodes_of_type G "ConsumptionZone"))
          cf.
Proof.
  intros H.
  apply (Forall2_of_keys consumption_key
           (fun _ r => consumption_row G (snd r))).
  - rewrite <- (consumption_keys G _ _ _ _ _ H), map_map. reflexivity.
  - apply generate_consumption_data_rows in H.
    now rewrite Forall_map in H.
Qed.

Lemma Forall2_weaken {A B : Type} (P Q : A -> B -> Prop)
      (l : list A) (l' : list B) :
  (forall a b, P a b -> Q a b) -> Forall2 P l l' -> Forall2 Q l l'.
Proof.
  intros HPQ H. induction H; constructor; auto.
Qed.

(** One pass of a loop, run as the whole loop. *)
Lemma for_single {A St B : Type} (x : A) (body : A -> St -> M St) (st : St)
      (k : St -> M B) (g : rng_state) :
  bind (for_ [x] body st) k g = bind (body x st) k g.
Proof.
  simpl. unfold bind, ret. now destruct (body x st g) as [[st'|e] g'].
Qed.

(** *** Base flow *)

(** C4 (amended). For every grid timestamp and every Sensor node, in
    loop order, the table [generate_sensor_data] returns has the row of
    that pair, with the sensor's sensor_type and attached_to; and the
    value of a Flow row is max(0, base x (centre + n1) + n2), with
    centre and the deviation of n1 those of the hour bucket, n2 a
    normal draw of deviation 5 taken right after n1, and base fixed by
    the node the sensor is attached to: on a ConsumptionZone its
    base_demand; on a Junction the sum of base_demand over the
    junction's immediate successor ConsumptionZone nodes (ints added
    exactly) when that sum is greater than 0, and the fixed default 150
    exactly when that sum is not greater than 0, which is the case in
    particular when the junction has no immediate successor
    ConsumptionZone nodes; on any other node type that node's pump_rate
    attribute, defaulting to 0 when absent. *)
Theorem flow_rows_base_flow
        (start_time end_time : Timestamp) (minutes : positive) (g : rng_state)
        (df : DataFrame SensorReading) :
  returns (generate_sensor_data G start_time end_time minutes) g df ->
  Forall2
    (fun key r =>
       sensor_key r = key
       /\ node_attr G (snd key) "sensor_type" a_sensor_type
          = Ok (sensor_type (snd r))
       /\ node_attr G (snd key) "attached_to" a_attached_to
          = Ok (attached_to (snd r))
       /\ (sensor_type (snd r) = "Flow" ->
           exists ty base centre sigma g0 product,
             node_attr G (attached_to (snd r)) "type" a_type = Ok ty
             /\ bucket_of flow_pattern_table (hour (fst key))
                = Some (centre, sigma)
             /\ times_float base (centre + fst (random_normal 0 sigma g0))%float
                = Ok product
             /\ value (snd r)
                = max 0 (product
                         + fst (random_normal 0 5
                                  (snd (random_normal 0 sigma g0))))%float
             /\ (ty = "ConsumptionZone" ->
                 node_attr G (attached_to (snd r)) "base_demand" a_base_demand
                 = Ok base)
             /\ (ty = "Junction" ->
                 exists demand,
                   demand_sum G (successor_zones G (attached_to (snd r)))
                   = Ok demand
                   /\ ((gt_zero demand = Ok true /\ base = demand)
                       \/ (gt_zero demand = Ok false /\ base = PyInt 150)))
             /\ (ty = "Junction" ->
                 successor_zones G (attached_to (snd r)) = [] ->
                 base = PyInt 150)
             /\ (ty <> "ConsumptionZone" -> ty <> "Junction" ->
                 exists attrs,
                   assoc (attached_to (snd r)) (node G) = Some attrs
                   /\ base = get (a_pump_rate attrs) (PyInt 0))))
    (list_prod (date_range start_time end_time minutes)
               (nodes_of_type G "Sensor"))
    df.
Proof.
  intros H. apply sensor_rows_by_key in H. revert H. apply Forall2_weaken.
  intros [ts sid] [name row] [Hkey (_ & Hst & Hat & bp & g0 & bp' & g0' & Hv)].
  unfold sensor_key, row_key in Hkey. simpl in *.
  injection Hkey as Hts Hid. subst ts sid.
  repeat split; try assumption.
  intros Hflow. rewrite Hflow in Hv.
  apply flow_value_run in Hv
    as (base & centre & sigma & product & Hbase & Hbucket & Hproduct & Hvalue).
  apply base_flow_Ok in Hbase as (ty & Hty & Hzone & Hj & Hother).
  exists ty, base, centre, sigma, g0, product.
  repeat split; try assumption.
  - intros E. destruct (Hj E) as (demand & positive & Hsum & Hpos & Hb).
    exists demand. split; [assumption|].
    destruct positive; [left | right]; now split.
  - intros E Hnone. destruct (Hj E) as (demand & positive & Hsum & Hpos & Hb).
    rewrite Hnone in Hsum. injection Hsum as <-.
    injection Hpos as <-. exact Hb.
Qed.

(** *** Level sensors *)

(** C10. Level synthesis is keyed to the node identifier R1, not to
    the Reservoir node type: for every grid timestamp and every Sensor
    node, in loop order, the table [generate_sensor_data] returns has
    the row of that pair, with the sensor's sensor_type and
    attached_to; a Level row whose attached_to is any node other than
    R1 has value 0.0, and a Level row attached to R1 has the value of
    the level formula on the current_level and capacity of node R1, at
    the row's timestamp, with a normal draw of deviation 10000. *)
Theorem level_rows_keyed_to_R1
        (start_time end_time : Timestamp) (minutes : positive) (g : rng_state)
        (df : DataFrame SensorReading) :
  returns (generate_sensor_data G start_time end_time minutes) g df ->
  Forall2
    (fun key r =>
       sensor_key r = key
       /\ node_attr G (snd key) "sensor_type" a_sensor_type
          = Ok (sensor_type (snd r))
       /\ node_attr G (snd key) "attached_to" a_attached_to
          = Ok (attached_to (snd r))
       /\ (sensor_type (snd r) = "Level" ->
           (attached_to (snd r) <> "R1" -> value (snd r) = 0%float)
           /\ (attached_to (snd r) = "R1" ->
               exists current_level capacity g0,
                 node_attr G "R1" "current_level" a_current_level
                 = Ok current_level
                 /\ node_attr G "R1" "capacity" a_capacity = Ok capacity
                 /\ value (snd r)
                    = level_formula current_level capacity (fst key)
                                    (fst (random_normal 0 10000 g0)))))
    (list_prod (date_range start_time end_time minutes)
               (nodes_of_type G "Sensor"))
    df.
Proof.
  intros H. apply sensor_rows_by_key in H. revert H. apply Forall2_weaken.
  intros [ts sid] [name row] [Hkey (_ & Hst & Hat & bp & g0 & bp' & g0' & Hv)].
  unfold sensor_key, row_key in Hkey. simpl in *.
  injection Hkey as Hts Hid. subst ts sid.
  repeat split; try assumption.
  - intros HR. rewrite H in Hv.
    rewrite (level_off_R1_zero G _ _ bp g0 HR) in Hv. now injection Hv as <-.
  - intros HR. rewrite H, HR in Hv.
    apply level_value_run in Hv as (lvl & cap & Hlvl & Hcap & Hvalue).
    now exists lvl, cap, g0.
Qed.

(** *** Degenerate time ranges *)

(** C7. For every network, [generate_sensor_data] and
    [generate_consumption_data] called with start = end and a positive
    interval work on the grid of exactly one timestamp, the start: the
    call is one pass over the Sensor nodes (respectively the
    ConsumptionZone nodes) at that timestamp, and a returned table has
    one row per node, each at the start; called with start > end both
    return an empty table, without a random draw. *)
Theorem degenerate_time_ranges
        (start_time end_time : Timestamp) (minutes : positive) (g : rng_state) :
  date_range start_time start_time minutes = [start_time]
  /\ generate_sensor_data G start_time start_time minutes g
     = bind (for_ (nodes_of_type G "Sensor") (sensor_step G start_time)
                  (mkSensorLocals [] None))
            (fun locals => ret (mk_DataFrame (data locals))) g
  /\ generate_consumption_data G start_time start_time minutes g
     = bind (for_ (nodes_of_type G "ConsumptionZone")
                  (consumption_step G start_time) [])
            (fun data => ret (mk_DataFrame data)) g
  /\ (forall df,
         returns (generate_sensor_data G start_time start_time minutes) g df ->
         map sensor_key df
         = map (pair start_time) (nodes_of_type G "Sensor"))
  /\ (forall cf,
         returns (generate_consumption_data G start_time start_time minutes)
                 g cf ->
         map consumption_key cf
         = map (pair start_time) (nodes_of_type G "ConsumptionZone"))
  /\ (end_time < start_time ->
      generate_sensor_data G start_time end_time minutes g = (Ok [], g)
      /\ generate_consumption_data G start_time end_time minutes g
         = (Ok [], g)).
Proof.
  pose proof (date_range_single start_time minutes) as E1.
  split; [exact E1|].
  split.
  { unfold generate_sensor_data. rewrite E1.
    exact (for_single start_time
             (fun ts => for_ (nodes_of_type G "Sensor") (sensor_step G ts))
             _ _ g). }
  split.
  { unfold generate_consumption_data. rewrite E1.
    exact (for_single start_time
             (fun ts => for_ (nodes_of_type G "ConsumptionZone")
                             (consumption_step G ts))
             _ _ g). }
  split; [|split].
  - intros df H. pose proof (sensor_keys G _ _ _ _ _ H) as K.
    rewrite E1 in K. simpl in K. rewrite app_nil_r, map_map in K. exact K.
  - intros cf H. pose proof (consumption_keys G _ _ _ _ _ H) as K.
    rewrite E1 in K. simpl in K. rewrite app_nil_r, map_map in K. exact K.
  - intros H.
    pose proof (date_range_empty start_time end_time minutes H) as E.
    unfold generate_sensor_data, generate_consumption_data.
    rewrite E. split; reflexivity.
Qed.

(** *** Consumption values *)

(** C8. For every grid timestamp and every ConsumptionZone, in loop
    order, the table [generate_consumption_data] returns has the row of
    that pair, and its value is base_demand (converted to a float)
    times the profile's hour-bucket factor (the table of section 4.2),
    times the weekend multiplier on Saturday and Sunday (0.7 for
    commercial and industrial, 1.1 for residential), times the seasonal
    factor 1 + 0.2 sin(2 pi (day_of_year - 170) / 365), plus a normal
    draw of deviation 2, floored at 0; for a profile other than the
    three, the factor is 1 on every day and at every hour. *)
Theorem consumption_values_follow_profiles
        (start_time end_time : Timestamp) (minutes : positive) (g : rng_state)
        (cf : DataFrame ConsumptionReading) :
  returns (generate_consumption_data G start_time end_time minutes) g cf ->
  Forall2
    (fun key r =>
       consumption_key r = key
       /\ exists base_demand demand_profile g0,
           node_attr G (snd key) "base_demand" a_base_demand = Ok base_demand
           /\ node_attr G (snd key) "demand_profile" a_demand_profile
              = Ok demand_profile
           /\ (known_profile demand_profile ->
               consumption_spec base_demand demand_profile (fst key)
                                (fst (random_normal 0 2 g0))
                                (consumption_liters_per_sec (snd r)))
           /\ (~ known_profile demand_profile ->
               exists product,
                 times_float base_demand 1 = Ok product
                 /\ consumption_liters_per_sec (snd r)
                    = max 0 (product
                             * (1 + 0.2
                                    * sin (2 * pi
                                           * float_of_int
                                               (dayofyear (fst key) - 170)
                                           / 365))
                             + fst (random_normal 0 2 g0))%float))
    (list_prod (date_range start_time end_time minutes)
               (nodes_of_type G "ConsumptionZone"))
    cf.
Proof.
  intros H. apply consumption_rows_by_key in H. revert H.
  apply Forall2_weaken.
  intros [ts zone] [name row]
         [Hkey (base & profile & g0 & Hb & Hp & product & Hprod & Hv)].
  unfold consumption_key, reading_key in Hkey. simpl in *.
  injection Hkey as Hts Hid. subst ts zone.
  split; [reflexivity|].
  exists base, profile, g0. repeat split; try assumption.
  - intros Hknown. unfold consumption_spec.
    destruct (weekend_adjust_multiplier profile (c_timestamp row)
                (bucket_factor profile (hour (c_timestamp row))) Hknown)
      as (multiplier & Hm & Hadj).
    exists (bucket_factor profile (hour (c_timestamp row))), multiplier, product.
    split; [apply bucket_factor_table; [assumption | apply hour_range]|].
    split; [assumption|]. split; [now rewrite <- Hadj|]. exact Hv.
  - intros Hunknown. exists product.
    rewrite (weekend_adjust_unknown profile _ _ Hunknown) in Hprod.
    split; [assumption|]. exact Hv.
Qed.

End Rows.

End RowFacts.

(* ================================================================= *)
(** ** The rows of concrete runs *)

Module RowExamples.

Import Py Pandas Nx Np NetworkBuilder DataGenerator Spec Schema.
Import Fixtures MoreFixtures.
Import FloatFacts SeriesFacts RowFacts.

(** C4 as stated fails: junction J1 has the immediate successor
    ConsumptionZone Z1, whose base_demand is 0; the sum over the
    successor zones is 0, yet the base flow is the default 150, and the
    Flow row of J1 at midnight is 150 x 0.6 = 90. *)
Lemma flow_default_with_successor_zone_counterexample :
  successor_zones idle_zone_network "J1" = ["Z1"]
  /\ demand_sum idle_zone_network (successor_zones idle_zone_network "J1")
     = Ok (PyInt 0)
  /\ base_flow idle_zone_network "J1" = Ok (PyInt 150)
  /\ base_flow idle_zone_network "J1"
     <> demand_sum idle_zone_network (successor_zones idle_zone_network "J1")
  /\ fst (generate_sensor_data (np := quiet_numpy) idle_zone_network
                               jan1_2023 jan1_2023 60 0%nat)
     = Ok [ (0, mkSensorReading jan1_2023 "S_F_J1" "J1" "Flow" 90) ].
Proof.
  repeat split; try (vm_compute; reflexivity).
  vm_compute. discriminate.
Qed.

Lemma flow_rows_base_flow_witness :
  exists df,
    returns (generate_sensor_data (np := lcg_numpy) build_simple_water_network
                                  jan1_2023 (jan1_2023 + hours 1) 60) 42 df
    /\ List.length df = 18%nat
    /\ Forall2
         (fun key r =>
            sensor_key r = key
            /\ node_attr build_simple_water_network (snd key)
                         "sensor_type" a_sensor_type
               = Ok (sensor_type (snd r))
            /\ node_attr build_simple_water_network (snd key)
                         "attached_to" a_attached_to
               = Ok (attached_to (snd r))
            /\ (sensor_type (snd r) = "Flow" ->
                exists ty base centre sigma g0 product,
                  node_attr build_simple_water_network (attached_to (snd r))
                            "type" a_type = Ok ty
                  /\ bucket_of flow_pattern_table (hour (fst key))
                     = Some (centre, sigma)
                  /\ times_float base
                       (centre + fst (random_normal (NumPy := lcg_numpy)
                                        0 sigma g0))%float
                     = Ok product
                  /\ value (snd r)
                     = max 0 (product
                              + fst (random_normal (NumPy := lcg_numpy) 0 5
                                       (snd (random_normal (NumPy := lcg_numpy)
                                               0 sigma g0))))%float
                  /\ (ty = "ConsumptionZone" ->
                      node_attr build_simple_water_network
                                (attached_to (snd r)) "base_demand"
                                a_base_demand
                      = Ok base)
                  /\ (ty = "Junction" ->
                      exists demand,
                        demand_sum build_simple_water_network
                          (successor_zones build_simple_water_network
                                           (attached_to (snd r)))
                        = Ok demand
                        /\ ((gt_zero demand = Ok true /\ base = demand)
                            \/ (gt_zero demand = Ok false
                                /\ base = PyInt 150)))
                  /\ (ty = "Junction" ->
                      successor_zones build_simple_water_network
                                      (attached_to (snd r)) = [] ->
                      base = PyInt 150)
                  /\ (ty <> "ConsumptionZone" -> ty <> "Junction" ->
                      exists attrs,
                        assoc (attached_to (snd r))
                              (node build_simple_water_network) = Some attrs
                        /\ base = get (a_pump_rate attrs) (PyInt 0))))
         (list_prod (date_range jan1_2023 (jan1_2023 + hours 1) 60)
                    (nodes_of_type build_simple_water_network "Sensor"))
         df.
Proof.
  eexists. split; [vm_compute; reflexivity|]. split; [reflexivity|].
  apply (flow_rows_base_flow (np := lcg_numpy) build_simple_water_network
           jan1_2023 (jan1_2023 + hours 1) 60 42).
  vm_compute. reflexivity.
Defined.

(** The base flow of each Flow sensor of the built network, and of a
    junction whose zones demand 2^53, 1 and 1: the ints are added
    exactly, where binary64 additions would stay at 2^53. *)
Example base_flow_of_built_network :
  base_flow build_simple_water_network "P1" = Ok (PyInt 500)
  /\ base_flow build_simple_water_network "J1" = Ok (PyInt 100)
  /\ base_flow build_simple_water_network "J4" = Ok (PyInt 200)
  /\ base_flow build_simple_water_network "J2" = Ok (PyInt 150)
  /\ base_flow build_simple_water_network "Z2" = Ok (PyInt 80)
  /\ base_flow large_demand_network "J1" = Ok (PyInt 9007199254740994)
  /\ (9007199254740992 + 1 + 1)%float = 9007199254740992%float.
Proof. repeat split; vm_compute; reflexivity. Qed.

(** With the noise switched off, the Flow rows of the built network at
    midnight are 0.6 times the base flow. *)
Example flow_rows_at_midnight :
  option_map (map (fun r => (sensor_id (snd r), value (snd r))))
    (match fst (generate_sensor_data (np := quiet_numpy)
                  build_simple_water_network jan1_2023 jan1_2023 60 0%nat)
     with
     | Ok df => Some (filter (fun r => sensor_type (snd r) == "Flow") df)
     | Raise _ => None
     end)
  = Some [ ("S_F_J1", 60%float); ("S_F_Z1", 60%float);
           ("S_F_Z2", 48%float); ("S_F_Z3", 72%float) ].
Proof. vm_compute. reflexivity. Qed.

Lemma degenerate_time_ranges_witness :
  (exists df,
      returns (generate_sensor_data (np := lcg_numpy) build_simple_water_network
                                    jan1_2023 jan1_2023 15) 42 df
      /\ List.length df = 9%nat
      /\ map sensor_key df
         = map (pair jan1_2023)
               (nodes_of_type build_simple_water_network "Sensor"))
  /\ (exists cf,
         returns (generate_consumption_data (np := lcg_numpy)
                    build_simple_water_network jan1_2023 jan1_2023 15) 42 cf
         /\ List.length cf = 3%nat
         /\ map consumption_key cf
            = map (pair jan1_2023)
                  (nodes_of_type build_simple_water_network "ConsumptionZone"))
  /\ generate_sensor_data (np := lcg_numpy) build_simple_water_network
                          jan1_2023 (jan1_2023 - hours 1) 15 42
     = (Ok [], 42)
  /\ generate_consumption_data (np := lcg_numpy) build_simple_water_network
                               jan1_2023 (jan1_2023 - hours 1) 15 42
     = (Ok [], 42).
Proof.
  pose proof (degenerate_time_ranges (np := lcg_numpy)
                build_simple_water_network
                jan1_2023 (jan1_2023 - hours 1) 15 42)
    as (_ & _ & _ & Hs & Hc & Hnone).
  split; [|split].
  - eexists. split; [vm_compute; reflexivity|]. split; [reflexivity|].
    apply Hs. vm_compute. reflexivity.
  - eexists. split; [vm_compute; reflexivity|]. split; [reflexivity|].
    apply Hc. vm_compute. reflexivity.
  - apply Hnone. unfold jan1_2023, hours. lia.
Defined.

Lemma consumption_values_follow_profiles_witness :
  exists cf,
    returns (generate_consumption_data (np := lcg_numpy)
               build_simple_water_network
               jan1_2023 (jan1_2023 + hours 2) 60) 42 cf
    /\ List.length cf = 9%nat
    /\ Forall2
         (fun key r =>
            consumption_key r = key
            /\ exists base_demand demand_profile g0,
                node_attr build_simple_water_network (snd key)
                          "base_demand" a_base_demand = Ok base_demand
                /\ node_attr build_simple_water_network (snd key)
                             "demand_profile" a_demand_profile
                   = Ok demand_profile
                /\ (known_profile demand_profile ->
                    consumption_spec (np := lcg_numpy)
                      base_demand demand_profile (fst key)
                      (fst (random_normal (NumPy := lcg_numpy) 0 2 g0))
                      (consumption_liters_per_sec (snd r)))
                /\ (~ known_profile demand_profile ->
                    exists product,
                      times_float base_demand 1 = Ok product
                      /\ consumption_liters_per_sec (snd r)
                         = max 0 (product
                                  * (1 + 0.2
                                         * sin (NumPy := lcg_numpy)
                                               (2 * pi
                                                * float_of_int
                                                    (dayofyear (fst key) - 170)
                                                / 365))
                                  + fst (random_normal (NumPy := lcg_numpy)
                                           0 2 g0))%float))
         (list_prod (date_range jan1_2023 (jan1_2023 + hours 2) 60)
                    (nodes_of_type build_simple_water_network
                                   "ConsumptionZone"))
         cf.
Proof.
  eexists. split; [vm_compute; reflexivity|]. split; [reflexivity|].
  apply (consumption_values_follow_profiles (np := lcg_numpy)
           build_simple_water_network
           jan1_2023 (jan1_2023 + hours 2) 60 42).
  vm_compute. reflexivity.
Defined.

Lemma level_rows_keyed_to_R1_witness :
  exists df,
    returns (generate_sensor_data (np := lcg_numpy) two_reservoir_network
                                  jan1_2023 (jan1_2023 + hours 2) 60) 42 df
    /\ List.length df = 6%nat
    /\ Forall2
         (fun key r =>
            sensor_key r = key
            /\ node_attr two_reservoir_network (snd key)
                         "sensor_type" a_sensor_type
               = Ok (sensor_type (snd r))
            /\ node_attr two_reservoir_network (snd key)
                         "attached_to" a_attached_to
               = Ok (attached_to (snd r))
            /\ (sensor_type (snd r) = "Level" ->
                (attached_to (snd r) <> "R1" -> value (snd r) = 0%float)
                /\ (attached_to (snd r) = "R1" ->
                    exists current_level capacity g0,
                      node_attr two_reservoir_network "R1" "current_level"
                                a_current_level = Ok current_level
                      /\ node_attr two_reservoir_network "R1" "capacity"
                                   a_capacity = Ok capacity
                      /\ value (snd r)
                         = level_formula (np := lcg_numpy)
                             current_level capacity (fst key)
                             (fst (random_normal (NumPy := lcg_numpy)
                                     0 10000 g0)))))
         (list_prod (date_range jan1_2023 (jan1_2023 + hours 2) 60)
                    (nodes_of_type two_reservoir_network "Sensor"))
         df.
Proof.
  eexists. split; [vm_compute; reflexivity|]. split; [reflexivity|].
  apply (level_rows_keyed_to_R1 (np := lcg_numpy) two_reservoir_network
           jan1_2023 (jan1_2023 + hours 2) 60 42).
  vm_compute. reflexivity.
Defined.

(** With the noise switched off, the Level sensor on R1 records the
    level formula on R1's attributes, and the Level sensor on the other
    reservoir records 0.0, whatever that reservoir holds. *)
Example level_rows_of_two_reservoirs :
  fst (generate_sensor_data (np := quiet_numpy) two_reservoir_network
                            jan1_2023 jan1_2023 60 0%nat)
  = Ok [ (0, mkSensorReading jan1_2023 "S_L_R1" "R1" "Level"
               (level_formula (np := quiet_numpy) 900000 1000000 jan1_2023 0));
         (1, mkSensorReading jan1_2023 "S_L_R2" "R2" "Level" 0) ]
  /\ flt 900860 (level_formula (np := quiet_numpy) 900000 1000000 jan1_2023 0)
  /\ flt (level_formula (np := quiet_numpy) 900000 1000000 jan1_2023 0) 900861.
Proof. repeat split; vm_compute; reflexivity. Qed.

End RowExamples.

(* ================================================================= *)
(** ** The run of main.py *)

Module MainFacts.

Import Py Pandas Nx Np NetworkBuilder DataGenerator Spec Schema Main.
Import NxFacts PandasFacts GeneratorFacts RunFacts SeriesFacts.
Import SeriesInvariants SeriesErrors InjectorInvariants.

Lemma Forall2_with_left {A B : Type} (P : A -> B -> Prop) (Q : A -> Prop)
      (R : A -> B -> Prop) (l : list A) (l' : list B) :
  (forall a b, P a b -> Q a -> R a b) ->
  Forall2 P l l' -> Forall Q l -> Forall2 R l l'.
Proof.
  intros Himp H. induction H as [|a b l l' Hab _ IH]; intros HQ; constructor.
  - inversion HQ; subst. now apply Himp.
  - inversion HQ; subst. now apply IH.
Qed.

Section Run.

Context {np : NumPy}.

(** The rows the relation of the injector changes are hit rows. *)
Lemma leak_injected_changes_only_hits (G : DiGraph) (leak_node_id : string)
      (start_time end_time : Timestamp) (severity_factor : float)
      (before after : DataFrame SensorReading) (g g' : rng_state) :
  leak_injected G leak_node_id start_time end_time severity_factor
                before g after g' ->
  Forall2 (fun r r' =>
             fst r' = fst r
             /\ (~ leak_hit G leak_node_id start_time end_time (snd r) -> r' = r))
          before after.
Proof.
  induction 1; constructor; try assumption; simpl; split; try reflexivity;
    intros Hmiss; try reflexivity; exfalso; apply Hmiss; unfold leak_hit; tauto.
Qed.

Lemma ancestors_of_J1 :
  ancestors build_simple_water_network "J1" = Ok ["R1"; "R1"; "P1"].
Proof. reflexivity. Qed.

Lemma sensors_of_built_network :
  nodes_of_type build_simple_water_network "Sensor"
  = [ "S_F_J1"; "S_P_J1"; "S_F_Z1"; "S_P_Z1"; "S_F_Z2"; "S_P_Z2";
      "S_F_Z3"; "S_P_Z3"; "S_L_R1" ].
Proof. reflexivity. Qed.

(** In the built network a row that a leak at J1 hits is a row of one
    of the two sensors on J1: the zones are downstream of J1, and the
    only sensor upstream of it is the Level sensor of R1. *)
Lemma hit_rows_of_J1_leak (start_time end_time : Timestamp)
      (row : SensorReading) :
  row_of_sensor build_simple_water_network row ->
  leak_hit build_simple_water_network "J1" start_time end_time row ->
  sensor_id row = "S_F_J1" \/ sensor_id row = "S_P_J1".
Proof.
  intros (Hin & Hst & Hat & _) (_ & Hkind & Htarget).
  apply (affected_spec build_simple_water_network "J1" _ row ancestors_of_J1)
    in Htarget.
  unfold affected in Htarget.
  rewrite sensors_of_built_network in Hin. cbn [In] in Hin.
  repeat (destruct Hin as [Hid | Hin];
          [rewrite <- Hid in Hst, Hat |- *;
           match type of Hst with
           | ?l = _ => let v := eval vm_compute in l in change l with v in Hst
           end;
           match type of Hat with
           | ?l = _ => let v := eval vm_compute in l in change l with v in Hat
           end;
           apply FloatFacts.Ok_inj in Hst, Hat; rewrite <- Hst in Hkind;
           rewrite <- Hat in Htarget;
           first [ now left | now right
                 | discriminate Htarget
                 | destruct Hkind; discriminate ]|]).
  contradiction.
Qed.

(** X14. The script main.py never raises on its way to the plots,
    whatever the random draws: it builds the network, generates
    673 x 9 = 6057 sensor rows and 673 x 3 = 2019 consumption rows for
    1-8 January 2023 at 15 minutes, and injects the leak at J1; the
    leak changes no row other than those of the sensors S_F_J1 and
    S_P_J1 with a timestamp from 3 January 10:00 to 4 January 18:00, so
    the rows of every zone sensor are exactly as generated. *)
Theorem simulation_returns_and_touches_only_J1 (g : rng_state) :
  exists raw_df sensor_df consumption_df g',
    simulation g = (Ok (raw_df, sensor_df, consumption_df), g')
    /\ List.length raw_df = (673 * 9)%nat
    /\ List.length sensor_df = (673 * 9)%nat
    /\ List.length consumption_df = (673 * 3)%nat
    /\ Forall2 (fun r r' =>
                  fst r' = fst r
                  /\ (~ ((sensor_id (snd r) = "S_F_J1"
                          \/ sensor_id (snd r) = "S_P_J1")
                         /\ leak_start_time <= timestamp (snd r) <= leak_end_time) ->
                      r' = r))
               raw_df sensor_df.
Proof.
  assert (Hsensors : sensors_ready build_simple_water_network = true)
    by reflexivity.
  assert (Hzones : zones_ready build_simple_water_network = true)
    by reflexivity.
  destruct (generate_sensor_data_total build_simple_water_network
              start_date end_date sampling_interval_minutes g Hsensors)
    as (locals & g1 & Hraw).
  destruct (generate_consumption_data_total build_simple_water_network
              start_date end_date sampling_interval_minutes g1 Hzones)
    as (data & g2 & Hcons).
  set (raw_df := mk_DataFrame (DataGenerator.data locals)).
  assert (Hgen : generate_sensor_data build_simple_water_network start_date
                   end_date sampling_interval_minutes g = (Ok raw_df, g1)).
  { unfold generate_sensor_data, bind. now rewrite Hraw. }
  assert (Hret : returns (generate_sensor_data build_simple_water_network
                            start_date end_date sampling_interval_minutes)
                         g raw_df).
  { unfold returns. now rewrite Hgen. }
  pose proof (generate_sensor_data_index_NoDup _ _ _ _ _ _ Hret) as Hnd.
  destruct (leak_loop build_simple_water_network leak_node leak_start_time
              leak_end_time 0.3%float _ ancestors_of_J1 raw_df [] g2 Hnd)
    as (sensor_df & g3 & Hinj & Hrel).
  simpl app in Hinj.
  exists raw_df, sensor_df, (mk_DataFrame data), g3.
  assert (Hgrid : List.length
                    (date_range start_date end_date sampling_interval_minutes)
                  = 673%nat) by (vm_compute; reflexivity).
  assert (Hlen : List.length raw_df = (673 * 9)%nat).
  { unfold raw_df.
    assert (Hkeys : map row_key (DataGenerator.data locals)
                    = list_prod
                        (date_range start_date end_date
                                    sampling_interval_minutes)
                        (nodes_of_type build_simple_water_network "Sensor"))
      by exact (sensor_outer_keys _ _ _ _ _ _ _ Hraw).
    rewrite mk_DataFrame_length, <- (length_map row_key), Hkeys, length_prod.
    now rewrite Hgrid, sensors_of_built_network. }
  apply leak_injected_changes_only_hits in Hrel.
  split; [|split; [exact Hlen | split; [|split]]].
  - unfold simulation, bind. rewrite Hgen.
    unfold generate_consumption_data, bind. rewrite Hcons.
    unfold ret at 1. unfold inject_leak_event, bind, lift.
    change (ancestors build_simple_water_network leak_node)
      with (ancestors build_simple_water_network "J1").
    rewrite ancestors_of_J1, Hinj. reflexivity.
  - rewrite <- Hlen. symmetry.
    eapply Forall2_length. exact Hrel.
  - assert (Hkeys : map reading_key data
                    = list_prod
                        (date_range start_date end_date
                                    sampling_interval_minutes)
                        (nodes_of_type build_simple_water_network
                                       "ConsumptionZone"))
      by exact (consumption_outer_keys _ _ _ _ _ _ _ Hcons).
    rewrite mk_DataFrame_length, <- (length_map reading_key), Hkeys, length_prod.
    now rewrite Hgrid.
  - pose proof (generate_sensor_data_rows_of_sensors _ _ _ _ _ _ Hret) as Hrows.
    rewrite Forall_map in Hrows.
    revert Hrel Hrows. apply Forall2_with_left.
    intros r r' [Hlabel Hsame] Hrow. split; [assumption|].
    intros Hout. apply Hsame. intros Hhit. apply Hout. split.
    + exact (hit_rows_of_J1_leak _ _ _ Hrow Hhit).
    + destruct Hhit as (Hwin & _). exact Hwin.
Qed.

(** X15. On the network that [build_simple_water_network] builds, both
    generators return for every range, interval and random draws: the
    sensor table has 9 rows and the consumption table 3 rows per grid
    timestamp. *)
Theorem built_network_generation_returns
        (start_time end_time : Timestamp) (minutes : positive) (g : rng_state) :
  exists df cf g1 g2,
    generate_sensor_data build_simple_water_network start_time end_time
                         minutes g
    = (Ok df, g1)
    /\ generate_consumption_data build_simple_water_network start_time
                                 end_time minutes g
       = (Ok cf, g2)
    /\ List.length df
       = (List.length (date_range start_time end_time minutes) * 9)%nat
    /\ List.length cf
       = (List.length (date_range start_time end_time minutes) * 3)%nat.
Proof.
  destruct (generate_sensor_data_total build_simple_water_network
              start_time end_time minutes g eq_refl)
    as (locals & g1 & Hraw).
  destruct (generate_consumption_data_total build_simple_water_network
              start_time end_time minutes g eq_refl)
    as (data & g2 & Hcons).
  exists (mk_DataFrame (DataGenerator.data locals)), (mk_DataFrame data), g1, g2.
  split; [unfold generate_sensor_data, bind; now rewrite Hraw|].
  split; [unfold generate_consumption_data, bind; now rewrite Hcons|].
  split.
  - assert (Hkeys : map row_key (DataGenerator.data locals)
                    = list_prod (date_range start_time end_time minutes)
                        (nodes_of_type build_simple_water_network "Sensor"))
      by exact (sensor_outer_keys _ _ _ _ _ _ _ Hraw).
    rewrite mk_DataFrame_length, <- (length_map row_key), Hkeys, length_prod.
    now rewrite sensors_of_built_network.
  - assert (Hkeys : map reading_key data
                    = list_prod (date_range start_time end_time minutes)
                        (nodes_of_type build_simple_water_network
                                       "ConsumptionZone"))
      by exact (consumption_outer_keys _ _ _ _ _ _ _ Hcons).
    now rewrite mk_DataFrame_length, <- (length_map reading_key), Hkeys,
      length_prod.
Qed.

End Run.

End MainFacts.

(* ================================================================= *)
(** ** The further properties on concrete inputs *)

Module CoverageExamples.

Import Py Pandas Nx Np NetworkBuilder DataGenerator Spec Schema Main.
Import Fixtures MoreFixtures.
Import GeneratorFacts SeriesFacts InjectorInvariants SeriesInvariants SeriesErrors.

Lemma inject_leak_event_keeps_shape_witness :
  exists df' g',
    inject_leak_event (np := lcg_numpy) relabelled_table
                      build_simple_water_network "J1" 0 10 0.5 42
    = (Ok df', g')
    /\ List.length df' = List.length relabelled_table
    /\ Forall2 same_but_value relabelled_table df'.
Proof.
  apply (inject_leak_event_keeps_shape (np := lcg_numpy)). reflexivity.
Defined.

Lemma ancestors_of_R1 : ancestors build_simple_water_network "R1" = Ok [].
Proof. reflexivity. Defined.

(** A leak at the reservoir: R1 has no ancestors, and the only sensor
    attached to it is the Level sensor. *)
Lemma inject_leak_event_no_target_is_identity_witness :
  inject_leak_event (np := lcg_numpy) small_table build_simple_water_network
                    "R1" 0 10 0.3 42
  = (Ok small_table, 42).
Proof.
  apply (inject_leak_event_no_target_is_identity (np := lcg_numpy)).
  - reflexivity.
  - unfold small_table, mk_DataFrame. simpl.
    repeat constructor; simpl; intros Hhit;
      apply (leak_hit_b_spec build_simple_water_network "R1"
                             0 10 [] _ ancestors_of_R1) in Hhit;
      vm_compute in Hhit; discriminate.
Defined.

Lemma inject_leak_event_one_draw_per_hit_witness :
  snd (inject_leak_event (np := lcg_numpy) small_table
                         build_simple_water_network "J1" 0 10 0.3 42)
  = lcg (lcg 42).
Proof.
  rewrite (inject_leak_event_one_draw_per_hit (np := lcg_numpy)
             build_simple_water_network "J1" 0 10 0.3 small_table
             ["R1"; "R1"; "P1"] 42); reflexivity.
Defined.

Lemma inject_after_generate_witness :
  exists sensor_df df' g',
    returns (generate_sensor_data (np := lcg_numpy) build_simple_water_network
                                  jan1_2023 (jan1_2023 + hours 2) 60) 42
            sensor_df
    /\ inject_leak_event (np := lcg_numpy) sensor_df build_simple_water_network
                         "J1" (jan1_2023 + hours 1) (jan1_2023 + hours 2) 0.3 7
       = (Ok df', g')
    /\ leak_injected (np := lcg_numpy) build_simple_water_network "J1"
                     (jan1_2023 + hours 1) (jan1_2023 + hours 2) 0.3
                     sensor_df 7 df' g'.
Proof.
  eexists.
  assert (Hgen : returns (generate_sensor_data (np := lcg_numpy)
                            build_simple_water_network
                            jan1_2023 (jan1_2023 + hours 2) 60) 42 _)
    by (vm_compute; reflexivity).
  destruct (inject_after_generate (np := lcg_numpy) build_simple_water_network
              "J1" (jan1_2023 + hours 1) (jan1_2023 + hours 2) 0.3
              jan1_2023 (jan1_2023 + hours 2) 60 42 _ 7 Hgen eq_refl)
    as (df' & g' & Hrun & Hrel).
  exists df', g'. split; [exact Hgen|]. split; assumption.
Defined.

Lemma sensor_rows_refer_to_sensor_nodes_witness :
  exists df,
    returns (generate_sensor_data (np := lcg_numpy) build_simple_water_network
                                  jan1_2023 (jan1_2023 + hours 2) 60) 42 df
    /\ Forall (fun r =>
                 In (sensor_id (snd r))
                    (nodes_of_type build_simple_water_network "Sensor")
                 /\ node_attr build_simple_water_network (sensor_id (snd r))
                              "sensor_type" a_sensor_type
                    = Ok (sensor_type (snd r))
                 /\ node_attr build_simple_water_network (sensor_id (snd r))
                              "attached_to" a_attached_to
                    = Ok (attached_to (snd r))) df.
Proof.
  eexists. split.
  - vm_compute. reflexivity.
  - apply (sensor_rows_refer_to_sensor_nodes (np := lcg_numpy)
             build_simple_water_network jan1_2023 (jan1_2023 + hours 2) 60 42).
    vm_compute. reflexivity.
Defined.

Lemma generated_timestamps_on_grid_and_ordered_witness :
  (exists df,
      returns (generate_sensor_data (np := lcg_numpy) build_simple_water_network
                                    jan1_2023 (jan1_2023 + hours 2) 45) 42 df
      /\ Forall (on_grid jan1_2023 (jan1_2023 + hours 2) 45)
                (map (fun r => timestamp (snd r)) df)
      /\ StronglySorted Z.le (map (fun r => timestamp (snd r)) df))
  /\ (exists cf,
         returns (generate_consumption_data (np := lcg_numpy)
                    build_simple_water_network
                    jan1_2023 (jan1_2023 + hours 2) 45) 42 cf
         /\ Forall (on_grid jan1_2023 (jan1_2023 + hours 2) 45)
                   (map (fun r => c_timestamp (snd r)) cf)
         /\ StronglySorted Z.le (map (fun r => c_timestamp (snd r)) cf)).
Proof.
  pose proof (generated_timestamps_on_grid_and_ordered (np := lcg_numpy)
                build_simple_water_network
                jan1_2023 (jan1_2023 + hours 2) 45 42) as [Hs Hc].
  split; eexists; (split; [vm_compute; reflexivity|]).
  - apply Hs. vm_compute. reflexivity.
  - apply Hc. vm_compute. reflexivity.
Defined.

Lemma consumption_returns_iff_zones_ready_witness :
  ((exists cf,
       returns (generate_consumption_data (np := lcg_numpy)
                  build_simple_water_network
                  jan1_2023 (jan1_2023 + hours 2) 60) 42 cf)
   <-> zones_ready build_simple_water_network = true)
  /\ ((exists cf,
          returns (generate_consumption_data (np := lcg_numpy)
                     bare_zone_network
                     jan1_2023 (jan1_2023 + hours 2) 60) 42 cf)
      <-> zones_ready bare_zone_network = true)
  /\ ((exists cf,
          returns (generate_consumption_data (np := lcg_numpy)
                     huge_demand_network
                     jan1_2023 (jan1_2023 + hours 2) 60) 42 cf)
      <-> zones_ready huge_demand_network = true)
  /\ ((exists cf,
          returns (generate_consumption_data (np := lcg_numpy)
                     text_demand_network
                     jan1_2023 (jan1_2023 + hours 2) 60) 42 cf)
      <-> zones_ready text_demand_network = true).
Proof.
  repeat split; apply (consumption_returns_iff_zones_ready (np := lcg_numpy));
    unfold jan1_2023, hours; lia.
Defined.

Lemma consumption_raises_only_attribute_errors_witness :
  fst (generate_consumption_data (np := lcg_numpy) bare_zone_network
                                 jan1_2023 jan1_2023 60 42)
  = Raise (KeyError "base_demand")
  /\ consumption_error (KeyError "base_demand")
  /\ fst (generate_consumption_data (np := lcg_numpy) huge_demand_network
                                    jan1_2023 jan1_2023 60 42)
     = Raise OverflowError
  /\ consumption_error OverflowError
  /\ fst (generate_consumption_data (np := lcg_numpy) text_demand_network
                                    jan1_2023 jan1_2023 60 42)
     = Raise TypeError
  /\ consumption_error TypeError.
Proof.
  split; [reflexivity|]. split.
  - apply (consumption_raises_only_attribute_errors (np := lcg_numpy)
             bare_zone_network jan1_2023 jan1_2023 60 42).
    reflexivity.
  - split; [vm_compute; reflexivity|]. split.
    + apply (consumption_raises_only_attribute_errors (np := lcg_numpy)
               huge_demand_network jan1_2023 jan1_2023 60 42).
      vm_compute. reflexivity.
    + split; [vm_compute; reflexivity|].
      apply (consumption_raises_only_attribute_errors (np := lcg_numpy)
               text_demand_network jan1_2023 jan1_2023 60 42).
      vm_compute. reflexivity.
Defined.

Lemma sensors_ready_generation_returns_witness :
  exists df g',
    generate_sensor_data (np := lcg_numpy) build_simple_water_network
                         jan1_2023 (jan1_2023 + hours 24) 60 42
    = (Ok df, g')
    /\ List.length df
       = (List.length (date_range jan1_2023 (jan1_2023 + hours 24)%Z 60)
          * List.length (nodes_of_type build_simple_water_network "Sensor"))%nat.
Proof.
  apply (sensors_ready_generation_returns (np := lcg_numpy)). reflexivity.
Defined.

Lemma sensor_generation_raises_only_listed_errors_witness :
  fst (generate_sensor_data (np := lcg_numpy) valve_network
                            jan1_2023 jan1_2023 60 42)
  = Raise (UnboundLocalError "base_pressure")
  /\ sensor_error (UnboundLocalError "base_pressure")
  /\ fst (generate_sensor_data (np := lcg_numpy) huge_demand_network
                               jan1_2023 jan1_2023 60 42)
     = Raise OverflowError
  /\ sensor_error OverflowError
  /\ fst (generate_sensor_data (np := lcg_numpy) text_demand_network
                               jan1_2023 jan1_2023 60 42)
     = Raise TypeError
  /\ sensor_error TypeError.
Proof.
  split; [reflexivity|]. split.
  - apply (sensor_generation_raises_only_listed_errors (np := lcg_numpy)
             valve_network jan1_2023 jan1_2023 60 42).
    reflexivity.
  - split; [vm_compute; reflexivity|]. split.
    + apply (sensor_generation_raises_only_listed_errors (np := lcg_numpy)
               huge_demand_network jan1_2023 jan1_2023 60 42).
      vm_compute. reflexivity.
    + split; [vm_compute; reflexivity|].
      apply (sensor_generation_raises_only_listed_errors (np := lcg_numpy)
               text_demand_network jan1_2023 jan1_2023 60 42).
      vm_compute. reflexivity.
Defined.

Lemma returned_sensor_table_needs_schema_witness :
  Forall (fun sid =>
            exists st attached,
              node_attr build_simple_water_network sid "sensor_type"
                        a_sensor_type = Ok st
              /\ node_attr build_simple_water_network sid "attached_to"
                           a_attached_to = Ok attached
              /\ (st = "Flow" \/ st = "Pressure" ->
                  exists ty, type_of build_simple_water_network attached
                             = Some ty)
              /\ (st = "Level" ->
                  level_ready build_simple_water_network attached = true))
         (nodes_of_type build_simple_water_network "Sensor").
Proof.
  eapply (returned_sensor_table_needs_schema (np := lcg_numpy)
            build_simple_water_network jan1_2023 (jan1_2023 + hours 1) 60 42).
  - unfold jan1_2023, hours. lia.
  - vm_compute. reflexivity.
Defined.

Lemma flow_rows_follow_diurnal_pattern_witness :
  exists df,
    returns (generate_sensor_data (np := lcg_numpy) build_simple_water_network
                                  jan1_2023 (jan1_2023 + hours 2) 60) 42 df
    /\ Forall (fun r =>
                 sensor_type (snd r) = "Flow" ->
                 exists base centre sigma g0 product,
                   base_flow build_simple_water_network (attached_to (snd r))
                   = Ok base
                   /\ (node_attr build_simple_water_network
                                 (attached_to (snd r)) "type" a_type
                       = Ok "ConsumptionZone" ->
                       node_attr build_simple_water_network
                                 (attached_to (snd r)) "base_demand"
                                 a_base_demand
                       = Ok base)
                   /\ bucket_of flow_pattern_table (hour (timestamp (snd r)))
                      = Some (centre, sigma)
                   /\ times_float base
                        (centre + fst (random_normal (NumPy := lcg_numpy)
                                         0 sigma g0))
                      = Ok product
                   /\ value (snd r)
                      = max 0 (product
                               + fst (random_normal (NumPy := lcg_numpy) 0 5
                                        (snd (random_normal (NumPy := lcg_numpy)
                                                0 sigma g0))))%float) df.
Proof.
  eexists. split.
  - vm_compute. reflexivity.
  - apply (flow_rows_follow_diurnal_pattern (np := lcg_numpy)
             build_simple_water_network jan1_2023 (jan1_2023 + hours 2) 60 42).
    vm_compute. reflexivity.
Defined.

Lemma pressure_rows_depend_on_node_type_witness :
  exists df,
    returns (generate_sensor_data (np := lcg_numpy) build_simple_water_network
                                  jan1_2023 (jan1_2023 + hours 2) 60) 42 df
    /\ Forall (fun r =>
                 sensor_type (snd r) = "Pressure" ->
                 forall ty,
                   node_attr build_simple_water_network (attached_to (snd r))
                             "type" a_type = Ok ty ->
                   pressure_handled ty = true ->
                   exists base g0,
                     assoc ty pressure_table = Some base
                     /\ value (snd r)
                        = max 0 (base
                                 + fst (random_normal (NumPy := lcg_numpy)
                                          0 10000 g0))%float) df.
Proof.
  eexists. split.
  - vm_compute. reflexivity.
  - apply (pressure_rows_depend_on_node_type (np := lcg_numpy)
             build_simple_water_network jan1_2023 (jan1_2023 + hours 2) 60 42).
    vm_compute. reflexivity.
Defined.

End CoverageExamples.
